(** * Subdomain-Enumerator: a shallow embedding of [subdomain_enum.py]

    The development follows the class [SubdomainEnumerator]:

    - the object's mutable attributes and the part of the environment the
      methods touch (output file, standard output, network) form one record
      [State];
    - [load_subdomains], [check_subdomain], [save_discovered_subdomain] are
      functions in a small state-and-exception monad, written statement by
      statement after the Python methods;
    - the thread pool of [enumerate] is a machine with one program counter
      per thread, an explicit lock, and the shared list used as a queue; a
      step is one scheduling decision, so every interleaving of the threads
      is an execution of the machine.

    Modelling conventions.  Python integers are [Z].  A Python [str] is
    held as the [string] of the bytes of its UTF-8 encoding; [str.strip]
    removes the white space of Unicode, in that encoding.  The file iterated
    by [load_subdomains] is given by the lines the iteration yields, or by
    the exception [open]/iteration raises.  Opening the output file, to
    truncate it or to append a line, succeeds or raises, as the environment
    decides; when it raises the file is left as it was.  The runs of the
    pool are those that start once [enumerate] has emptied the output file:
    when that [open] raises, [enumerate] is left before a thread exists.
    [requests.get] is an oracle that answers with a status code, raises a
    [RequestException], or raises some other [Exception] that is not an
    [IndexError].

    Beside the class: [Text] gives the lines a text file yields and the
    string methods [main] uses on the domain; [worker] is the loop of one
    thread on a queue of its own; the files [create_sample_subdomain_file]
    and [main] touch are a finite map from paths to what reading the file
    in text mode gives (its text, or the exception of a file that cannot be
    read or decoded), and [run_main] is [main] up to the start of the
    pool. *)

From Stdlib Require Import ZArith Ascii String DecimalString.
From stdpp Require Import base tactics option list relations strings.
From stdpp Require Import gmap.

Local Open Scope Z_scope.

(* ================================================================== *)
(** * Strings *)

Module Py.

(** [str(n)] for an integer. *)
Definition str_int (n : Z) : string := NilZero.string_of_int (Z.to_int n).

(** The characters for which [c.isspace()] holds, which are those
    [str.strip()] removes, by the bytes of their UTF-8 encoding.  One byte:
    U+0009..U+000D, U+001C..U+001F and the space. *)
Definition space1 (a : ascii) : bool :=
  let x := nat_of_ascii a in
  (((9 <=? x) && (x <=? 13)) || ((28 <=? x) && (x <=? 32)))%nat.

(** Two bytes: U+0085 (C2 85) and U+00A0 (C2 A0). *)
Definition space2 (a b : ascii) : bool :=
  let x := nat_of_ascii a in
  let y := nat_of_ascii b in
  ((x =? 194) && ((y =? 133) || (y =? 160)))%nat.

(** Three bytes: U+1680 (E1 9A 80), U+2000..U+200A (E2 80 80..8A), U+2028,
    U+2029 and U+202F (E2 80 A8, A9, AF), U+205F (E2 81 9F) and U+3000
    (E3 80 80). *)
Definition space3 (a b c : ascii) : bool :=
  let x := nat_of_ascii a in
  let y := nat_of_ascii b in
  let z := nat_of_ascii c in
  (((x =? 225) && (y =? 154) && (z =? 128))
   || ((x =? 226) && (y =? 128)
       && (((128 <=? z) && (z <=? 138))
           || (z =? 168) || (z =? 169) || (z =? 175)))
   || ((x =? 226) && (y =? 129) && (z =? 159))
   || ((x =? 227) && (y =? 128) && (z =? 128)))%nat.

(** What follows the first character of [s], when that character is white
    space. *)
Definition after_space (s : string) : option string :=
  match s with
  | String a s1 =>
      if space1 a then Some s1
      else match s1 with
           | String b s2 =>
               if space2 a b then Some s2
               else match s2 with
                    | String c s3 => if space3 a b c then Some s3 else None
                    | EmptyString => None
                    end
           | EmptyString => None
           end
  | EmptyString => None
  end.

(** [s.lstrip()]: the leading white space is dropped, character by
    character. *)
Fixpoint lstrip (s : string) : string :=
  match s with
  | String a s1 =>
      if space1 a then lstrip s1
      else match s1 with
           | String b s2 =>
               if space2 a b then lstrip s2
               else match s2 with
                    | String c s3 => if space3 a b c then lstrip s3 else s
                    | EmptyString => s
                    end
           | EmptyString => s
           end
  | EmptyString => EmptyString
  end.

(** [s.rstrip()]: the text is cut where only white space follows. *)
Fixpoint rstrip (s : string) : string :=
  match s with
  | EmptyString => EmptyString
  | String a s' =>
      match lstrip s with
      | EmptyString => EmptyString
      | _ => String a (rstrip s')
      end
  end.

(** [s.strip()] *)
Definition strip (s : string) : string := rstrip (lstrip s).

(** Truth value of a string: [if s] holds for the non-empty ones. *)
Definition truthy (s : string) : bool :=
  match s with EmptyString => false | _ => true end.

(** [len(l)] *)
Definition len {A} (l : list A) : Z := Z.of_nat (length l).

End Py.

(* ================================================================== *)
(** * Data *)

(** The arguments of one [requests.get] call.  [verify] is left at its
    default [True] unless the call passes [verify=False]. *)
Record Request := mkRequest {
  req_url : string;
  req_timeout : Z;
  req_allow_redirects : bool;
  req_verify : bool
}.

(** What one [requests.get] call does. *)
Inductive Outcome :=
| Response (status_code : Z)
| RaiseRequestException
| RaiseOther (e : string).

(** What opening a file for writing, and writing to it, does: it succeeds,
    or an exception with the text [e] is raised and the file is left as it
    was.  An exception raised after part of the text has reached the file is
    not modelled. *)
Inductive OpenOutcome :=
| Opened
| RaiseOnOpen (e : string).

(** What opening and iterating the candidate file does. *)
Inductive ReadOutcome :=
| FileLines (lines : list string)
| RaiseFileNotFoundError
| RaiseReadError (e : string).

(** Exceptions that travel through the methods. *)
Inductive Exn :=
| RequestException
| IndexError
| OtherException (e : string).

Inductive Result (A : Type) :=
| Return (a : A)
| Raise (x : Exn).
Arguments Return {A} a.
Arguments Raise {A} x.

(** The constructor arguments, never assigned again. *)
Record Config := mkConfig {
  domain : string;
  subdomain_file : string;
  output_file : string;
  max_threads : Z;
  timeout : Z
}.

(** The mutable attributes of the object and the environment. *)
Record State := mkState {
  discovered_subdomains : list string;
  total_subdomains : Z;
  checked_count : Z;
  output : string;            (* contents of the file [output_file] *)
  stdout : list string;       (* lines printed, oldest first *)
  requests : list Request     (* GET requests issued, oldest first *)
}.

(** [__init__] on an environment whose output file holds [previous]. *)
Definition init (previous : string) : State :=
  {| discovered_subdomains := [];
     total_subdomains := 0;
     checked_count := 0;
     output := previous;
     stdout := [];
     requests := [] |}.

Definition set_discovered (l : list string) (st : State) : State :=
  mkState l (total_subdomains st) (checked_count st) (output st) (stdout st)
    (requests st).
Definition set_total (n : Z) (st : State) : State :=
  mkState (discovered_subdomains st) n (checked_count st) (output st)
    (stdout st) (requests st).
Definition set_checked (n : Z) (st : State) : State :=
  mkState (discovered_subdomains st) (total_subdomains st) n (output st)
    (stdout st) (requests st).
Definition set_output (s : string) (st : State) : State :=
  mkState (discovered_subdomains st) (total_subdomains st) (checked_count st)
    s (stdout st) (requests st).
Definition print (line : string) (st : State) : State :=
  mkState (discovered_subdomains st) (total_subdomains st) (checked_count st)
    (output st) (stdout st ++ [line]) (requests st).
Definition log_request (r : Request) (st : State) : State :=
  mkState (discovered_subdomains st) (total_subdomains st) (checked_count st)
    (output st) (stdout st) (requests st ++ [r]).

(* ================================================================== *)
(** * The monad of the methods *)

Definition M (A : Type) : Type := State → Result A * State.

Global Instance M_ret : MRet M := λ A (a : A) st, (Return a, st).
Global Instance M_bind : MBind M := λ A B (k : A → M B) (m : M A) st,
  match m st with
  | (Return a, st') => k a st'
  | (Raise x, st') => (Raise x, st')
  end.
Definition raise {A} (x : Exn) : M A := λ st, (Raise x, st).
(** A statement that only changes the state. *)
Definition modify (f : State → State) : M unit := λ st, (Return (), f st).
Definition gets {A} (f : State → A) : M A := λ st, (Return (f st), st).

(** [try: m  except RequestException: h] *)
Definition except_RequestException {A} (m : M A) (h : M A) : M A :=
  λ st, match m st with
        | (Raise RequestException, st') => h st'
        | r => r
        end.

(* ================================================================== *)
(** * The methods *)

(** [[line.strip() for line in f if line.strip()]] *)
Definition stripped_lines (lines : list string) : list string :=
  Py.strip <$> filter (λ line, Py.truthy (Py.strip line) = true) lines.

(** The list [load_subdomains] returns. *)
Definition loaded (file : ReadOutcome) : list string :=
  match file with
  | FileLines lines => stripped_lines lines
  | RaiseFileNotFoundError | RaiseReadError _ => []
  end.

Section Methods.

Context (cfg : Config).

(** [load_subdomains] *)
Definition load_subdomains (file : ReadOutcome) : M (list string) :=
  match file with
  | FileLines lines =>
      let subdomains := stripped_lines lines in
      modify (set_total (Py.len subdomains)) ;;
      modify (print ("[INFO] Loaded " +:+ Py.str_int (Py.len subdomains)
                       +:+ " subdomains from " +:+ subdomain_file cfg)) ;;
      mret subdomains
  | RaiseFileNotFoundError =>
      modify (print ("[ERROR] File " +:+ subdomain_file cfg +:+ " not found!")) ;;
      mret []
  | RaiseReadError e =>
      modify (print ("[ERROR] Error reading file: " +:+ e)) ;;
      mret []
  end.

(** The text [save_discovered_subdomain] builds. *)
Definition discovery_info (subdomain url : string) (status_code : Z) : string :=
  subdomain +:+ " - " +:+ url +:+ " (Status: " +:+ Py.str_int status_code +:+ ")".

(** [save_discovered_subdomain]; the body runs under [self.lock].  [disk]
    tells what opening the output file to append the given text does; the
    exception it may raise is not a [RequestException]. *)
Definition save_discovered_subdomain (disk : string → OpenOutcome)
    (subdomain url : string) (status_code : Z) : M unit :=
  let info := discovery_info subdomain url status_code in
  modify (λ st, set_discovered (discovered_subdomains st ++ [info]) st) ;;
  match disk info with
  | Opened =>
      modify (λ st, set_output (output st +:+ info +:+ "
") st) ;;
      modify (print ("[FOUND] " +:+ info))
  | RaiseOnOpen e => raise (OtherException e)
  end.

(** [requests.get(url, timeout=..., allow_redirects=..., verify=...)] *)
Definition requests_get (net : Request → Outcome) (r : Request) : M Z :=
  modify (log_request r) ;;
  match net r with
  | Response status_code => mret status_code
  | RaiseRequestException => raise RequestException
  | RaiseOther e => raise (OtherException e)
  end.

Definition progress_line (current_count total : Z) : string :=
  "[PROGRESS] Checking " +:+ Py.str_int current_count +:+ "/"
    +:+ Py.str_int total +:+ " subdomains...".

Definition report_progress (current_count : Z) (st : State) : State :=
  if (current_count mod 10 =? 0) || (current_count =? 1)
  then print (progress_line current_count (total_subdomains st)) st
  else st.

Definition fqdn (subdomain : string) : string :=
  subdomain +:+ "." +:+ domain cfg.
Definition http_url (subdomain : string) : string :=
  "http://" +:+ fqdn subdomain.
Definition https_url (subdomain : string) : string :=
  "https://" +:+ fqdn subdomain.

Definition http_request (subdomain : string) : Request :=
  mkRequest (http_url subdomain) (timeout cfg) true true.
Definition https_request (subdomain : string) : Request :=
  mkRequest (https_url subdomain) (timeout cfg) true false.

(** One [try] block of [check_subdomain]: [Some true] when the block
    executes [return True], [None] when control leaves the block at its
    end or through [except RequestException: pass]. *)
Definition attempt (net : Request → Outcome) (disk : string → OpenOutcome)
    (subdomain : string) (r : Request) : M (option bool) :=
  except_RequestException
    (status_code ← requests_get net r;
     if status_code <? 400
     then save_discovered_subdomain disk (fqdn subdomain) (req_url r)
            status_code ;;
          mret (Some true)
     else mret None)
    (mret None).

(** [check_subdomain] *)
Definition check_subdomain (net : Request → Outcome)
    (disk : string → OpenOutcome) (subdomain : string) : M bool :=
  modify (λ st, set_checked (checked_count st + 1) st) ;;
  current_count ← gets checked_count;
  modify (report_progress current_count) ;;
  r ← attempt net disk subdomain (http_request subdomain);
  match r with
  | Some b => mret b
  | None =>
      r ← attempt net disk subdomain (https_request subdomain);
      match r with
      | Some b => mret b
      | None => mret false
      end
  end.

End Methods.

(* ================================================================== *)
(** * The thread pool of [enumerate] *)

(** Where a worker thread stands.  The constructors carry the locals of
    the frames that are live: [subdomain] is the candidate that [worker]
    popped and passed to [check_subdomain]; the [AtSave] points also carry
    the arguments of [save_discovered_subdomain]. *)
Inductive WorkerPc :=
| AtPop                                     (* subdomain_queue.pop(0) *)
| AtCountAcquire (subdomain : string)       (* with self.lock: *)
| AtCountLoad (subdomain : string)          (* read self.checked_count *)
| AtCountStore (subdomain : string) (v : Z) (* self.checked_count = v + 1 *)
| AtProgress (subdomain : string)           (* current_count, the print *)
| AtCountRelease (subdomain : string)       (* end of the with block *)
| AtHttp (subdomain : string)               (* requests.get(url, ...) *)
| AtHttps (subdomain : string)              (* requests.get(https_url, ...) *)
| AtSaveAcquire (subdomain name url : string) (status_code : Z)
| AtSaveAppend (subdomain name url : string) (status_code : Z)
| AtSaveWrite (subdomain name url : string) (status_code : Z)
| AtSavePrint (subdomain name url : string) (status_code : Z)
| AtSaveRelease (subdomain : string)
| AtThreadError (e : string)                (* except Exception as e: print *)
| Finished.                                 (* except IndexError: break *)

(** Where the thread that runs [enumerate] stands. *)
Inductive MainPc :=
| Starting (i stop : Z)    (* for i in range(stop): create and start *)
| Joining (i : nat)        (* for t in threads: t.join(), at threads[i] *)
| Returned
| Propagated (x : Exn).

Global Instance WorkerPc_eq_dec : EqDecision WorkerPc.
Proof. solve_decision. Defined.

Global Instance OpenOutcome_eq_dec : EqDecision OpenOutcome.
Proof. solve_decision. Defined.

Record Machine := mkMachine {
  self : State;
  subdomain_queue : list string;
  lock : option nat;             (* the thread that holds [self.lock] *)
  threads : list WorkerPc;
  main : MainPc
}.

Definition goto (tid : nat) (pc : WorkerPc) (m : Machine) : Machine :=
  mkMachine (self m) (subdomain_queue m) (lock m) (<[tid := pc]> (threads m))
    (main m).
Definition on_self (f : State → State) (m : Machine) : Machine :=
  mkMachine (f (self m)) (subdomain_queue m) (lock m) (threads m) (main m).
Definition set_queue (q : list string) (m : Machine) : Machine :=
  mkMachine (self m) q (lock m) (threads m) (main m).
Definition set_lock (l : option nat) (m : Machine) : Machine :=
  mkMachine (self m) (subdomain_queue m) l (threads m) (main m).
Definition set_main (pc : MainPc) (m : Machine) : Machine :=
  mkMachine (self m) (subdomain_queue m) (lock m) (threads m) pc.
Definition start_thread (m : Machine) : Machine :=
  mkMachine (self m) (subdomain_queue m) (lock m) (threads m ++ [AtPop])
    (main m).

(** One scheduling decision: the main thread runs (the clock gives the
    text of the elapsed time for the report), or worker [tid] runs; when it
    stands at a [requests.get] the network gives [answer], and when it
    stands at the [open] of the output file the file system gives [disk]. *)
Inductive Event :=
| RunMain (elapsed : string)
| RunWorker (tid : nat) (answer : Outcome) (disk : OpenOutcome).

Section Pool.

Context (cfg : Config).

(** Where a GET with the given answer leads: into
    [save_discovered_subdomain] when the status is below 400, to [next]
    when the block is left normally or through [except RequestException],
    to the handler of [worker] for any other exception. *)
Definition after_get (answer : Outcome) (subdomain url : string)
    (next : WorkerPc) : WorkerPc :=
  match answer with
  | Response status_code =>
      if status_code <? 400
      then AtSaveAcquire subdomain (fqdn cfg subdomain) url status_code
      else next
  | RaiseRequestException => next
  | RaiseOther e => AtThreadError e
  end.

(** One step of thread [tid].  When the [open] in
    [save_discovered_subdomain] raises, the [with self.lock:] block is left,
    which releases the lock, and the exception travels through
    [check_subdomain], whose handlers are for [RequestException] only, to
    the handler of [worker]. *)
Definition worker_step (tid : nat) (answer : Outcome) (disk : OpenOutcome)
    (m : Machine) : option Machine :=
  pc ← threads m !! tid;
  match pc with
  | AtPop =>
      match subdomain_queue m with
      | [] => Some (goto tid Finished m)
      | subdomain :: rest =>
          Some (goto tid (AtCountAcquire subdomain) (set_queue rest m))
      end
  | AtCountAcquire s =>
      match lock m with
      | None => Some (goto tid (AtCountLoad s) (set_lock (Some tid) m))
      | Some _ => None
      end
  | AtCountLoad s =>
      Some (goto tid (AtCountStore s (checked_count (self m))) m)
  | AtCountStore s v =>
      Some (goto tid (AtProgress s) (on_self (set_checked (v + 1)) m))
  | AtProgress s =>
      Some (goto tid (AtCountRelease s)
              (on_self (λ st, report_progress (checked_count st) st) m))
  | AtCountRelease s =>
      Some (goto tid (AtHttp s) (set_lock None m))
  | AtHttp s =>
      Some (goto tid (after_get answer s (http_url cfg s) (AtHttps s))
              (on_self (log_request (http_request cfg s)) m))
  | AtHttps s =>
      Some (goto tid (after_get answer s (https_url cfg s) AtPop)
              (on_self (log_request (https_request cfg s)) m))
  | AtSaveAcquire s name url c =>
      match lock m with
      | None => Some (goto tid (AtSaveAppend s name url c)
                        (set_lock (Some tid) m))
      | Some _ => None
      end
  | AtSaveAppend s name url c =>
      Some (goto tid (AtSaveWrite s name url c)
              (on_self (λ st, set_discovered
                                (discovered_subdomains st
                                   ++ [discovery_info name url c]) st) m))
  | AtSaveWrite s name url c =>
      match disk with
      | Opened =>
          Some (goto tid (AtSavePrint s name url c)
                  (on_self (λ st, set_output
                                    (output st
                                       +:+ discovery_info name url c +:+ "
") st) m))
      | RaiseOnOpen e => Some (goto tid (AtThreadError e) (set_lock None m))
      end
  | AtSavePrint s name url c =>
      Some (goto tid (AtSaveRelease s)
              (on_self (print ("[FOUND] " +:+ discovery_info name url c)) m))
  | AtSaveRelease s =>
      Some (goto tid AtPop (set_lock None m))
  | AtThreadError e =>
      Some (goto tid AtPop
              (on_self (print ("[ERROR] Thread error: " +:+ e)) m))
  | Finished => None
  end.

(** The lines [enumerate] prints after the last [join]. *)
Definition report (elapsed : string) (st : State) : State :=
  let st := print "
[COMPLETE] Subdomain enumeration finished!" st in
  let st := print ("[STATS] Time taken: " +:+ elapsed +:+ " seconds") st in
  let st := print ("[STATS] Total subdomains checked: "
                     +:+ Py.str_int (total_subdomains st)) st in
  let st := print ("[STATS] Active subdomains found: "
                     +:+ Py.str_int (Py.len (discovered_subdomains st))) st in
  let st := print ("[INFO] Results saved to " +:+ output_file cfg) st in
  match discovered_subdomains st with
  | [] => st
  | found =>
      foldl (λ st subdomain, print ("  â†’ " +:+ subdomain) st)
        (print "
[SUMMARY] Discovered subdomains:" st) found
  end.

Definition main_step (elapsed : string) (m : Machine) : option Machine :=
  match main m with
  | Starting i stop =>
      if i <? stop
      then Some (set_main (Starting (i + 1) stop) (start_thread m))
      else Some (set_main (Joining 0) m)
  | Joining i =>
      match threads m !! i with
      | Some Finished => Some (set_main (Joining (S i)) m)
      | Some _ => None
      | None => Some (set_main Returned (on_self (report elapsed) m))
      end
  | Returned => None
  | Propagated _ => None
  end.

Definition exec (e : Event) (m : Machine) : option Machine :=
  match e with
  | RunMain elapsed => main_step elapsed m
  | RunWorker tid answer disk => worker_step tid answer disk m
  end.

(** [enumerate] up to the creation of the threads.  [o] tells what
    [open(self.output_file, 'w')] does: when it raises, the exception leaves
    [enumerate] before [load_subdomains] is called. *)
Definition enumerate (o : OpenOutcome) (file : ReadOutcome) (st : State)
    : Machine :=
  let st := print ("[INFO] Starting subdomain enumeration for "
                     +:+ domain cfg) st in
  let st := print ("[INFO] Using " +:+ Py.str_int (max_threads cfg)
                     +:+ " threads with " +:+ Py.str_int (timeout cfg)
                     +:+ "s timeout") st in
  match o with
  | RaiseOnOpen e => mkMachine st [] None [] (Propagated (OtherException e))
  | Opened =>
      let st := set_output "" st in
      match load_subdomains cfg file st with
      | (Return [], st) => mkMachine st [] None [] Returned
      | (Return subdomains, st) =>
          mkMachine st subdomains None []
            (Starting 0 (Z.min (max_threads cfg) (Py.len subdomains)))
      | (Raise x, st) => mkMachine st [] None [] (Propagated x)
      end
  end.

(** A step of the pool under some scheduling decision. *)
Definition step (m m' : Machine) : Prop := ∃ e, exec e m = Some m'.

(** A whole schedule. *)
Fixpoint run (schedule : list Event) (m : Machine) : option Machine :=
  match schedule with
  | [] => Some m
  | e :: rest => m' ← exec e m; run rest m'
  end.

End Pool.

(* ================================================================== *)
(** * Classification of the program points *)

(** The points inside a [with self.lock:] block. *)
Definition holds_lock (pc : WorkerPc) : bool :=
  match pc with
  | AtCountLoad _ | AtCountStore _ _ | AtProgress _ | AtCountRelease _
  | AtSaveAppend _ _ _ _ | AtSaveWrite _ _ _ _ | AtSavePrint _ _ _ _
  | AtSaveRelease _ => true
  | _ => false
  end.

(** A popped candidate whose increment of [checked_count] is still to be
    stored. *)
Definition uncounted (pc : WorkerPc) : nat :=
  match pc with
  | AtCountAcquire _ | AtCountLoad _ | AtCountStore _ _ => 1
  | _ => 0
  end.

(** An upper bound on the steps a thread takes before its next pop. *)
Definition weight (pc : WorkerPc) : nat :=
  match pc with
  | Finished => 0
  | AtPop => 1
  | AtThreadError _ => 2
  | AtSaveRelease _ => 2
  | AtSavePrint _ _ _ _ => 3
  | AtSaveWrite _ _ _ _ => 4
  | AtSaveAppend _ _ _ _ => 5
  | AtSaveAcquire _ _ _ _ => 6
  | AtHttps _ => 7
  | AtHttp _ => 8
  | AtCountRelease _ => 9
  | AtProgress _ => 10
  | AtCountStore _ _ => 11
  | AtCountLoad _ => 12
  | AtCountAcquire _ => 13
  end%nat.

Definition main_weight (m : Machine) : nat :=
  match main m with
  | Starting i stop => 3 * Z.to_nat (stop - i) + length (threads m) + 2
  | Joining i => (length (threads m) - i) + 1
  | Returned | Propagated _ => 0
  end%nat.

(** Every step makes this number smaller. *)
Definition fuel (m : Machine) : nat :=
  (main_weight m + sum_list_with weight (threads m)
   + 13 * length (subdomain_queue m))%nat.

(** The candidate a thread has popped and may still record as live. *)
Definition may_record (pc : WorkerPc) : option string :=
  match pc with
  | AtCountAcquire s | AtCountLoad s | AtCountStore s _ | AtProgress s
  | AtCountRelease s | AtHttp s | AtHttps s
  | AtSaveAcquire s _ _ _ | AtSaveAppend s _ _ _ => Some s
  | _ => None
  end.

(** The text of the output file that corresponds to a list of entries. *)
Definition file_of (entries : list string) : string :=
  foldr (λ info rest, info +:+ "
" +:+ rest) "" entries.

(** The line a thread has appended to the list and not yet to the file. *)
Definition pending_write (m : Machine) : string :=
  match lock m with
  | Some tid =>
      match threads m !! tid with
      | Some (AtSaveWrite _ name url c) => discovery_info name url c +:+ "
"
      | _ => ""
      end
  | None => ""
  end.

(* ================================================================== *)
(** * Notions used in the statements *)

Section Notions.

Context (cfg : Config).

(** Mutual exclusion: a thread inside a [with self.lock:] block is the
    holder of the lock, and the holder is a thread inside such a block. *)
Record lock_inv (m : Machine) : Prop := {
  lock_excl : ∀ tid pc,
    threads m !! tid = Some pc → holds_lock pc = true → lock m = Some tid;
  lock_owner : ∀ tid,
    lock m = Some tid → ∃ pc, threads m !! tid = Some pc ∧ holds_lock pc = true
}.

(** Printing changes the standard output and nothing else. *)
Definition same_but_stdout (st st' : State) : Prop :=
  discovered_subdomains st' = discovered_subdomains st
  ∧ total_subdomains st' = total_subdomains st
  ∧ checked_count st' = checked_count st
  ∧ output st' = output st
  ∧ requests st' = requests st.

(** Counting: the value a thread is about to store is one more than the
    current [checked_count], and the [n] candidates are split among those
    counted, those still queued and those popped and not yet counted. *)
Record count_inv (n : Z) (m : Machine) : Prop := {
  count_store : ∀ tid s v,
    threads m !! tid = Some (AtCountStore s v) → v = checked_count (self m);
  count_total :
    checked_count (self m) + Py.len (subdomain_queue m)
      + Z.of_nat (sum_list_with uncounted (threads m)) = n;
  count_nonneg : 0 ≤ checked_count (self m)
}.

(** A thread has finished only when the queue was empty, and the queue
    never grows. *)
Definition drain_inv (m : Machine) : Prop :=
  ∀ tid, threads m !! tid = Some Finished → subdomain_queue m = [].

(** The loops of [enumerate]: [i] threads exist in round [i] of the
    starting loop, [Z.to_nat stop] afterwards; the threads joined so far, and
    all of them at the end, have finished. *)
Definition main_inv (stop : Z) (m : Machine) : Prop :=
  match main m with
  | Starting i stop' =>
      stop' = stop ∧ 0 ≤ i ≤ Z.max 0 stop ∧ Py.len (threads m) = i
  | Joining i =>
      length (threads m) = Z.to_nat stop
      ∧ ∀ j, (j < i)%nat → threads m !! j = Some Finished
  | Returned =>
      length (threads m) = Z.to_nat stop
      ∧ ∀ j pc, threads m !! j = Some pc → pc = Finished
  | Propagated _ => False
  end.

(** The output file is the list written out, short of the line the lock
    holder is about to write.  This is kept as long as no [open] of the
    output file raises. *)
Definition log_inv (m : Machine) : Prop :=
  output (self m) +:+ pending_write m = file_of (discovered_subdomains (self m)).

(** The file system lets the thread write. *)
Definition accepts (e : Event) : Prop :=
  match e with
  | RunWorker _ _ (RaiseOnOpen _) => False
  | _ => True
  end.

(** How often the label [s] occurs in a list of labels. *)
Definition occurrences (s : string) (l : list string) : nat :=
  length (filter (λ x, x = s) l).

(** A recorded success: the candidate, the URL that answered and the
    status code. *)
Definition Success : Type := string * string * Z.

(** The entry [save_discovered_subdomain] makes for a success. *)
Definition entry (r : Success) : string :=
  discovery_info (fqdn cfg r.1.1) r.1.2 r.2.

(** The URL is one of the two of the candidate and the status is below
    400. *)
Definition success_ok (r : Success) : Prop :=
  (r.1.2 = http_url cfg r.1.1 ∨ r.1.2 = https_url cfg r.1.1) ∧ r.2 < 400.

(** 1 when the thread may still record the label [s], else 0. *)
Definition tracks (s : string) (pc : WorkerPc) : nat :=
  if decide (may_record pc = Some s) then 1%nat else 0%nat.

(** The arguments [check_subdomain] passes to
    [save_discovered_subdomain]. *)
Definition save_args_ok (pc : WorkerPc) : Prop :=
  match pc with
  | AtSaveAcquire s name url c | AtSaveAppend s name url c
  | AtSaveWrite s name url c | AtSavePrint s name url c =>
      name = fqdn cfg s ∧ success_ok (s, url, c)
  | _ => True
  end.

(** Every entry of the list is the entry of a success, and per label the
    successes recorded, the candidates queued and the candidates in the
    hands of a thread that may still record them are no more than the
    occurrences of the label among the candidates. *)
Record once_inv (candidates : list string) (m : Machine) : Prop := {
  once_args : ∀ tid pc, threads m !! tid = Some pc → save_args_ok pc;
  once_recorded : ∃ recorded : list Success,
    discovered_subdomains (self m) = entry <$> recorded
    ∧ Forall success_ok recorded
    ∧ ∀ s, (occurrences s (recorded.*1.*1)
            + occurrences s (subdomain_queue m)
            + sum_list_with (tracks s) (threads m)
            ≤ occurrences s candidates)%nat
}.

(** 1 when the thread holds a candidate it may still record, else 0. *)
Definition in_hand (pc : WorkerPc) : nat :=
  match pc with
  | AtCountAcquire _ | AtCountLoad _ | AtCountStore _ _ | AtProgress _
  | AtCountRelease _ | AtHttp _ | AtHttps _
  | AtSaveAcquire _ _ _ _ | AtSaveAppend _ _ _ _ => 1%nat
  | _ => 0%nat
  end.

(** The entries, the candidates queued and the candidates in the hands of a
    thread that may still record them are no more than [n]. *)
Definition bound_inv (n : nat) (m : Machine) : Prop :=
  (length (discovered_subdomains (self m)) + length (subdomain_queue m)
   + sum_list_with in_hand (threads m) ≤ n)%nat.

(** All of the above, and [total_subdomains] as [load_subdomains] left
    it. *)
Record pool_inv (candidates : list string) (total : Z) (m : Machine)
    : Prop := {
  inv_total : total_subdomains (self m) = total;
  inv_lock : lock_inv m;
  inv_count : count_inv (Py.len candidates) m;
  inv_drain : drain_inv m;
  inv_main : main_inv (Z.min (max_threads cfg) (Py.len candidates)) m;
  inv_once : once_inv candidates m;
  inv_bound : bound_inv (length candidates) m
}.

(** The state after the counting block of [check_subdomain]. *)
Definition counted (st : State) : State :=
  report_progress (checked_count st + 1) (set_checked (checked_count st + 1) st).

(** The state after [save_discovered_subdomain] has appended to the list,
    before it opens the file. *)
Definition listed (name url : string) (c : Z) (st : State) : State :=
  set_discovered (discovered_subdomains st ++ [discovery_info name url c]) st.

(** The state after [save_discovered_subdomain], when the file could be
    written. *)
Definition saved (name url : string) (c : Z) (st : State) : State :=
  print ("[FOUND] " +:+ discovery_info name url c)
    (set_output (output st +:+ discovery_info name url c +:+ "
")
       (set_discovered (discovered_subdomains st ++ [discovery_info name url c])
          st)).

(** What a call of [save_discovered_subdomain] from [check_subdomain]
    leads to. *)
Definition save_part (disk : string → OpenOutcome) (name url : string)
    (c : Z) (st : State) : Result bool * State :=
  match disk (discovery_info name url c) with
  | Opened => (Return true, saved name url c st)
  | RaiseOnOpen e => (Raise (OtherException e), listed name url c st)
  end.

(** What the second [try] block of [check_subdomain] leads to. *)
Definition https_part (net : Request → Outcome) (disk : string → OpenOutcome)
    (s : string) (st : State) : Result bool * State :=
  let st := log_request (https_request cfg s) st in
  match net (https_request cfg s) with
  | Response c =>
      if c <? 400
      then save_part disk (fqdn cfg s) (https_url cfg s) c st
      else (Return false, st)
  | RaiseRequestException => (Return false, st)
  | RaiseOther e => (Raise (OtherException e), st)
  end.

(** An attempt that does not make the candidate live and lets
    [check_subdomain] go on: a [RequestException], or a status of 400 or
    above. *)
Definition falls_through (o : Outcome) : Prop :=
  o = RaiseRequestException ∨ ∃ c, o = Response c ∧ 400 ≤ c.

(** The answer the oracle [net] gives to the request thread [tid] is about
    to issue. *)
Definition answer_at (net : Request → Outcome) (tid : nat) (m : Machine)
    : Outcome :=
  match threads m !! tid with
  | Some (AtHttp s) => net (http_request cfg s)
  | Some (AtHttps s) => net (https_request cfg s)
  | _ => Response 0
  end.

(** What the oracle [disk] gives for the line thread [tid] is about to
    write. *)
Definition disk_at (disk : string → OpenOutcome) (tid : nat) (m : Machine)
    : OpenOutcome :=
  match threads m !! tid with
  | Some (AtSaveWrite _ name url c) => disk (discovery_info name url c)
  | _ => Opened
  end.

(** [n] consecutive steps of thread [tid], the network answering as [net]
    and the file system as [disk]. *)
Fixpoint solo (net : Request → Outcome) (disk : string → OpenOutcome)
    (tid : nat) (n : nat) (m : Machine) : option Machine :=
  match n with
  | O => Some m
  | S n =>
      m' ← worker_step cfg tid (answer_at net tid m) (disk_at disk tid m) m;
      solo net disk tid n m'
  end.

(** Where [worker] stands when the call is over: back at the pop after a
    return, out of the loop after an [IndexError], in the handler of
    [except Exception] after any other exception. *)
Definition after_call (r : Result bool) : WorkerPc :=
  match r with
  | Return _ => AtPop
  | Raise IndexError => Finished
  | Raise RequestException => AtThreadError "RequestException"
  | Raise (OtherException e) => AtThreadError e
  end.

(** The number of line feeds in a text. *)
Fixpoint newlines (s : string) : nat :=
  match s with
  | EmptyString => 0
  | String c s' => ((if Ascii.eqb c "010" then 1 else 0) + newlines s')%nat
  end.

End Notions.

(* ================================================================== *)
(** * A run on three candidates *)

(** The scenario: a candidate file with the lines a, b, a blank line and c,
    for example.com with two threads; a answers 200 over HTTP, b refuses the
    connection on both schemes, c refuses HTTP and answers 200 over HTTPS;
    the output file still holds a line of an earlier run. *)
Definition demo_cfg : Config :=
  mkConfig "example.com" "subdomains.txt" "discovered_subdomains.txt" 2 5.

Definition demo_net (r : Request) : Outcome :=
  if String.eqb (req_url r) "http://a.example.com" then Response 200
  else if String.eqb (req_url r) "https://c.example.com" then Response 200
  else RaiseRequestException.

(** The output file can be written. *)
Definition demo_disk (line : string) : OpenOutcome := Opened.

Definition demo_file : ReadOutcome :=
  FileLines ["a
"; "b
"; "  
"; "c
"].

Definition demo_previous : string :=
  "old.example.com - http://old.example.com (Status: 200)
".

Definition demo_start : Machine :=
  enumerate demo_cfg Opened demo_file (init demo_previous).

(** One interleaving of the main thread and the two workers; the answer of
    an event is read only when the thread stands at a GET, its file system
    outcome only when the thread stands at the [open]. *)
Definition demo_schedule : list Event :=
  let mn := RunMain "0.42" in
  let w0 := RunWorker 0%nat (Response 0) Opened in
  let w1 := RunWorker 1%nat (Response 0) Opened in
  let refused := RunWorker 1%nat RaiseRequestException Opened in
  [ mn; w0; w0; mn; w0; w1; mn; w0; w0; w0;
    RunWorker 0%nat (Response 200) Opened;
    w1; w1; w1; w1; w1; w0; refused; w0; refused; w0; w1; w0; w0; w0;
    w1; w1; mn; w1; w1; w1; refused; RunWorker 1%nat (Response 200) Opened;
    w1; w1; w1; w1; w1; w1; mn; mn ].

Definition demo_final : Machine :=
  default demo_start (run demo_cfg demo_schedule demo_start).

(** The same candidates and answers on one thread, with a disk that is
    full when the results are to be written: the main thread starts the
    worker, the worker runs until it has finished, the main thread joins it
    and reports. *)
Definition full_cfg : Config :=
  mkConfig "example.com" "subdomains.txt" "discovered_subdomains.txt" 1 5.

Definition full_disk (line : string) : OpenOutcome :=
  RaiseOnOpen "[Errno 28] No space left on device".

Definition full_start : Machine :=
  enumerate full_cfg Opened demo_file (init demo_previous).

Definition full_final : Machine :=
  default full_start
    (m ← run full_cfg [RunMain "0.10"; RunMain "0.10"] full_start;
     m ← solo full_cfg demo_net full_disk 0 32 m;
     run full_cfg [RunMain "0.10"; RunMain "0.10"] m).


(* ================================================================== *)
(** * Text files, [str.replace] and [str.strip(chars)] *)

Module Text.

(** Reading in text mode: [\r\n] and a lone [\r] become [\n]. *)
Fixpoint universal_newlines (s : string) : string :=
  match s with
  | EmptyString => EmptyString
  | String c rest =>
      if Ascii.eqb c "013" then
        match rest with
        | String c' rest' =>
            if Ascii.eqb c' "010"
            then String "010" (universal_newlines rest')
            else String "010" (universal_newlines rest)
        | EmptyString => String "010" EmptyString
        end
      else String c (universal_newlines rest)
  end.

(** The lines of a text, each with its line feed; the last one may lack
    it. *)
Fixpoint lines_of (s : string) : list string :=
  match s with
  | EmptyString => []
  | String c rest =>
      if Ascii.eqb c "010" then String c EmptyString :: lines_of rest
      else match lines_of rest with
           | [] => [String c EmptyString]
           | line :: more => String c line :: more
           end
  end.

(** What [for line in f] yields for a file with this content. *)
Definition readlines (content : string) : list string :=
  lines_of (universal_newlines content).

(** [s.replace(old, "")] from a position where [skip] characters of an
    occurrence of [old] are still to be dropped. *)
Fixpoint remove_from (old : string) (skip : nat) (s : string) : string :=
  match s with
  | EmptyString => EmptyString
  | String c rest =>
      match skip with
      | S k => remove_from old k rest
      | O =>
          if String.prefix old s
          then remove_from old (String.length old - 1) rest
          else String c (remove_from old 0 rest)
      end
  end.

(** [s.replace(old, "")]: the occurrences of [old] are dropped, left to
    right, without overlap. *)
Definition remove_all (old s : string) : string :=
  match old with
  | EmptyString => s
  | _ => remove_from old 0 s
  end.

(** [c in chars] *)
Fixpoint among (chars : string) (c : ascii) : bool :=
  match chars with
  | EmptyString => false
  | String d rest => Ascii.eqb c d || among rest c
  end.

Fixpoint lstrip_chars (chars s : string) : string :=
  match s with
  | EmptyString => EmptyString
  | String c s' => if among chars c then lstrip_chars chars s' else s
  end.

Fixpoint rstrip_chars (chars s : string) : string :=
  match s with
  | EmptyString => EmptyString
  | String c s' =>
      match rstrip_chars chars s' with
      | EmptyString =>
          if among chars c then EmptyString else String c EmptyString
      | r => String c r
      end
  end.

(** [s.count(c)] for a character. *)
Fixpoint count (c : ascii) (s : string) : nat :=
  match s with
  | EmptyString => 0
  | String d rest => ((if Ascii.eqb d c then 1 else 0) + count c rest)%nat
  end.

(** [s.strip(chars)] *)
Definition strip_chars (chars s : string) : string :=
  rstrip_chars chars (lstrip_chars chars s).

End Text.

(** What is left of a string after [lstrip] does not start with white
    space. *)
Definition starts_clean (s : string) : Prop := Py.after_space s = None.

(** A label that a candidate file holds on a line of its own: not empty,
    no white space at either end, no line break inside. *)
Definition label_ok (s : string) : Prop :=
  s ≠ EmptyString ∧ Py.strip s = s
  ∧ Text.among s "010" = false ∧ Text.among s "013" = false.

(* ================================================================== *)
(** * [worker] run by one thread alone *)

Section Worker.

Context (cfg : Config).

(** The text of an exception in the handler of [worker].  Only
    [OtherException] reaches it. *)
Definition exn_text (x : Exn) : string :=
  match x with
  | OtherException e => e
  | RequestException => "RequestException"
  | IndexError => "IndexError"
  end.

(** [worker] on a queue no other thread touches: the state it leaves and
    what is left of the queue. *)
Fixpoint worker (net : Request → Outcome) (disk : string → OpenOutcome)
    (subdomain_queue : list string) (st : State) : State * list string :=
  match subdomain_queue with
  | [] => (st, [])
  | subdomain :: rest =>
      match check_subdomain cfg net disk subdomain st with
      | (Return _, st) => worker net disk rest st
      | (Raise IndexError, st) => (st, rest)
      | (Raise x, st) =>
          worker net disk rest
            (print ("[ERROR] Thread error: " +:+ exn_text x) st)
      end
  end.

(** The requests [check_subdomain] issues for a candidate. *)
Definition probes (net : Request → Outcome) (s : string) : list Request :=
  match net (http_request cfg s) with
  | Response c =>
      if c <? 400 then [http_request cfg s]
      else [http_request cfg s; https_request cfg s]
  | RaiseRequestException => [http_request cfg s; https_request cfg s]
  | RaiseOther _ => [http_request cfg s]
  end.

(** The entry [check_subdomain] appends to the list for a candidate, if
    any. *)
Definition hit (net : Request → Outcome) (s : string) : list string :=
  match net (http_request cfg s) with
  | Response c =>
      if c <? 400 then [discovery_info (fqdn cfg s) (http_url cfg s) c]
      else match net (https_request cfg s) with
           | Response c' =>
               if c' <? 400
               then [discovery_info (fqdn cfg s) (https_url cfg s) c']
               else []
           | _ => []
           end
  | RaiseRequestException =>
      match net (https_request cfg s) with
      | Response c' =>
          if c' <? 400
          then [discovery_info (fqdn cfg s) (https_url cfg s) c']
          else []
      | _ => []
      end
  | RaiseOther _ => []
  end.

End Worker.

(** The entries whose line the file system lets into the file. *)
Definition let_in (disk : string → OpenOutcome) (entries : list string)
    : list string :=
  filter (λ info, disk info = Opened) entries.

(* ================================================================== *)
(** * [create_sample_subdomain_file] and [main] *)

Definition common_subdomains : list string :=
  [ "www"; "mail"; "ftp"; "admin"; "test"; "dev"; "staging"; "api"; "blog";
    "shop"; "store"; "news"; "support"; "help"; "docs"; "portal"; "app";
    "mobile"; "secure"; "login"; "auth"; "cpanel"; "webmail"; "pop"; "smtp";
    "imap"; "ns1"; "ns2"; "dns"; "mx"; "exchange"; "autodiscover"; "remote";
    "vpn"; "ssl"; "secure"; "static"; "media"; "cdn"; "assets"; "img";
    "images"; "video"; "downloads"; "files"; "upload"; "backup"; "old";
    "new"; "beta"; "alpha"; "demo"; "preview"; "sandbox"; "qa"; "uat" ].

(** The text written by [for x in labels: f.write(f"{x}\n")]. *)
Definition written (labels : list string) : string :=
  foldr (λ subdomain rest, subdomain +:+ "
" +:+ rest) "" labels.

(** What reading a file in text mode gives: its text, or the exception,
    with the text [e], that [open] or the iteration raises for a file that
    exists and cannot be read, or whose bytes the codec rejects. *)
Inductive FileData :=
| Readable (content : string)
| Unreadable (e : string).

(** [create_sample_subdomain_file]: the files and the lines printed. *)
Definition create_sample_subdomain_file (o : OpenOutcome)
    (fs : gmap string FileData) : gmap string FileData * list string :=
  match o with
  | Opened =>
      (<["subdomains.txt" := Readable (written common_subdomains)]> fs,
       ["[INFO] Created sample subdomain list with "
          +:+ Py.str_int (Py.len common_subdomains) +:+ " entries"])
  | RaiseOnOpen e =>
      (fs, ["[ERROR] Could not create subdomain file: " +:+ e])
  end.

(** The result of [parser.parse_args()]. *)
Record Args := mkArgs {
  arg_domain : option string;
  arg_file : string;
  arg_output : string;
  arg_threads : Z;
  arg_timeout : Z;
  arg_create_sample : bool
}.

(** The defaults of the parser, for a command line with no argument. *)
Definition default_args : Args :=
  mkArgs None "subdomains.txt" "discovered_subdomains.txt" 50 5 false.

(** [args.domain.replace("http://", "").replace("https://", "").strip("/")] *)
Definition normalise (domain : string) : string :=
  Text.strip_chars "/"
    (Text.remove_all "https://" (Text.remove_all "http://" domain)).

(** Opening and iterating the file at [path]. *)
Definition read_file (fs : gmap string FileData) (path : string)
    : ReadOutcome :=
  match fs !! path with
  | Some (Readable content) => FileLines (Text.readlines content)
  | Some (Unreadable e) => RaiseReadError e
  | None => RaiseFileNotFoundError
  end.

(** The text of a file; a file that is missing or holds no text counts as
    empty. *)
Definition text_of (file : option FileData) : string :=
  match file with
  | Some (Readable content) => content
  | _ => ""
  end.

(** The files after [open(self.output_file, 'w').close()]. *)
Definition truncated (cfg : Config) (o : OpenOutcome)
    (fs : gmap string FileData) : gmap string FileData :=
  match o with
  | Opened => <[output_file cfg := Readable ""]> fs
  | RaiseOnOpen _ => fs
  end.

(** The enumerator [main] builds. *)
Definition config_of (args : Args) (domain : string) : Config :=
  mkConfig (normalise domain) (arg_file args) (arg_output args)
    (arg_threads args) (arg_timeout args).

(** [enumerate] of a new object on the files [fs]: the output file is
    truncated before the candidate file is opened. *)
Definition scan (cfg : Config) (o : OpenOutcome) (fs : gmap string FileData)
    : Machine :=
  enumerate cfg o
    (read_file (truncated cfg o fs) (subdomain_file cfg))
    (init (text_of (fs !! output_file cfg))).

(** What [main] does after parsing. *)
Inductive MainResult :=
| SampleCreated (fs : gmap string FileData) (printed : list string)
| NoDomain (printed : list string)
| Scanning (cfg : Config) (pool : Machine).

(** [main], up to the start of the pool.  [o] tells what the one [open]
    for writing that [main] reaches first does: that of the sample file, or
    that of the output file in [enumerate]. *)
Definition run_main (args : Args) (o : OpenOutcome)
    (fs : gmap string FileData) : MainResult :=
  if arg_create_sample args
  then let (fs, printed) := create_sample_subdomain_file o fs in
       SampleCreated fs printed
  else match arg_domain args with
       | None | Some EmptyString =>
           NoDomain ["[ERROR] Please provide a domain name";
                     "Usage: python subdomain_enum.py <domain>";
                     "   or: python subdomain_enum.py --create-sample"]
       | Some domain =>
           Scanning (config_of args domain)
             (scan (config_of args domain) o fs)
       end.

(* ================================================================== *)
(** * More notions about the pool *)

Global Instance Request_eq_dec : EqDecision Request.
Proof. solve_decision. Defined.

Section MoreNotions.

Context (cfg : Config).

(** The candidate a thread holds in its local [subdomain]. *)
Definition label_of (pc : WorkerPc) : option string :=
  match pc with
  | AtCountAcquire s | AtCountLoad s | AtCountStore s _ | AtProgress s
  | AtCountRelease s | AtHttp s | AtHttps s
  | AtSaveAcquire s _ _ _ | AtSaveAppend s _ _ _ | AtSaveWrite s _ _ _
  | AtSavePrint s _ _ _ | AtSaveRelease s => Some s
  | AtPop | AtThreadError _ | Finished => None
  end.

(** The request is one of the two of a candidate of the list. *)
Definition probe_of (candidates : list string) (r : Request) : Prop :=
  ∃ s, s ∈ candidates ∧ (r = http_request cfg s ∨ r = https_request cfg s).

(** Requests, queue and locals only name candidates of the list. *)
Record req_inv (candidates : list string) (m : Machine) : Prop := {
  req_log : Forall (probe_of candidates) (requests (self m));
  req_queue : Forall (λ s, s ∈ candidates) (subdomain_queue m);
  req_threads : ∀ tid pc s,
    threads m !! tid = Some pc → label_of pc = Some s → s ∈ candidates
}.

(** The candidate of the thread, while its HTTP request is still to be
    issued. *)
Definition http_pending (pc : WorkerPc) : list string :=
  match pc with
  | AtCountAcquire s | AtCountLoad s | AtCountStore s _ | AtProgress s
  | AtCountRelease s | AtHttp s => [s]
  | _ => []
  end.

(** The candidate of the thread, while its HTTPS request may still be
    issued. *)
Definition https_pending (pc : WorkerPc) : list string :=
  match pc with
  | AtCountAcquire s | AtCountLoad s | AtCountStore s _ | AtProgress s
  | AtCountRelease s | AtHttp s | AtHttps s => [s]
  | _ => []
  end.

(** The requests that verify the certificate are those of the HTTP
    attempts, the others those of the HTTPS attempts. *)
Definition verified (rs : list Request) : list Request :=
  filter (λ r, req_verify r = true) rs.
Definition unverified (rs : list Request) : list Request :=
  filter (λ r, req_verify r = false) rs.

(** How often the request [x] is in a list. *)
Definition times (x : Request) (rs : list Request) : nat :=
  count_occ Request_eq_dec rs x.
Global Arguments times : simpl never.

(** Every candidate is queued, in the hands of a thread that has not yet
    issued the HTTP request, or has its HTTP request in the log; the HTTPS
    requests issued or still possible are no more than the candidates. *)
Record get_inv (candidates : list string) (m : Machine) : Prop := {
  get_http : ∀ x,
    (times x (verified (requests (self m)))
     + times x (http_request cfg <$> subdomain_queue m)
     + sum_list_with (λ pc, times x (http_request cfg <$> http_pending pc))
         (threads m)
     = times x (http_request cfg <$> candidates))%nat;
  get_https : ∀ x,
    (times x (unverified (requests (self m)))
     + times x (https_request cfg <$> subdomain_queue m)
     + sum_list_with (λ pc, times x (https_request cfg <$> https_pending pc))
         (threads m)
     ≤ times x (https_request cfg <$> candidates))%nat
}.

(** No worker exists and nothing was done with the candidates; the main
    thread is at a loop that has nothing to do, or has returned, with the
    report printed when there were candidates. *)
Definition idle_inv (file : ReadOutcome) (m : Machine) : Prop :=
  threads m = [] ∧ requests (self m) = []
  ∧ checked_count (self m) = 0
  ∧ discovered_subdomains (self m) = [] ∧ output (self m) = ""
  ∧ subdomain_queue m = loaded file
  ∧ ((∃ i stop, main m = Starting i stop ∧ i = 0 ∧ stop ≤ 0)
     ∨ main m = Joining 0 ∨ main m = Returned)
  ∧ (main m = Returned → loaded file ≠ [] →
       "[STATS] Total subdomains checked: "
         +:+ Py.str_int (total_subdomains (self m)) ∈ stdout (self m)
       ∧ "[STATS] Active subdomains found: 0" ∈ stdout (self m)).

(** The progress lines among the lines printed. *)
Definition is_progress (line : string) : bool :=
  String.prefix "[PROGRESS]" line.
Definition progress_lines (out : list string) : list string :=
  filter (λ line, is_progress line = true) out.

(** The progress lines for the counts 1 to [k], in that order. *)
Fixpoint progress_upto (total : Z) (k : nat) : list string :=
  match k with
  | O => []
  | S k' =>
      progress_upto total k'
        ++ (if (Z.of_nat k mod 10 =? 0) || (Z.of_nat k =? 1)
            then [progress_line (Z.of_nat k) total] else [])
  end.

(** 1 when the thread has stored the count and not yet reported it. *)
Definition at_progress (pc : WorkerPc) : nat :=
  match pc with AtProgress _ => 1%nat | _ => 0%nat end.

(** The progress lines printed are those of the counts reached, short of
    the one the lock holder is about to report. *)
Definition progress_inv (total : Z) (m : Machine) : Prop :=
  ∃ k : nat,
    checked_count (self m)
      = Z.of_nat k + Z.of_nat (sum_list_with at_progress (threads m))
    ∧ progress_lines (stdout (self m)) = progress_upto total k.

End MoreNotions.

(* ================================================================== *)
(** * What is printed *)

Section Printed.

Context (cfg : Config).

(** The lines of the report for a total, the entries found and the text of
    the elapsed time. *)
Definition report_lines (elapsed : string) (total : Z) (found : list string)
    : list string :=
  [ "
[COMPLETE] Subdomain enumeration finished!";
    "[STATS] Time taken: " +:+ elapsed +:+ " seconds";
    "[STATS] Total subdomains checked: " +:+ Py.str_int total;
    "[STATS] Active subdomains found: " +:+ Py.str_int (Py.len found);
    "[INFO] Results saved to " +:+ output_file cfg ]
  ++ match found with
     | [] => []
     | _ => "
[SUMMARY] Discovered subdomains:" :: ((λ info, "  â†’ " +:+ info) <$> found)
     end.

(** When [enumerate] has returned after the loops, the report is the last
    thing printed. *)
Definition report_inv (candidates : list string) (m : Machine) : Prop :=
  main m = Returned → candidates ≠ [] →
  ∃ elapsed before,
    stdout (self m)
    = before
      ++ report_lines elapsed (Py.len candidates)
           (discovered_subdomains (self m)).

(** The lines that announce an entry. *)
Definition is_found (line : string) : bool := String.prefix "[FOUND] " line.
Definition found_lines (out : list string) : list string :=
  filter (λ line, is_found line = true) out.

(** The entry the lock holder has appended to the list and whose line it
    has not yet tried to write. *)
Definition unsettled (m : Machine) : list string :=
  match lock m with
  | Some tid =>
      match threads m !! tid with
      | Some (AtSaveWrite _ name url c) => [discovery_info name url c]
      | _ => []
      end
  | None => []
  end.

(** The line the lock holder is about to print for the entry it has
    written to the file. *)
Definition pending_print (m : Machine) : list string :=
  match lock m with
  | Some tid =>
      match threads m !! tid with
      | Some (AtSavePrint _ name url c) =>
          ["[FOUND] " +:+ discovery_info name url c]
      | _ => []
      end
  | None => []
  end.

(** Of the entries of the list, in its order, some are kept: the output
    file is their lines and the announcements are theirs, short of the one
    the lock holder is about to print.  The others are those whose line the
    file system refused: as long as [strict] holds there are none. *)
Definition kept_inv (strict : Prop) (m : Machine) : Prop :=
  ∃ kept settled,
    discovered_subdomains (self m) = settled ++ unsettled m
    ∧ kept `sublist_of` settled
    ∧ output (self m) = file_of kept
    ∧ found_lines (stdout (self m)) ++ pending_print m
      = (λ info, "[FOUND] " +:+ info) <$> kept
    ∧ (strict → kept = settled).

End Printed.

(* ================================================================== *)
(** * More scenarios *)

(** The candidate file of the scenario, as the text on disk. *)
Definition demo_content : string :=
  "a
b
  
c
".

(** The scenario with a thread count of zero. *)
Definition idle_cfg : Config :=
  mkConfig "example.com" "subdomains.txt" "discovered_subdomains.txt" 0 5.

Definition idle_final : Machine :=
  default (enumerate idle_cfg Opened demo_file (init demo_previous))
    (run idle_cfg [RunMain "0.00"; RunMain "0.00"]
       (enumerate idle_cfg Opened demo_file (init demo_previous))).

(** One thread at the pop, the main thread waiting for it. *)
Definition lone_worker : Machine :=
  mkMachine (init "") ["a"; "b"; "c"] None [AtPop] (Joining 0).

(** One path for the candidates and for the results. *)
Definition same_cfg : Config :=
  mkConfig "example.com" "list.txt" "list.txt" 2 5.

Definition same_fs : gmap string FileData :=
  {[ "list.txt" := Readable "a
b
" ]}.

(* ================================================================== *)
(** * Proof tools *)

(** Case analysis on the step a worker takes. *)
Ltac worker_cases H :=
  unfold worker_step in H;
  match type of H with
  | context [threads ?m !! ?tid] =>
      let pc := fresh "pc" in
      let Hpc := fresh "Hpc" in
      destruct (threads m !! tid) as [pc|] eqn:Hpc; [|discriminate];
      simpl in H; destruct pc; simpl in H; repeat case_match; simplify_eq
  end.

Ltac main_cases H :=
  unfold main_step in H; repeat case_match; simplify_eq;
  repeat match goal with
         | H : (_ <? _) = true |- _ => apply Z.ltb_lt in H
         | H : (_ <? _) = false |- _ => apply Z.ltb_ge in H
         end.

(** Unfolds one call of [check_subdomain] down to the answers of the
    network. *)
Ltac run_check :=
  unfold check_subdomain, attempt, except_RequestException, requests_get,
    save_discovered_subdomain, modify, gets, raise, mbind, mret, M_bind, M_ret;
  simpl.

(* ================================================================== *)
(** * Lists updated at one index *)

Section ListUpdate.

Context {A : Type}.
Implicit Types (l : list A) (f : A → nat).

Lemma sum_list_with_insert f l i x y :
  l !! i = Some x →
  (sum_list_with f (<[i:=y]> l) + f x = sum_list_with f l + f y)%nat.
Proof.
  revert i. induction l as [|a l IH]; intros [|i] Hi; simplify_eq/=.
  - lia.
  - specialize (IH _ Hi). lia.
Qed.

Lemma sum_list_with_snoc f l x :
  sum_list_with f (l ++ [x]) = (sum_list_with f l + f x)%nat.
Proof. rewrite sum_list_with_app. simpl. lia. Qed.

Lemma sum_list_with_zero f l :
  (∀ i x, l !! i = Some x → f x = 0%nat) → sum_list_with f l = 0%nat.
Proof.
  induction l as [|a l IH]; intros H; simpl; [done|].
  rewrite (H 0%nat a eq_refl), IH; [done|].
  intros i x Hi. apply (H (S i)). done.
Qed.

End ListUpdate.

(* ================================================================== *)
(** * Invariants of the pool *)

Section Invariants.

Context (cfg : Config).

Lemma holds_lock_after_get answer s url next :
  holds_lock next = false → holds_lock (after_get cfg answer s url next) = false.
Proof. intros ?. unfold after_get. by repeat case_match. Qed.

(** ** Mutual exclusion *)

Lemma lock_inv_worker_step tid answer disk m m' :
  lock_inv m → worker_step cfg tid answer disk m = Some m' → lock_inv m'.
Proof.
  intros [Hex How] H. worker_cases H; split; simpl.
  all: try (intros t p Hl Hh;
            apply list_lookup_insert_Some in Hl as [(<- & <- & _) | (Hne & Hl)];
            [ rewrite ?holds_lock_after_get in Hh by done;
              first [ done | by eapply Hex ]
            | specialize (Hex _ _ Hl Hh) as Ht;
              try (specialize (Hex _ _ Hpc eq_refl)); congruence ]).
  all: intros t Hl; destruct (decide (t = tid)) as [->|Hne];
    [ rewrite list_lookup_insert_eq by (by eapply lookup_lt_Some);
      first [ by eauto
            | destruct (How _ Hl) as (pc0 & Hpc0 & Hh0);
              rewrite Hpc in Hpc0; by simplify_eq/= ]
    | rewrite list_lookup_insert_ne by done;
      apply How; congruence ].
Qed.

Lemma lock_inv_main_step elapsed m m' :
  lock_inv m → main_step cfg elapsed m = Some m' → lock_inv m'.
Proof.
  intros [Hex How] H. main_cases H; split; simpl; try done.
  - intros t p Hl Hh. apply lookup_snoc_Some in Hl as [(_ & Hl) | (_ & <-)];
      [by eapply Hex | done].
  - intros t Hl. destruct (How _ Hl) as (pc & Hpc & Hh).
    exists pc. split; [|done]. by apply lookup_app_l_Some.
Qed.

(** ** Counting *)

Lemma same_but_stdout_trans st1 st2 st3 :
  same_but_stdout st1 st2 → same_but_stdout st2 st3 → same_but_stdout st1 st3.
Proof. unfold same_but_stdout. intuition congruence. Qed.

Lemma foldl_print_same (f : string → string) l st :
  same_but_stdout st (foldl (λ st x, print (f x) st) st l).
Proof.
  revert st. induction l as [|x l IH]; intros st; simpl; [done|].
  eapply same_but_stdout_trans; [|apply IH]. done.
Qed.

Lemma report_same elapsed st : same_but_stdout st (report cfg elapsed st).
Proof.
  unfold report. simpl. destruct (discovered_subdomains st) eqn:E; [done|].
  eapply same_but_stdout_trans;
    [|apply (foldl_print_same (λ x, "  â†’ " +:+ x))].
  done.
Qed.

Lemma report_progress_same c st : same_but_stdout st (report_progress c st).
Proof. unfold report_progress. by case_match. Qed.

Lemma report_only_prints elapsed st :
  checked_count (report cfg elapsed st) = checked_count st.
Proof. apply report_same. Qed.

Lemma uncounted_after_get answer s url next :
  uncounted next = 0%nat → uncounted (after_get cfg answer s url next) = 0%nat.
Proof. intros ?. unfold after_get. by repeat case_match. Qed.

Lemma checked_count_report_progress c st :
  checked_count (report_progress c st) = checked_count st.
Proof. unfold report_progress. by case_match. Qed.

Lemma count_inv_worker_step n tid answer disk m m' :
  lock_inv m → count_inv n m →
  worker_step cfg tid answer disk m = Some m' → count_inv n m'.
Proof.
  intros [Hex _] [Hst Htot Hnn] H. worker_cases H; split; simpl.
  all: try (intros t s' v' Hl;
            apply list_lookup_insert_Some in Hl as [(<- & ? & _) | (Hne & Hl)];
            [ unfold after_get in *; repeat case_match; by simplify_eq
            | rewrite ?checked_count_report_progress;
              first [ by eapply Hst
                    | pose proof (Hex _ _ Hl eq_refl);
                      pose proof (Hex _ _ Hpc eq_refl); congruence ] ]).
  all: try (rewrite ?checked_count_report_progress;
            try (pose proof (Hst _ _ _ Hpc)); simpl; lia).
  all: match goal with
       | |- context [<[_:=?pc']> _] =>
           pose proof (sum_list_with_insert uncounted _ _ _ pc' Hpc) as Hsum
       end;
    simpl in Hsum; rewrite ?uncounted_after_get in Hsum by done;
    rewrite ?checked_count_report_progress;
    try (specialize (Hst _ _ _ Hpc)); unfold Py.len in *;
    repeat match goal with H : subdomain_queue _ = _ |- _ => rewrite H in * end;
    simpl length in *; lia.
Qed.

Lemma total_subdomains_worker_step tid answer disk m m' :
  worker_step cfg tid answer disk m = Some m' →
  total_subdomains (self m') = total_subdomains (self m).
Proof.
  intros H. worker_cases H; simpl; try done.
  apply report_progress_same.
Qed.

Lemma total_subdomains_main_step elapsed m m' :
  main_step cfg elapsed m = Some m' →
  total_subdomains (self m') = total_subdomains (self m).
Proof.
  intros H. main_cases H; simpl; try done. apply report_same.
Qed.

Lemma count_inv_main_step n elapsed m m' :
  count_inv n m → main_step cfg elapsed m = Some m' → count_inv n m'.
Proof.
  intros [Hst Htot Hnn] H. main_cases H; split; simpl; try done.
  - intros t s v Hl. apply lookup_snoc_Some in Hl as [(_ & Hl) | (_ & ?)];
      [by eapply Hst | done].
  - rewrite sum_list_with_snoc. simpl. lia.
  - intros t s v Hl. rewrite report_only_prints. by eapply Hst.
  - by rewrite report_only_prints.
  - by rewrite report_only_prints.
Qed.

(** ** A thread finishes only on an empty queue *)

Lemma drain_inv_worker_step tid answer disk m m' :
  drain_inv m → worker_step cfg tid answer disk m = Some m' → drain_inv m'.
Proof.
  intros Hd H. worker_cases H; intros t Hl; simpl in *.
  all: apply list_lookup_insert_Some in Hl as [(<- & ? & _) | (Hne & Hl)].
  all: try done.
  all: try by eapply Hd.
  all: try (unfold after_get in *; repeat case_match; by simplify_eq).
  specialize (Hd _ Hl). congruence.
Qed.

Lemma drain_inv_main_step elapsed m m' :
  drain_inv m → main_step cfg elapsed m = Some m' → drain_inv m'.
Proof.
  intros Hd H. main_cases H; intros t Hl; simpl in *; try by eapply Hd.
  apply lookup_snoc_Some in Hl as [(_ & Hl) | (_ & ?)]; [by eapply Hd | done].
Qed.

(** ** The loops of [enumerate] *)

Lemma main_inv_worker_step stop tid answer disk m m' :
  main_inv stop m → worker_step cfg tid answer disk m = Some m' → main_inv stop m'.
Proof.
  intros Hm H. unfold main_inv in *.
  assert (main m' = main m ∧ length (threads m') = length (threads m)
          ∧ (∀ j, threads m !! j = Some Finished →
                  threads m' !! j = Some Finished)
          ∧ ∃ pc, threads m !! tid = Some pc ∧ pc ≠ Finished)
    as (-> & Hlen & Hfin & pc & Hpc & Hne).
  { worker_cases H; simpl; rewrite length_insert; split_and!; try done.
    all: try (eexists; split; [done|done]).
    all: intros j Hj; rewrite list_lookup_insert_ne; [done|congruence]. }
  unfold Py.len in *. rewrite Hlen. destruct (main m); try done.
  - destruct Hm as [? Hj]. split; [done|]. intros j ?. apply Hfin. by apply Hj.
  - destruct Hm as [? Hj]. specialize (Hj _ _ Hpc). done.
Qed.

Lemma main_inv_main_step stop elapsed m m' :
  main_inv stop m → main_step cfg elapsed m = Some m' → main_inv stop m'.
Proof.
  intros Hm H. main_cases H; unfold main_inv in *; simpl.
  all: repeat match goal with H : main _ = _ |- _ => rewrite H in * end.
  - destruct Hm as (-> & ? & Hlen). unfold Py.len in *.
    rewrite length_app. simpl length. split_and!; lia.
  - destruct Hm as (-> & ? & Hlen). unfold Py.len in *.
    split; [lia|]. intros j ?. lia.
  - destruct Hm as [? Hj]. split; [done|]. intros j ?.
    destruct (decide (j = i)) as [->|]; [done|]. apply Hj. lia.
  - destruct Hm as [? Hj]. split; [done|]. intros j pc Hl.
    rewrite Hj in Hl; [congruence|].
    apply lookup_lt_Some in Hl.
    match goal with H : _ !! _ = None |- _ => apply lookup_ge_None in H end.
    lia.
Qed.

(** ** Termination under every schedule *)

Lemma weight_after_get answer s url next :
  (weight (after_get cfg answer s url next) ≤ Nat.max 6 (weight next))%nat.
Proof. unfold after_get. repeat case_match; simpl; lia. Qed.

Lemma fuel_worker_step tid answer disk m m' :
  worker_step cfg tid answer disk m = Some m' → (fuel m' < fuel m)%nat.
Proof.
  intros H. worker_cases H; unfold fuel, main_weight; simpl.
  all: rewrite ?length_insert.
  all: match goal with
       | |- context [<[_:=?pc']> _] =>
           pose proof (sum_list_with_insert weight _ _ _ pc' Hpc) as Hsum
       end; simpl in Hsum.
  all: try match type of Hsum with
       | context [after_get ?c ?a ?s ?u ?n] =>
           pose proof (weight_after_get a s u n); simpl in *
       end.
  all: repeat match goal with H : subdomain_queue _ = _ |- _ => rewrite H in * end.
  all: simpl length in *; lia.
Qed.

Lemma fuel_main_step elapsed m m' :
  main_step cfg elapsed m = Some m' → (fuel m' < fuel m)%nat.
Proof.
  intros H. main_cases H; unfold fuel, main_weight; simpl.
  all: repeat match goal with H : main _ = _ |- _ => rewrite H in * end.
  all: rewrite ?sum_list_with_snoc, ?length_app; simpl.
  all: try match goal with H : _ !! _ = Some _ |- _ =>
             apply lookup_lt_Some in H end.
  all: try match goal with H : _ !! _ = None |- _ =>
             apply lookup_ge_None in H end.
  all: lia.
Qed.

Lemma fuel_step m m' : step cfg m m' → (fuel m' < fuel m)%nat.
Proof.
  intros [[elapsed|tid answer disk] H]; simpl in H;
    eauto using fuel_main_step, fuel_worker_step.
Qed.

(** ** No deadlock *)

(** A thread that is neither finished nor waiting for the lock can run. *)
Lemma worker_step_enabled tid pc m :
  threads m !! tid = Some pc →
  pc ≠ Finished →
  (lock m = None ∨ holds_lock pc = true) →
  ∃ m', worker_step cfg tid (Response 200) Opened m = Some m'.
Proof.
  intros Hpc Hne Hl. unfold worker_step. rewrite Hpc. simpl.
  destruct pc; try done; try by eauto.
  - destruct (subdomain_queue m); eauto.
  - destruct Hl as [->|?]; [eauto|done].
  - destruct Hl as [->|?]; [eauto|done].
Qed.

Lemma step_enabled stop m :
  lock_inv m → main_inv stop m → main m ≠ Returned → ∃ m', step cfg m m'.
Proof.
  intros [Hex How] Hm Hr. unfold main_inv in Hm.
  destruct (main m) as [i stop'|i| |] eqn:Hmain; try done.
  - exists (if i <? stop'
            then set_main (Starting (i + 1) stop') (start_thread m)
            else set_main (Joining 0) m).
    exists (RunMain ""). simpl. unfold main_step. rewrite Hmain.
    by destruct (i <? stop').
  - destruct (threads m !! i) as [pc|] eqn:Hpc.
    + destruct (decide (pc = Finished)) as [->|Hne].
      * eexists. exists (RunMain ""). simpl. unfold main_step.
        by rewrite Hmain, Hpc.
      * destruct (lock m) as [owner|] eqn:Hlock.
        -- destruct (How _ eq_refl) as (pco & Hpco & Hh).
           destruct (worker_step_enabled owner pco m) as [m' Hm']; auto.
           { by intros ->. }
           exists m'. by exists (RunWorker owner (Response 200) Opened).
        -- destruct (worker_step_enabled i pc m) as [m' Hm']; auto.
           exists m'. by exists (RunWorker i (Response 200) Opened).
    + eexists. exists (RunMain ""). simpl. unfold main_step.
      by rewrite Hmain, Hpc.
Qed.

(** ** The output file follows the list *)

Lemma append_assoc (a b c : string) : (a +:+ b) +:+ c = a +:+ b +:+ c.
Proof.
  induction a as [|x a IH]; [done|].
  change (String x ((a +:+ b) +:+ c) = String x (a +:+ b +:+ c)).
  by rewrite IH.
Qed.

Lemma append_nil_r (a : string) : a +:+ "" = a.
Proof.
  induction a as [|x a IH]; [done|].
  change (String x (a +:+ "") = String x a). by rewrite IH.
Qed.

Lemma file_of_snoc entries info :
  file_of (entries ++ [info]) = file_of entries +:+ info +:+ "
".
Proof.
  induction entries as [|x l IH]; simpl.
  - by rewrite append_nil_r.
  - by rewrite IH, !append_assoc.
Qed.

Lemma log_inv_worker_step tid answer m m' :
  lock_inv m → log_inv m →
  worker_step cfg tid answer Opened m = Some m' → log_inv m'.
Proof.
  intros [Hex How] Hlog H. unfold log_inv in *.
  assert (tid < length (threads m))%nat as Hlt.
  { unfold worker_step in H. destruct (threads m !! tid) eqn:E; [|done].
    by eapply lookup_lt_Some. }
  worker_cases H; unfold pending_write in *; simpl.
  all: try match goal with
           | H : lock _ = None |- _ =>
               rewrite H, append_nil_r in Hlog
           end.
  all: try (destruct (report_progress_same (checked_count (self m)) (self m))
              as (-> & _ & _ & -> & _)).
  all: try (pose proof (Hex _ _ Hpc eq_refl) as Hown; rewrite Hown in *;
            rewrite Hpc in Hlog).
  all: rewrite ?list_lookup_insert_eq by done.
  all: rewrite ?append_nil_r in *.
  all: try done.
  all: try by rewrite ?file_of_snoc, ?append_assoc, <- ?Hlog.
  all: try (destruct (lock m) as [o|] eqn:Hlock; [|done];
            destruct (decide (o = tid)) as [->|Hne];
            [ rewrite list_lookup_insert_eq by done; rewrite Hpc in Hlog;
              rewrite ?append_nil_r in Hlog;
              unfold after_get; repeat case_match; simplify_eq;
              by rewrite ?append_nil_r
            | by rewrite list_lookup_insert_ne by done ]).
Qed.

Lemma log_inv_main_step elapsed m m' :
  lock_inv m → log_inv m → main_step cfg elapsed m = Some m' → log_inv m'.
Proof.
  intros [Hex How] Hlog H. unfold log_inv in *.
  main_cases H; unfold pending_write in *; simpl; try done.
  - destruct (lock m) as [o|] eqn:Hlock; [|done].
    destruct (How _ eq_refl) as (pc & Hpc & _).
    by rewrite (lookup_app_l_Some _ _ _ _ Hpc), <- Hlog, Hpc.
  - by destruct (report_same elapsed (self m)) as (-> & _ & _ & -> & _).
Qed.

(** ** One entry per popped candidate at most *)

Lemma save_args_ok_after_get answer s url next :
  url = http_url cfg s ∨ url = https_url cfg s →
  save_args_ok cfg next → save_args_ok cfg (after_get cfg answer s url next).
Proof.
  intros Hurl Hnext. unfold after_get. repeat case_match; try done.
  simpl. split; [done|]. split; [done|]. simpl. lia.
Qed.

Lemma tracks_after_get s0 answer s url next :
  may_record next = None ∨ may_record next = Some s →
  (tracks s0 (after_get cfg answer s url next) ≤ tracks s0 (AtHttp s))%nat.
Proof.
  intros Hnext.
  assert (may_record (after_get cfg answer s url next) = None
          ∨ may_record (after_get cfg answer s url next) = Some s) as Hm.
  { unfold after_get. repeat case_match; simpl; auto. }
  unfold tracks. simpl. repeat case_decide; try lia.
  destruct Hm; congruence.
Qed.

Lemma once_inv_worker_step candidates tid answer disk m m' :
  once_inv cfg candidates m →
  worker_step cfg tid answer disk m = Some m' → once_inv cfg candidates m'.
Proof.
  intros [Hargs (recorded & Hd & Hok & Hocc)] H.
  worker_cases H; split; simpl.
  all: try (intros t p Hl;
            apply list_lookup_insert_Some in Hl as [(<- & <- & _) | (Hne & Hl)];
            [ try done;
              first [ apply save_args_ok_after_get; by eauto
                    | by apply (Hargs _ _ Hpc) ]
            | by eapply Hargs ]).
  all: rewrite ?(proj1 (report_progress_same _ _)).
  all: match goal with
       | |- context [AtSaveWrite ?s ?name ?url ?c] =>
           exists (recorded ++ [(s, url, c)]);
           destruct (Hargs _ _ Hpc) as [-> ?];
           rewrite Hd, !fmap_app, Forall_app, Forall_singleton;
           split_and!; try done
       | |- _ => exists recorded; split_and!; try done
       end.
  all: intros s0; specialize (Hocc s0).
  all: match goal with
       | |- context [<[_:=?pc']> _] =>
           pose proof (sum_list_with_insert (tracks s0) _ _ _ pc' Hpc) as Hsum
       end.
  all: try match type of Hsum with
       | context [after_get ?c ?a ?s ?u AtPop] =>
           pose proof (tracks_after_get s0 a s u AtPop (or_introl eq_refl))
       | context [after_get ?c ?a ?s ?u (AtHttps ?s)] =>
           pose proof (tracks_after_get s0 a s u (AtHttps s) (or_intror eq_refl))
       end.
  all: unfold occurrences, tracks in *; simpl in *.
  all: repeat match goal with H : subdomain_queue _ = _ |- _ => rewrite H in * end.
  all: rewrite ?filter_app, ?length_app, ?filter_cons, ?filter_nil in *.
  all: repeat case_decide; simplify_eq/=; lia.
Qed.

Lemma once_inv_main_step candidates elapsed m m' :
  once_inv cfg candidates m →
  main_step cfg elapsed m = Some m' → once_inv cfg candidates m'.
Proof.
  intros [Hargs (recorded & Hd & Hok & Hocc)] H.
  main_cases H; split; simpl; try done.
  - intros t p Hl. apply lookup_snoc_Some in Hl as [(_ & Hl) | (_ & <-)];
      [by eapply Hargs | done].
  - exists recorded. split_and!; try done. intros s. specialize (Hocc s).
    rewrite sum_list_with_snoc.
    assert (tracks s AtPop = 0%nat) as -> by (unfold tracks; by case_decide).
    lia.
  - exists recorded. split_and!; try done.
  - exists recorded. split_and!; try done.
  - exists recorded. rewrite (proj1 (report_same _ _)). split_and!; done.
Qed.

Lemma in_hand_after_get answer s url next :
  (in_hand (after_get cfg answer s url next) ≤ 1)%nat.
Proof.
  assert (∀ pc, (in_hand pc ≤ 1)%nat) as H by (intros []; simpl; lia).
  apply H.
Qed.

Lemma bound_inv_worker_step n tid answer disk m m' :
  bound_inv n m → worker_step cfg tid answer disk m = Some m' → bound_inv n m'.
Proof.
  intros Hb H. unfold bound_inv in *. worker_cases H; simpl.
  all: rewrite ?(proj1 (report_progress_same _ _)), ?length_app.
  all: match goal with
       | |- context [<[_:=?pc']> _] =>
           pose proof (sum_list_with_insert in_hand _ _ _ pc' Hpc) as Hsum
       end.
  all: try match type of Hsum with
       | context [after_get ?c ?a ?s ?u ?n] =>
           pose proof (in_hand_after_get a s u n)
       end.
  all: repeat match goal with H : subdomain_queue _ = _ |- _ => rewrite H in * end.
  all: simpl in *; lia.
Qed.

Lemma bound_inv_main_step n elapsed m m' :
  bound_inv n m → main_step cfg elapsed m = Some m' → bound_inv n m'.
Proof.
  intros Hb H. unfold bound_inv in *. main_cases H; simpl; try done.
  - rewrite sum_list_with_snoc. simpl. lia.
  - by rewrite (proj1 (report_same _ _)).
Qed.

End Invariants.

(* ================================================================== *)
(** * The invariant along a run *)

Section Runs.

Context (cfg : Config).

Lemma pool_inv_step candidates total m m' :
  pool_inv cfg candidates total m → step cfg m m' → pool_inv cfg candidates total m'.
Proof.
  intros [] [[elapsed|tid answer disk] H]; simpl in H; split;
    try (by erewrite ?total_subdomains_main_step,
              ?total_subdomains_worker_step by done);
    eauto using lock_inv_main_step, count_inv_main_step, drain_inv_main_step,
      main_inv_main_step, once_inv_main_step,
      bound_inv_main_step, bound_inv_worker_step,
      lock_inv_worker_step, count_inv_worker_step, drain_inv_worker_step,
      main_inv_worker_step, once_inv_worker_step.
Qed.

Lemma pool_inv_rtc candidates total m m' :
  pool_inv cfg candidates total m → rtc (step cfg) m m' →
  pool_inv cfg candidates total m'.
Proof. intros Hm Hr. induction Hr; eauto using pool_inv_step. Qed.

Lemma load_subdomains_returns file st :
  ∃ st', load_subdomains cfg file st = (Return (loaded file), st')
         ∧ same_but_stdout
             (match file with
              | FileLines _ => set_total (Py.len (loaded file)) st
              | _ => st
              end) st'.
Proof. destruct file; eexists; (split; [reflexivity|done]). Qed.

(** [enumerate] on a new object. *)
Lemma pool_inv_enumerate file st :
  discovered_subdomains st = [] → checked_count st = 0 →
  pool_inv cfg (loaded file)
    (match file with
     | FileLines _ => Py.len (loaded file)
     | _ => total_subdomains st
     end)
    (enumerate cfg Opened file st).
Proof.
  intros Hd Hc. unfold enumerate.
  destruct (load_subdomains_returns file
              (set_output ""
                 (print ("[INFO] Using " +:+ Py.str_int (max_threads cfg)
                          +:+ " threads with " +:+ Py.str_int (timeout cfg)
                          +:+ "s timeout")
                    (print ("[INFO] Starting subdomain enumeration for "
                             +:+ domain cfg) st))))
    as (st' & -> & Hd' & Ht' & Hc' & Ho' & _).
  assert (total_subdomains st'
          = match file with
            | FileLines _ => Py.len (loaded file)
            | _ => total_subdomains st
            end) as Ht''.
  { rewrite Ht'. by destruct file. }
  assert (discovered_subdomains st' = []) as Hd''.
  { rewrite Hd'. by destruct file. }
  assert (checked_count st' = 0) as Hc''.
  { rewrite Hc'. by destruct file. }
  destruct (loaded file) as [|s l] eqn:Hl; split; try done.
  - split; simpl; [done| |lia]. unfold Py.len. simpl. lia.
  - unfold main_inv. simpl. split; [|done]. unfold Py.len. simpl. lia.
  - split; simpl; [done|]. exists []. rewrite Hd''. split_and!; try done.
  - unfold bound_inv. simpl. rewrite Hd''. simpl. lia.
  - split; simpl; [done| |lia]. unfold Py.len. simpl. lia.
  - unfold main_inv. simpl. split_and!; try done; unfold Py.len; simpl; lia.
  - split; simpl; [done|]. exists []. rewrite Hd''. split_and!; try done.
    intros s0. simpl. lia.
  - unfold bound_inv. simpl. rewrite Hd''. simpl. lia.
Qed.

Lemma run_rtc schedule m m' :
  run cfg schedule m = Some m' → rtc (step cfg) m m'.
Proof.
  revert m. induction schedule as [|e l IH]; intros m H; simplify_eq/=.
  - done.
  - destruct (exec cfg e m) as [m1|] eqn:He; simplify_eq/=.
    eapply rtc_l; [by exists e|]. by apply IH.
Qed.

Lemma log_inv_enumerate file st :
  discovered_subdomains st = [] → log_inv (enumerate cfg Opened file st).
Proof.
  intros Hd. unfold enumerate.
  destruct (load_subdomains_returns file
              (set_output ""
                 (print ("[INFO] Using " +:+ Py.str_int (max_threads cfg)
                          +:+ " threads with " +:+ Py.str_int (timeout cfg)
                          +:+ "s timeout")
                    (print ("[INFO] Starting subdomain enumeration for "
                             +:+ domain cfg) st))))
    as (st' & -> & Hd' & _ & _ & Ho' & _).
  assert (discovered_subdomains st' = []) as Hd''.
  { rewrite Hd'. by destruct file. }
  assert (output st' = "") as Ho''.
  { rewrite Ho'. by destruct file. }
  unfold log_inv, pending_write.
  destruct (loaded file); simpl; by rewrite Hd'', Ho''.
Qed.

(** The file follows the list along a schedule in which the file system
    lets every line in. *)
Lemma log_inv_schedule candidates total schedule m m' :
  pool_inv cfg candidates total m → log_inv m →
  run cfg schedule m = Some m' → Forall accepts schedule → log_inv m'.
Proof.
  revert m. induction schedule as [|e l IH]; intros m Hinv Hlog H Hok;
    simplify_eq/=; [done|].
  destruct (exec cfg e m) as [m1|] eqn:He; simplify_eq/=.
  apply Forall_cons in Hok as [He' Hok].
  apply (IH m1); try done.
  - apply (pool_inv_step _ _ m); [done|by exists e].
  - destruct e as [elapsed|tid answer [|e]]; simpl in *; [..|done].
    + eapply log_inv_main_step; [apply Hinv|done..].
    + eapply log_inv_worker_step; [apply Hinv|done..].
Qed.

(** A schedule cannot be longer than the fuel of the state it starts in. *)
Lemma run_fuel schedule m m' :
  run cfg schedule m = Some m' → (length schedule + fuel m' ≤ fuel m)%nat.
Proof.
  revert m. induction schedule as [|e l IH]; intros m H; simplify_eq/=.
  - done.
  - destruct (exec cfg e m) as [m1|] eqn:He; simplify_eq/=.
    specialize (IH _ H). assert (step cfg m m1) as Hs by (by exists e).
    apply fuel_step in Hs. lia.
Qed.

End Runs.

Section Sequential.

Context (cfg : Config).

Lemma check_subdomain_unfold net disk s st :
  check_subdomain cfg net disk s st =
  let st := log_request (http_request cfg s) (counted st) in
  match net (http_request cfg s) with
  | Response c =>
      if c <? 400
      then save_part disk (fqdn cfg s) (http_url cfg s) c st
      else https_part cfg net disk s st
  | RaiseRequestException => https_part cfg net disk s st
  | RaiseOther e => (Raise (OtherException e), st)
  end.
Proof.
  run_check. unfold https_part, save_part.
  destruct (net (http_request cfg s)) as [c| |e]; simpl; try done.
  - destruct (c <? 400); simpl.
    { by destruct (disk _). }
    destruct (net (https_request cfg s)) as [c'| |e']; simpl; try done.
    destruct (c' <? 400); simpl; [|done]. by destruct (disk _).
  - destruct (net (https_request cfg s)) as [c'| |e']; simpl; try done.
    destruct (c' <? 400); simpl; [|done]. by destruct (disk _).
Qed.

Lemma http_url_not_https s : http_url cfg s ≠ https_url cfg s.
Proof.
  intros H. apply (f_equal (String.get 4)) in H. vm_compute in H. done.
Qed.

(** What [save_discovered_subdomain] leaves: the entry is in the list
    whatever the file system does. *)
Lemma save_part_frame disk name url c st :
  discovered_subdomains (save_part disk name url c st).2
    = discovered_subdomains st ++ [discovery_info name url c]
  ∧ total_subdomains (save_part disk name url c st).2 = total_subdomains st
  ∧ checked_count (save_part disk name url c st).2 = checked_count st
  ∧ requests (save_part disk name url c st).2 = requests st
  ∧ (save_part disk name url c st).1 ≠ Raise RequestException
  ∧ (save_part disk name url c st).1 ≠ Raise IndexError
  ∧ (save_part disk name url c st).1 ≠ Return false.
Proof. unfold save_part. by destruct (disk _). Qed.

Lemma save_part_opened disk name url c st :
  disk (discovery_info name url c) = Opened →
  save_part disk name url c st = (Return true, saved name url c st).
Proof. unfold save_part. by intros ->. Qed.

Lemma save_part_refused disk name url c st e :
  disk (discovery_info name url c) = RaiseOnOpen e →
  save_part disk name url c st
  = (Raise (OtherException e), listed name url c st).
Proof. unfold save_part. by intros ->. Qed.

Lemma https_part_falls_through net disk s st :
  falls_through (net (https_request cfg s)) →
  https_part cfg net disk s st
  = (Return false, log_request (https_request cfg s) st).
Proof.
  unfold https_part. intros [->|(c & -> & Hc)]; [done|].
  by rewrite (proj2 (Z.ltb_ge c 400)).
Qed.

Lemma https_part_live net disk s st c :
  net (https_request cfg s) = Response c → c < 400 →
  https_part cfg net disk s st
  = save_part disk (fqdn cfg s) (https_url cfg s) c
      (log_request (https_request cfg s) st).
Proof.
  intros Hnet Hc. unfold https_part.
  by rewrite Hnet, (proj2 (Z.ltb_lt c 400) Hc).
Qed.

Lemma https_part_requests net disk s st :
  requests (https_part cfg net disk s st).2
  = requests st ++ [https_request cfg s].
Proof. unfold https_part, save_part. by repeat case_match. Qed.

Lemma https_part_contains net disk s st :
  (https_part cfg net disk s st).1 ≠ Raise RequestException
  ∧ (https_part cfg net disk s st).1 ≠ Raise IndexError.
Proof. unfold https_part, save_part. by repeat case_match. Qed.

Lemma check_subdomain_http_live net disk s st c :
  net (http_request cfg s) = Response c → c < 400 →
  check_subdomain cfg net disk s st
  = save_part disk (fqdn cfg s) (http_url cfg s) c
      (log_request (http_request cfg s) (counted st)).
Proof.
  intros Hnet Hc. rewrite check_subdomain_unfold, Hnet. simpl.
  by rewrite (proj2 (Z.ltb_lt c 400) Hc).
Qed.

Lemma check_subdomain_falls_through net disk s st :
  falls_through (net (http_request cfg s)) →
  check_subdomain cfg net disk s st
  = https_part cfg net disk s (log_request (http_request cfg s) (counted st)).
Proof.
  rewrite check_subdomain_unfold. simpl. intros [->|(c & -> & Hc)]; [done|].
  by rewrite (proj2 (Z.ltb_ge c 400)).
Qed.

Lemma counted_frame st :
  discovered_subdomains (counted st) = discovered_subdomains st
  ∧ total_subdomains (counted st) = total_subdomains st
  ∧ checked_count (counted st) = checked_count st + 1
  ∧ output (counted st) = output st
  ∧ requests (counted st) = requests st.
Proof. unfold counted, report_progress. by case_match. Qed.

(** C2: when the HTTP GET answers with a status below 400,
    [check_subdomain] issues no other request than that GET, to
    [http://<candidate>.<domain>], so the HTTPS URL is not contacted, and it
    appends to [discovered_subdomains] the entry
    [<candidate>.<domain> - http://<candidate>.<domain> (Status: <status>)],
    with the HTTP URL and the status of the answer.  When the output file can
    be opened it then writes that entry as a line, prints it and returns
    [True]; when the file cannot be opened the exception leaves the call at
    once. *)
Theorem http_success_short_circuits net disk s st c :
  net (http_request cfg s) = Response c → c < 400 →
  let info :=
    (s +:+ "." +:+ domain cfg) +:+ " - "
      +:+ ("http://" +:+ s +:+ "." +:+ domain cfg)
      +:+ " (Status: " +:+ Py.str_int c +:+ ")" in
  let r := check_subdomain cfg net disk s st in
  requests r.2
    = requests st
        ++ [mkRequest ("http://" +:+ s +:+ "." +:+ domain cfg) (timeout cfg)
              true true]
  ∧ "http://" +:+ s +:+ "." +:+ domain cfg
    ≠ "https://" +:+ s +:+ "." +:+ domain cfg
  ∧ discovered_subdomains r.2 = discovered_subdomains st ++ [info]
  ∧ (disk info = Opened →
       r.1 = Return true
       ∧ output r.2 = output st +:+ info +:+ "
"
       ∧ stdout r.2 = stdout (counted st) ++ ["[FOUND] " +:+ info])
  ∧ (∀ e, disk info = RaiseOnOpen e →
       r.1 = Raise (OtherException e)
       ∧ output r.2 = output st
       ∧ stdout r.2 = stdout (counted st)).
Proof.
  intros Hnet Hc info r. subst r.
  change info with (discovery_info (fqdn cfg s) (http_url cfg s) c).
  clear info.
  rewrite (check_subdomain_http_live _ _ _ _ c) by done.
  destruct (counted_frame st) as (Hd & _ & _ & Ho & Hr).
  destruct (save_part_frame disk (fqdn cfg s) (http_url cfg s) c
              (log_request (http_request cfg s) (counted st)))
    as (Hd' & _ & _ & Hr' & _).
  simpl in Hd', Hr'. rewrite Hd', Hr', Hd, Hr.
  split_and!.
  - done.
  - apply http_url_not_https.
  - done.
  - intros Hdisk. rewrite save_part_opened by exact Hdisk. simpl.
    by rewrite Ho.
  - intros e Hdisk. rewrite (save_part_refused _ _ _ _ _ e) by exact Hdisk.
    simpl. by rewrite Ho.
Qed.

(** C3: when the HTTP attempt raises a [RequestException] or answers with a
    status of 400 or above, [check_subdomain] issues exactly one further
    request, to the HTTPS URL, with the same timeout, redirects followed and
    certificate verification off; when that request answers below 400 the
    entry recorded is the one of the HTTPS URL with the HTTPS status, and it
    is the only entry added; it is also written to the output file, and the
    call returns [True], unless the file cannot be opened, in which case the
    exception leaves the call. *)
Theorem https_fallback net disk s st :
  falls_through (net (http_request cfg s)) →
  requests (check_subdomain cfg net disk s st).2
    = requests st ++ [http_request cfg s; https_request cfg s]
  ∧ https_request cfg s
    = mkRequest ("https://" +:+ s +:+ "." +:+ domain cfg) (timeout cfg)
        true false
  ∧ req_timeout (https_request cfg s) = req_timeout (http_request cfg s)
  ∧ ∀ c', net (https_request cfg s) = Response c' → c' < 400 →
      let info :=
        discovery_info (s +:+ "." +:+ domain cfg)
          ("https://" +:+ s +:+ "." +:+ domain cfg) c' in
      discovered_subdomains (check_subdomain cfg net disk s st).2
        = discovered_subdomains st ++ [info]
      ∧ (disk info = Opened →
           (check_subdomain cfg net disk s st).1 = Return true
           ∧ output (check_subdomain cfg net disk s st).2
             = output st +:+ info +:+ "
")
      ∧ (∀ e, disk info = RaiseOnOpen e →
           (check_subdomain cfg net disk s st).1 = Raise (OtherException e)
           ∧ output (check_subdomain cfg net disk s st).2 = output st).
Proof.
  intros Hhttp. rewrite check_subdomain_falls_through by done.
  destruct (counted_frame st) as (Hd & _ & _ & Ho & Hr).
  split_and!; try done.
  - rewrite https_part_requests. simpl. by rewrite Hr, <- app_assoc.
  - intros c' Hnet Hc' info.
    rewrite (https_part_live _ _ _ _ c') by done.
    destruct (save_part_frame disk (fqdn cfg s) (https_url cfg s) c'
                (log_request (https_request cfg s)
                   (log_request (http_request cfg s) (counted st))))
      as (Hd' & _).
    simpl in Hd'. rewrite Hd', Hd. split_and!; try done.
    + intros Hdisk. rewrite save_part_opened by exact Hdisk. simpl.
      by rewrite Ho.
    + intros e Hdisk.
      rewrite (save_part_refused _ _ _ _ _ e) by exact Hdisk. simpl.
      by rewrite Ho.
Qed.

(** The entries one call of [check_subdomain] adds to the list, and those
    of them it writes to the file. *)
Lemma check_subdomain_adds net disk s st :
  ∃ new,
    discovered_subdomains (check_subdomain cfg net disk s st).2
      = discovered_subdomains st ++ new
    ∧ output (check_subdomain cfg net disk s st).2
      = output st +:+ file_of (let_in disk new)
    ∧ (length new ≤ 1)%nat
    ∧ ((check_subdomain cfg net disk s st).1 = Return true →
         length new = 1%nat ∧ let_in disk new = new)
    ∧ ((check_subdomain cfg net disk s st).1 = Return false → new = []).
Proof.
  rewrite check_subdomain_unfold. unfold https_part, save_part, let_in.
  destruct (counted_frame st) as (Hd & _ & _ & Ho & _).
  destruct (net (http_request cfg s)) as [c| |e]; simpl.
  1: destruct (c <? 400); simpl.
  2,3: destruct (net (https_request cfg s)) as [c'| |e']; simpl.
  2,5: destruct (c' <? 400); simpl.
  all: try (exists []; rewrite Hd, Ho, app_nil_r; simpl;
            rewrite append_nil_r; split_and!; try done; simpl; lia).
  all: eexists [_]; destruct (disk _) as [|e0] eqn:E; simpl.
  all: rewrite ?filter_cons_True, ?filter_cons_False, ?filter_nil
         by (rewrite E; done).
  all: rewrite Hd, Ho; simpl; rewrite ?append_nil_r.
  all: split_and!; try done; simpl; lia.
Qed.

End Sequential.

(* ================================================================== *)
(** * A worker alone runs [check_subdomain] *)

Section Solo.

Context (cfg : Config).

Lemma solo_rtc net disk tid n m m' :
  solo cfg net disk tid n m = Some m' → rtc (step cfg) m m'.
Proof.
  revert m. induction n as [|n IH]; intros m H; simplify_eq/=; [done|].
  destruct (worker_step cfg tid (answer_at cfg net tid m)
              (disk_at disk tid m) m) as [m1|] eqn:E;
    simplify_eq/=.
  eapply rtc_l;
    [by exists (RunWorker tid (answer_at cfg net tid m)
                 (disk_at disk tid m))|].
  by apply IH.
Qed.

Lemma solo_add net disk tid n1 n2 m :
  solo cfg net disk tid (n1 + n2) m
  = solo cfg net disk tid n1 m ≫= solo cfg net disk tid n2.
Proof.
  revert m. induction n1 as [|n1 IH]; intros m; simpl; [done|].
  destruct (worker_step cfg tid (answer_at cfg net tid m)
              (disk_at disk tid m) m); simpl; [apply IH|done].
Qed.

Lemma solo_S net disk tid n m m' :
  worker_step cfg tid (answer_at cfg net tid m) (disk_at disk tid m) m
    = Some m' →
  solo cfg net disk tid (S n) m = solo cfg net disk tid n m'.
Proof. intros H. simpl. by rewrite H. Qed.

(** Takes one step of the thread in a goal
    [solo cfg net disk tid (S n) m = _]. *)
Ltac solo_step Hpc Hlt :=
  erewrite solo_S;
  [| unfold answer_at, disk_at, worker_step, goto, set_lock, on_self,
       set_queue; simpl;
     rewrite ?list_insert_insert_eq;
     rewrite ?Hpc, ?list_lookup_insert_eq by done;
     simpl; reflexivity ].

Lemma solo_count net disk tid s st q ths mn :
  ths !! tid = Some (AtCountAcquire s) →
  solo cfg net disk tid 5 (mkMachine st q None ths mn)
  = Some (mkMachine (counted st) q None (<[tid := AtHttp s]> ths) mn).
Proof.
  intros Hpc.
  assert (tid < length ths)%nat as Hlt by (by eapply lookup_lt_Some).
  do 5 solo_step Hpc Hlt. simpl. by rewrite ?list_insert_insert_eq.
Qed.

(** From the call of [save_discovered_subdomain] to the point where
    [worker] has the result of [check_subdomain]. *)
Lemma solo_save net disk tid s name url c st q ths mn :
  ths !! tid = Some (AtSaveAcquire s name url c) →
  ∃ n, solo cfg net disk tid n (mkMachine st q None ths mn)
       = Some (mkMachine (save_part disk name url c st).2 q None
                 (<[tid := after_call (save_part disk name url c st).1]> ths)
                 mn).
Proof.
  intros Hpc.
  assert (tid < length ths)%nat as Hlt by (by eapply lookup_lt_Some).
  unfold save_part.
  destruct (disk (discovery_info name url c)) as [|e] eqn:Hdisk.
  - exists 5%nat. do 2 solo_step Hpc Hlt.
    erewrite solo_S;
      [| unfold answer_at, disk_at, worker_step, goto, set_lock, on_self;
         simpl; rewrite ?list_insert_insert_eq;
         rewrite ?list_lookup_insert_eq by done; simpl; rewrite Hdisk;
         reflexivity ].
    do 2 solo_step Hpc Hlt. simpl. by rewrite ?list_insert_insert_eq.
  - exists 3%nat. do 2 solo_step Hpc Hlt.
    erewrite solo_S;
      [| unfold answer_at, disk_at, worker_step, goto, set_lock, on_self;
         simpl; rewrite ?list_insert_insert_eq;
         rewrite ?list_lookup_insert_eq by done; simpl; rewrite Hdisk;
         reflexivity ].
    simpl. by rewrite ?list_insert_insert_eq.
Qed.

Lemma solo_http net disk tid s n st q ths mn :
  ths !! tid = Some (AtHttp s) →
  solo cfg net disk tid (S n) (mkMachine st q None ths mn)
  = solo cfg net disk tid n
      (mkMachine (log_request (http_request cfg s) st) q None
         (<[tid := after_get cfg (net (http_request cfg s)) s
                     (http_url cfg s) (AtHttps s)]> ths) mn).
Proof.
  intros Hpc. apply solo_S. unfold answer_at, worker_step. simpl.
  by rewrite Hpc.
Qed.

Lemma solo_https net disk tid s n st q ths mn :
  ths !! tid = Some (AtHttps s) →
  solo cfg net disk tid (S n) (mkMachine st q None ths mn)
  = solo cfg net disk tid n
      (mkMachine (log_request (https_request cfg s) st) q None
         (<[tid := after_get cfg (net (https_request cfg s)) s
                     (https_url cfg s) AtPop]> ths) mn).
Proof.
  intros Hpc. apply solo_S. unfold answer_at, worker_step. simpl.
  by rewrite Hpc.
Qed.

Lemma solo_seq net disk tid n1 n2 m m1 r :
  solo cfg net disk tid n1 m = Some m1 →
  solo cfg net disk tid n2 m1 = r →
  solo cfg net disk tid (n1 + n2) m = r.
Proof. intros H1 H2. by rewrite solo_add, H1. Qed.

Lemma solo_one net disk tid m m' :
  worker_step cfg tid (answer_at cfg net tid m) (disk_at disk tid m) m
    = Some m' →
  solo cfg net disk tid 1 m = Some m'.
Proof. intros H. simpl. by rewrite H. Qed.

(** The thread that has popped [s] and runs without interruption while the
    lock is free leaves the object as [check_subdomain] does. *)
Lemma solo_check_subdomain net disk tid s m :
  threads m !! tid = Some (AtCountAcquire s) →
  lock m = None →
  ∃ n, solo cfg net disk tid n m
       = Some (mkMachine (check_subdomain cfg net disk s (self m)).2
                 (subdomain_queue m) None
                 (<[tid := after_call
                             (check_subdomain cfg net disk s (self m)).1]>
                    (threads m))
                 (main m)).
Proof.
  intros Hpc Hlock.
  assert (tid < length (threads m))%nat as Hlt by (by eapply lookup_lt_Some).
  destruct m as [st q l ths mn]. simpl in *. subst l.
  pose proof (solo_count net disk tid s st q ths mn Hpc) as Hcount.
  rewrite check_subdomain_unfold. unfold https_part. simpl.
  (* the HTTP request *)
  assert (solo cfg net disk tid 1
            (mkMachine (counted st) q None (<[tid := AtHttp s]> ths) mn)
          = Some (mkMachine (log_request (http_request cfg s) (counted st))
                    q None
                    (<[tid := after_get cfg (net (http_request cfg s)) s
                                (http_url cfg s) (AtHttps s)]> ths) mn))
    as Hhttp.
  { rewrite (solo_http net disk tid s) by (by apply list_lookup_insert_eq).
    simpl. by rewrite list_insert_insert_eq. }
  (* the HTTPS request, when the thread gets there *)
  assert (solo cfg net disk tid 1
            (mkMachine (log_request (http_request cfg s) (counted st)) q None
               (<[tid := AtHttps s]> ths) mn)
          = Some (mkMachine
                    (log_request (https_request cfg s)
                       (log_request (http_request cfg s) (counted st)))
                    q None
                    (<[tid := after_get cfg (net (https_request cfg s)) s
                                (https_url cfg s) AtPop]> ths) mn))
    as Hhttps.
  { rewrite (solo_https net disk tid s) by (by apply list_lookup_insert_eq).
    simpl. by rewrite list_insert_insert_eq. }
  (* saving, from either request *)
  assert (∀ url c st0,
            ∃ n, solo cfg net disk tid n
                   (mkMachine st0 q None
                      (<[tid := AtSaveAcquire s (fqdn cfg s) url c]> ths) mn)
                 = Some (mkMachine (save_part disk (fqdn cfg s) url c st0).2
                           q None
                           (<[tid := after_call
                                       (save_part disk (fqdn cfg s) url c
                                          st0).1]> ths) mn))
    as Hsave.
  { intros url c st0.
    destruct (solo_save net disk tid s (fqdn cfg s) url c st0 q
                (<[tid := AtSaveAcquire s (fqdn cfg s) url c]> ths) mn)
      as [n Hn]; [by apply list_lookup_insert_eq|].
    exists n. by rewrite list_insert_insert_eq in Hn. }
  unfold after_get in Hhttp, Hhttps.
  destruct (net (http_request cfg s)) as [c| |e] eqn:Hnet;
    [destruct (c <? 400) eqn:Hc| |].
  - destruct (Hsave (http_url cfg s) c
                (log_request (http_request cfg s) (counted st))) as [n Hn].
    exists (5 + (1 + n))%nat.
    eapply solo_seq; [exact Hcount|]. eapply solo_seq; [exact Hhttp|].
    exact Hn.
  - destruct (net (https_request cfg s)) as [c'| |e'] eqn:Hnet';
      [destruct (c' <? 400) eqn:Hc'| |].
    + destruct (Hsave (https_url cfg s) c'
                  (log_request (https_request cfg s)
                     (log_request (http_request cfg s) (counted st))))
        as [n Hn].
      exists (5 + (1 + (1 + n)))%nat.
      eapply solo_seq; [exact Hcount|]. eapply solo_seq; [exact Hhttp|].
      eapply solo_seq; [exact Hhttps|]. exact Hn.
    + exists (5 + (1 + 1))%nat.
      eapply solo_seq; [exact Hcount|]. eapply solo_seq; [exact Hhttp|].
      exact Hhttps.
    + exists (5 + (1 + 1))%nat.
      eapply solo_seq; [exact Hcount|]. eapply solo_seq; [exact Hhttp|].
      exact Hhttps.
    + exists (5 + (1 + 1))%nat.
      eapply solo_seq; [exact Hcount|]. eapply solo_seq; [exact Hhttp|].
      exact Hhttps.
  - destruct (net (https_request cfg s)) as [c'| |e'] eqn:Hnet';
      [destruct (c' <? 400) eqn:Hc'| |].
    + destruct (Hsave (https_url cfg s) c'
                  (log_request (https_request cfg s)
                     (log_request (http_request cfg s) (counted st))))
        as [n Hn].
      exists (5 + (1 + (1 + n)))%nat.
      eapply solo_seq; [exact Hcount|]. eapply solo_seq; [exact Hhttp|].
      eapply solo_seq; [exact Hhttps|]. exact Hn.
    + exists (5 + (1 + 1))%nat.
      eapply solo_seq; [exact Hcount|]. eapply solo_seq; [exact Hhttp|].
      exact Hhttps.
    + exists (5 + (1 + 1))%nat.
      eapply solo_seq; [exact Hcount|]. eapply solo_seq; [exact Hhttp|].
      exact Hhttps.
    + exists (5 + (1 + 1))%nat.
      eapply solo_seq; [exact Hcount|]. eapply solo_seq; [exact Hhttp|].
      exact Hhttps.
  - exists (5 + 1)%nat. eapply solo_seq; [exact Hcount|]. exact Hhttp.
Qed.

End Solo.

(* ================================================================== *)
(** * The properties of the specification *)

Section Claims.

Context (cfg : Config).

Lemma no_step_when_returned m :
  main m = Returned → threads m = [] → ∀ m', ¬ step cfg m m'.
Proof.
  intros Hm Ht m' [[elapsed|tid answer disk] H]; simpl in H.
  - unfold main_step in H. by rewrite Hm in H.
  - unfold worker_step in H. by rewrite Ht in H.
Qed.

Lemma all_finished_unlocked m :
  lock_inv m →
  (∀ j pc, threads m !! j = Some pc → pc = Finished) → lock m = None.
Proof.
  intros [_ How] Hfin. destruct (lock m) as [tid|] eqn:Hl; [|done].
  destruct (How _ eq_refl) as (pc & Hpc & Hh).
  by rewrite (Hfin _ _ Hpc) in Hh.
Qed.

(** What holds along every run of [enumerate] on a new object. *)
Lemma pool_inv_run file previous m :
  rtc (step cfg) (enumerate cfg Opened file (init previous)) m →
  pool_inv cfg (loaded file)
    (match file with FileLines _ => Py.len (loaded file) | _ => 0 end) m.
Proof.
  intros Hrun.
  by apply (pool_inv_rtc cfg _ _ _ _
              (pool_inv_enumerate cfg file (init previous) eq_refl
                 eq_refl)).
Qed.

(** C1: on a new object, for every outcome of reading the candidate file,
    every thread count of at least one and every schedule: each candidate is
    at any time either still in the queue, popped and not yet counted, or
    counted; when [enumerate] has returned the queue is empty and
    [checked_count] is the number of candidates, which is also what
    [total_subdomains] holds; until then some thread can take a step, and
    each step uses up fuel, so that every schedule ends, with [enumerate]
    returned. *)
Theorem checked_count_equals_total file previous m :
  1 ≤ max_threads cfg →
  rtc (step cfg) (enumerate cfg Opened file (init previous)) m →
  checked_count (self m) + Py.len (subdomain_queue m)
    + Z.of_nat (sum_list_with uncounted (threads m)) = Py.len (loaded file)
  ∧ (main m = Returned →
       checked_count (self m) = Py.len (loaded file)
       ∧ checked_count (self m) = total_subdomains (self m)
       ∧ subdomain_queue m = [])
  ∧ (main m ≠ Returned → ∃ m', step cfg m m')
  ∧ (∀ m', step cfg m m' → (fuel m' < fuel m)%nat).
Proof.
  intros HW Hrun.
  destruct (pool_inv_run file previous m Hrun)
    as [Htotal Hlock [_ Hcount Hnn] Hdrain Hmain _ _].
  split_and!.
  - done.
  - intros Hret. unfold main_inv in Hmain. rewrite Hret in Hmain.
    destruct Hmain as [Hlen Hfin].
    assert (sum_list_with uncounted (threads m) = 0%nat) as Hz.
    { apply sum_list_with_zero. intros i pc Hi. by rewrite (Hfin _ _ Hi). }
    assert (subdomain_queue m = []) as Hq.
    { destruct (decide (Py.len (loaded file) = 0)) as [H0|Hpos].
      - rewrite Hz, H0 in Hcount. unfold Py.len in Hcount.
        destruct (subdomain_queue m); [done|]. simpl in Hcount. lia.
      - destruct (lookup_lt_is_Some_2 (threads m) 0%nat) as [pc Hpc].
        { unfold Py.len in *. lia. }
        apply (Hdrain 0%nat). by rewrite Hpc, (Hfin _ _ Hpc). }
    rewrite Hz, Hq in Hcount. unfold Py.len in *. simpl in Hcount.
    assert (checked_count (self m) = Z.of_nat (length (loaded file))) as Hc
      by lia.
    split_and!; [done| |done].
    rewrite Htotal, Hc. destruct file; simpl; done.
  - intros Hne. by eapply step_enabled.
  - apply fuel_step.
Qed.

(** C8: for a thread count that is not negative, [enumerate] never has
    more than min(max_threads, len(subdomains)) worker threads, and once its
    starting loop is over it has started exactly that many; in particular
    never more than there are candidates. *)
Theorem workers_started file previous m :
  0 ≤ max_threads cfg →
  rtc (step cfg) (enumerate cfg Opened file (init previous)) m →
  Py.len (threads m) ≤ Z.min (max_threads cfg) (Py.len (loaded file))
  ∧ Py.len (threads m) ≤ Py.len (loaded file)
  ∧ ((∀ i stop, main m ≠ Starting i stop) →
       Py.len (threads m) = Z.min (max_threads cfg) (Py.len (loaded file))).
Proof.
  intros HW Hrun.
  destruct (pool_inv_run file previous m Hrun) as [_ _ _ _ Hmain _ _].
  unfold main_inv, Py.len in *.
  destruct (main m) as [i stop|i| |] eqn:Hm; try done.
  - destruct Hmain as (-> & ? & ?). split_and!; try lia.
    intros Hne. by destruct (Hne _ _ eq_refl).
  - destruct Hmain as [Hlen _]. rewrite Hlen. split_and!; intros; lia.
  - destruct Hmain as [Hlen _]. rewrite Hlen. split_and!; intros; lia.
Qed.

(** C4: one call of [check_subdomain] adds at most one entry to
    [discovered_subdomains]: exactly the HTTP entry when the HTTP attempt
    answers below 400, exactly the HTTPS entry when the HTTP attempt falls
    through and the HTTPS attempt answers below 400, and none when both
    attempts fall through, in which case it returns [False] and leaves the
    output file as it was.  Along every run of the pool, under every
    schedule, the entries of [discovered_subdomains] are those of recorded
    successes, no candidate label has more entries than it has occurrences
    in the candidate list, and there are no more entries than candidates. *)
Theorem at_most_one_entry_per_candidate :
  (∀ net disk s st,
     ∃ new,
       discovered_subdomains (check_subdomain cfg net disk s st).2
         = discovered_subdomains st ++ new
       ∧ (length new ≤ 1)%nat
       ∧ (∀ c, net (http_request cfg s) = Response c → c < 400 →
            new = [discovery_info (fqdn cfg s) (http_url cfg s) c])
       ∧ (falls_through (net (http_request cfg s)) →
          ∀ c, net (https_request cfg s) = Response c → c < 400 →
            new = [discovery_info (fqdn cfg s) (https_url cfg s) c])
       ∧ (falls_through (net (http_request cfg s)) →
          falls_through (net (https_request cfg s)) →
            new = []
            ∧ (check_subdomain cfg net disk s st).1 = Return false
            ∧ output (check_subdomain cfg net disk s st).2 = output st))
  ∧ (∀ file previous m,
       rtc (step cfg) (enumerate cfg Opened file (init previous)) m →
       (∃ recorded : list Success,
          discovered_subdomains (self m) = entry cfg <$> recorded
          ∧ Forall (success_ok cfg) recorded
          ∧ ∀ s, (occurrences s (recorded.*1.*1)
                  ≤ occurrences s (loaded file))%nat)
       ∧ (length (discovered_subdomains (self m))
          ≤ length (loaded file))%nat).
Proof.
  split.
  - intros net disk s st.
    destruct (check_subdomain_adds cfg net disk s st)
      as (new & Hd & Ho & Hlen & _ & _).
    exists new. split_and!; try done.
    + intros c Hnet Hc.
      rewrite (check_subdomain_http_live cfg net disk s st c Hnet Hc) in Hd.
      rewrite (proj1 (save_part_frame _ _ _ _ _)) in Hd.
      simpl in Hd. destruct (counted_frame st) as (Hd' & _).
      rewrite Hd' in Hd. by apply app_inv_head in Hd.
    + intros Hft c Hnet Hc.
      rewrite (check_subdomain_falls_through cfg net disk s st Hft),
        (https_part_live cfg net disk s _ c Hnet Hc) in Hd.
      rewrite (proj1 (save_part_frame _ _ _ _ _)) in Hd.
      simpl in Hd. destruct (counted_frame st) as (Hd' & _).
      rewrite Hd' in Hd. by apply app_inv_head in Hd.
    + intros Hft1 Hft2.
      rewrite check_subdomain_falls_through, https_part_falls_through in *
        by done.
      simpl in *. destruct (counted_frame st) as (Hd' & _ & _ & Ho' & _).
      rewrite Hd' in Hd. rewrite Ho'.
      rewrite <- (app_nil_r (discovered_subdomains st)) in Hd at 1.
      apply app_inv_head in Hd. done.
  - intros file previous m Hrun.
    destruct (pool_inv_run file previous m Hrun)
      as [_ _ _ _ _ [_ (recorded & Hd & Hok & Hocc)] Hb].
    split.
    + exists recorded. split_and!; try done.
      intros s. specialize (Hocc s). lia.
    + unfold bound_inv in Hb. lia.
Qed.

Lemma newlines_append a b : newlines (a +:+ b) = (newlines a + newlines b)%nat.
Proof.
  induction a as [|c a IH]; [done|].
  change (newlines (String c (a +:+ b))
          = (newlines (String c a) + newlines b)%nat).
  simpl. rewrite IH. lia.
Qed.

Lemma newlines_string_of_uint d : newlines (NilEmpty.string_of_uint d) = 0%nat.
Proof. induction d; simpl; done. Qed.

Lemma newlines_str_int n : newlines (Py.str_int n) = 0%nat.
Proof.
  unfold Py.str_int, NilZero.string_of_int, NilZero.string_of_uint.
  destruct (Z.to_int n) as [d|d]; destruct d; simpl;
    by rewrite ?newlines_string_of_uint.
Qed.

Lemma newlines_discovery_info name url c :
  newlines name = 0%nat → newlines url = 0%nat →
  newlines (discovery_info name url c +:+ "
") = 1%nat.
Proof.
  intros Hn Hu. unfold discovery_info.
  rewrite !newlines_append, Hn, Hu, newlines_str_int. done.
Qed.

(** What [save_discovered_subdomain] does, for both outcomes of opening the
    output file: the entry is appended to the list first; then the line is
    written and announced, or the exception leaves the method with the list
    already changed. *)
Lemma save_discovered_subdomain_effects disk name url c st :
  let info :=
    name +:+ " - " +:+ url +:+ " (Status: " +:+ Py.str_int c +:+ ")" in
  let r := save_discovered_subdomain disk name url c st in
  discovered_subdomains r.2 = discovered_subdomains st ++ [info]
  ∧ total_subdomains r.2 = total_subdomains st
  ∧ checked_count r.2 = checked_count st
  ∧ requests r.2 = requests st
  ∧ (disk info = Opened →
       r.1 = Return ()
       ∧ output r.2 = output st +:+ info +:+ "
"
       ∧ stdout r.2 = stdout st ++ ["[FOUND] " +:+ info])
  ∧ (∀ e, disk info = RaiseOnOpen e →
       r.1 = Raise (OtherException e)
       ∧ output r.2 = output st
       ∧ stdout r.2 = stdout st).
Proof.
  simpl. unfold save_discovered_subdomain, discovery_info.
  destruct (disk _) as [|e0] eqn:E; run_check; split_and!; try done.
  by intros e [= <-].
Qed.

(** A step that changes [checked_count], [discovered_subdomains] or the
    output file is a step inside a [with self.lock:] block. *)
Lemma shared_updates_hold_the_lock tid answer disk m m' :
  lock_inv m →
  worker_step cfg tid answer disk m = Some m' →
  checked_count (self m') ≠ checked_count (self m)
  ∨ discovered_subdomains (self m') ≠ discovered_subdomains (self m)
  ∨ output (self m') ≠ output (self m) →
  lock m = Some tid.
Proof.
  intros [Hex _] H Hchg.
  worker_cases H; simpl in Hchg;
    rewrite ?checked_count_report_progress in Hchg;
    rewrite ?(proj1 (report_progress_same _ _)),
      ?(proj1 (proj2 (proj2 (proj2 (report_progress_same _ _))))) in Hchg;
    try (by destruct Hchg as [?|[?|?]]);
    by apply (Hex _ _ Hpc).
Qed.

(** C7 as the code has it: [check_subdomain] adds one to [checked_count]
    and leaves [total_subdomains] alone; when the HTTP attempt answers with a
    status below 400 it appends the entry of the HTTP URL and that status to
    [discovered_subdomains], and when the HTTP attempt falls through and the
    HTTPS attempt answers below 400 the entry of the HTTPS URL; the line of
    the entry goes to the output file when the file can be opened; when no
    attempt answers below 400 the list and the file are as before.  In the
    pool every step that changes [checked_count], the list or the file is
    taken by the thread that holds [self.lock]. *)
Theorem check_subdomain_effects :
  (∀ net disk s st,
     let r := check_subdomain cfg net disk s st in
     checked_count r.2 = checked_count st + 1
     ∧ total_subdomains r.2 = total_subdomains st
     ∧ (∀ c, net (http_request cfg s) = Response c → c < 400 →
          let info :=
            (s +:+ "." +:+ domain cfg) +:+ " - "
              +:+ ("http://" +:+ s +:+ "." +:+ domain cfg)
              +:+ " (Status: " +:+ Py.str_int c +:+ ")" in
          discovered_subdomains r.2 = discovered_subdomains st ++ [info]
          ∧ (disk info = Opened → output r.2 = output st +:+ info +:+ "
")
          ∧ (∀ e, disk info = RaiseOnOpen e → output r.2 = output st))
     ∧ (falls_through (net (http_request cfg s)) →
        ∀ c, net (https_request cfg s) = Response c → c < 400 →
          let info :=
            (s +:+ "." +:+ domain cfg) +:+ " - "
              +:+ ("https://" +:+ s +:+ "." +:+ domain cfg)
              +:+ " (Status: " +:+ Py.str_int c +:+ ")" in
          discovered_subdomains r.2 = discovered_subdomains st ++ [info]
          ∧ (disk info = Opened → output r.2 = output st +:+ info +:+ "
")
          ∧ (∀ e, disk info = RaiseOnOpen e → output r.2 = output st))
     ∧ ((∀ c, net (http_request cfg s) = Response c → 400 ≤ c) →
        (falls_through (net (http_request cfg s)) →
         ∀ c, net (https_request cfg s) = Response c → 400 ≤ c) →
          discovered_subdomains r.2 = discovered_subdomains st
          ∧ output r.2 = output st))
  ∧ (∀ file previous m tid answer disk m',
       rtc (step cfg) (enumerate cfg Opened file (init previous)) m →
       worker_step cfg tid answer disk m = Some m' →
       checked_count (self m') ≠ checked_count (self m)
       ∨ discovered_subdomains (self m') ≠ discovered_subdomains (self m)
       ∨ output (self m') ≠ output (self m) →
       lock m = Some tid).
Proof.
  split.
  - intros net disk s st r. subst r.
    destruct (counted_frame st) as (Hd & Ht & Hc & Ho & _).
    split_and!.
    + rewrite check_subdomain_unfold. unfold https_part, save_part.
      repeat case_match; simpl; by rewrite ?Hc.
    + rewrite check_subdomain_unfold. unfold https_part, save_part.
      repeat case_match; simpl; by rewrite ?Ht.
    + intros c Hnet Hlt info.
      change info with (discovery_info (fqdn cfg s) (http_url cfg s) c).
      clear info. rewrite (check_subdomain_http_live _ _ _ _ _ c) by done.
      unfold save_part. destruct (disk _) as [|e0]; simpl;
        rewrite Hd, Ho; split_and!; try done.
    + intros Hft c Hnet Hlt info.
      change info with (discovery_info (fqdn cfg s) (https_url cfg s) c).
      clear info. rewrite check_subdomain_falls_through by done.
      rewrite (https_part_live _ _ _ _ _ c) by done.
      unfold save_part. destruct (disk _) as [|e0]; simpl;
        rewrite Hd, Ho; split_and!; try done.
    + intros H1 H2. rewrite check_subdomain_unfold.
      destruct (net (http_request cfg s)) as [c| |e] eqn:Hnet; simpl.
      * destruct (Z.ltb_spec c 400) as [Hlt|Hge];
          [specialize (H1 c eq_refl); lia|].
        assert (falls_through (Response c)) as Hft by (right; eauto).
        specialize (H2 Hft). unfold https_part.
        destruct (net (https_request cfg s)) as [c'| |e']; simpl;
          rewrite ?Hd, ?Ho; try done.
        destruct (Z.ltb_spec c' 400) as [Hlt'|Hge'];
          [specialize (H2 c' eq_refl); lia|].
        simpl. by rewrite Hd, Ho.
      * assert (falls_through RaiseRequestException) as Hft by (by left).
        specialize (H2 Hft). unfold https_part.
        destruct (net (https_request cfg s)) as [c'| |e']; simpl;
          rewrite ?Hd, ?Ho; try done.
        destruct (Z.ltb_spec c' 400) as [Hlt'|Hge'];
          [specialize (H2 c' eq_refl); lia|].
        simpl. by rewrite Hd, Ho.
      * by rewrite Hd, Ho.
  - intros file previous m tid answer disk m' Hrun.
    apply shared_updates_hold_the_lock.
    apply (pool_inv_run file previous m Hrun).
Qed.

(** C5 as the code has it: a [RequestException] raised by an attempt that
    is made never leaves [check_subdomain], and the attempt counts as not
    live: after one in the HTTP attempt the HTTPS attempt is made and
    decides the result, and after one in the HTTPS attempt the result is
    [False] with list and file unchanged. *)
Theorem request_exceptions_are_contained net disk s st :
  net (http_request cfg s) = RaiseRequestException
  ∨ (falls_through (net (http_request cfg s))
     ∧ net (https_request cfg s) = RaiseRequestException) →
  (check_subdomain cfg net disk s st).1 ≠ Raise RequestException
  ∧ (check_subdomain cfg net disk s st).1 ≠ Raise IndexError
  ∧ requests (check_subdomain cfg net disk s st).2
    = requests st ++ [http_request cfg s; https_request cfg s]
  ∧ (∀ c, net (https_request cfg s) = Response c → c < 400 →
       (check_subdomain cfg net disk s st).1 ≠ Return false
       ∧ (disk (discovery_info (fqdn cfg s) (https_url cfg s) c) = Opened →
            (check_subdomain cfg net disk s st).1 = Return true))
  ∧ (falls_through (net (https_request cfg s)) →
       (check_subdomain cfg net disk s st).1 = Return false
       ∧ discovered_subdomains (check_subdomain cfg net disk s st).2
         = discovered_subdomains st
       ∧ output (check_subdomain cfg net disk s st).2 = output st).
Proof.
  intros H.
  assert (falls_through (net (http_request cfg s))) as Hft.
  { destruct H as [->|[? _]]; [by left|done]. }
  rewrite check_subdomain_falls_through by done.
  destruct (https_part_contains cfg net disk s
              (log_request (http_request cfg s) (counted st))) as [Hr Hi].
  destruct (counted_frame st) as (Hd & _ & _ & Ho & Hq).
  split_and!; try done.
  - by rewrite https_part_requests; simpl; rewrite Hq, <- app_assoc.
  - intros c Hnet Hc. rewrite (https_part_live cfg net disk s _ c Hnet Hc).
    split; [apply save_part_frame|].
    intros Hdisk. by rewrite save_part_opened.
  - intros Hft2. rewrite https_part_falls_through by done.
    simpl. by rewrite Hd, Ho.
Qed.

(** C6 as the code has it: when the candidate file is missing or cannot be
    read, [load_subdomains] prints the diagnostic of that case and returns
    the empty list, it raises nothing; [enumerate] then returns at once: no
    thread is started, nothing is queued, no request is issued, nothing is
    counted or recorded, and no step of the pool is possible. *)
Theorem load_failure_stops_the_run file st :
  file = RaiseFileNotFoundError ∨ (∃ e, file = RaiseReadError e) →
  load_subdomains cfg file st
    = (Return [],
       print (match file with
              | RaiseReadError e => "[ERROR] Error reading file: " +:+ e
              | _ => "[ERROR] File " +:+ subdomain_file cfg +:+ " not found!"
              end) st)
  ∧ main (enumerate cfg Opened file st) = Returned
  ∧ threads (enumerate cfg Opened file st) = []
  ∧ subdomain_queue (enumerate cfg Opened file st) = []
  ∧ requests (self (enumerate cfg Opened file st)) = requests st
  ∧ checked_count (self (enumerate cfg Opened file st)) = checked_count st
  ∧ discovered_subdomains (self (enumerate cfg Opened file st))
    = discovered_subdomains st
  ∧ last (stdout (self (enumerate cfg Opened file st)))
    = Some (match file with
            | RaiseReadError e => "[ERROR] Error reading file: " +:+ e
            | _ => "[ERROR] File " +:+ subdomain_file cfg +:+ " not found!"
            end)
  ∧ ∀ m', ¬ step cfg (enumerate cfg Opened file st) m'.
Proof.
  intros [->|[e ->]]; split_and!; try done.
  all: try (unfold enumerate; simpl; by rewrite last_snoc).
  all: by apply no_step_when_returned.
Qed.

End Claims.

Section Files.

Context (cfg : Config).

(** C10: when the output file can be opened for writing, [enumerate] has
    emptied it before it calls [load_subdomains]: [load_subdomains] starts
    on the empty file, and the candidates are read from the files as the
    truncation has left them, so that a candidate list kept in the output
    file itself is lost.  When the reading yields no candidate (file
    missing, unreadable, empty or blank) [enumerate] returns at once, with no
    thread, no request and nothing recorded, and the file stays empty: what
    an earlier run wrote is gone. *)
Theorem output_truncated_before_loading o file st :
  o = Opened →
  (∃ st0,
     output st0 = ""
     ∧ self (enumerate cfg o file st) = (load_subdomains cfg file st0).2)
  ∧ output (self (enumerate cfg o file st)) = ""
  ∧ (loaded file = [] →
       main (enumerate cfg o file st) = Returned
       ∧ threads (enumerate cfg o file st) = []
       ∧ requests (self (enumerate cfg o file st)) = requests st
       ∧ discovered_subdomains (self (enumerate cfg o file st))
         = discovered_subdomains st
       ∧ ∀ m', ¬ step cfg (enumerate cfg o file st) m')
  ∧ (∀ fs,
       subdomain_queue (scan cfg o fs)
         = loaded (read_file (<[output_file cfg := Readable ""]> fs)
                     (subdomain_file cfg))
       ∧ output (self (scan cfg o fs)) = ""
       ∧ (subdomain_file cfg = output_file cfg →
            subdomain_queue (scan cfg o fs) = []
            ∧ main (scan cfg o fs) = Returned)).
Proof.
  intros ->.
  assert (∀ file' st',
            output (self (enumerate cfg Opened file' st')) = ""
            ∧ subdomain_queue (enumerate cfg Opened file' st') = loaded file'
            ∧ requests (self (enumerate cfg Opened file' st')) = requests st'
            ∧ discovered_subdomains (self (enumerate cfg Opened file' st'))
              = discovered_subdomains st'
            ∧ (loaded file' = [] →
                 main (enumerate cfg Opened file' st') = Returned
                 ∧ threads (enumerate cfg Opened file' st') = []))
    as Hall.
  { intros file' st'. unfold enumerate.
    destruct (load_subdomains_returns cfg file'
                (set_output ""
                   (print ("[INFO] Using " +:+ Py.str_int (max_threads cfg)
                            +:+ " threads with " +:+ Py.str_int (timeout cfg)
                            +:+ "s timeout")
                      (print ("[INFO] Starting subdomain enumeration for "
                               +:+ domain cfg) st'))))
      as (st1 & -> & Hd & _ & _ & Ho & Hr).
    destruct (loaded file') eqn:E; simpl; rewrite Ho, Hr, Hd;
      by destruct file'. }
  destruct (Hall file st) as (Ho & _ & Hr & Hd & Hnone).
  split_and!.
  - unfold enumerate.
    exists (set_output ""
              (print ("[INFO] Using " +:+ Py.str_int (max_threads cfg)
                       +:+ " threads with " +:+ Py.str_int (timeout cfg)
                       +:+ "s timeout")
                 (print ("[INFO] Starting subdomain enumeration for "
                          +:+ domain cfg) st))).
    split; [done|].
    destruct (load_subdomains cfg file _) as [[[|s l]|x] st']; done.
  - done.
  - intros Hl. destruct (Hnone Hl) as [Hm Ht]. split_and!; try done.
    by apply no_step_when_returned.
  - intros fs. unfold scan, truncated.
    destruct (Hall (read_file (<[output_file cfg := Readable ""]> fs)
                      (subdomain_file cfg))
                (init (text_of (fs !! output_file cfg))))
      as (Ho' & Hq' & _ & _ & Hnone').
    split_and!; try done.
    intros Hsame.
    assert (loaded (read_file (<[output_file cfg := Readable ""]> fs)
                      (subdomain_file cfg)) = []) as Hl.
    { unfold read_file. by rewrite Hsame, lookup_insert_eq. }
    rewrite Hq'. split; [done|]. by apply Hnone'.
Qed.

End Files.

(* ================================================================== *)
(** * The scenario, checked *)

Lemma demo_run : run demo_cfg demo_schedule demo_start = Some demo_final.
Proof. vm_compute. reflexivity. Qed.

Lemma demo_reachable : rtc (step demo_cfg) demo_start demo_final.
Proof. apply (run_rtc demo_cfg demo_schedule). exact demo_run. Qed.

(** The run ends with two entries, for a and for c, the two lines of these
    entries in the file, and three candidates checked. *)
Example demo_result :
  main demo_final = Returned
  ∧ threads demo_final = [Finished; Finished]
  ∧ checked_count (self demo_final) = 3
  ∧ discovered_subdomains (self demo_final)
    = ["a.example.com - http://a.example.com (Status: 200)";
       "c.example.com - https://c.example.com (Status: 200)"]
  ∧ output (self demo_final)
    = "a.example.com - http://a.example.com (Status: 200)
c.example.com - https://c.example.com (Status: 200)
"
  ∧ req_url <$> requests (self demo_final)
    = ["http://a.example.com"; "http://b.example.com";
       "https://b.example.com"; "http://c.example.com";
       "https://c.example.com"].
Proof. vm_compute. done. Qed.

(** C1 on the scenario. *)
Lemma checked_count_equals_total_demo :
  1 ≤ max_threads demo_cfg
  ∧ checked_count (self demo_final) = 3
  ∧ checked_count (self demo_final) = total_subdomains (self demo_final)
  ∧ subdomain_queue demo_final = [].
Proof.
  assert (1 ≤ max_threads demo_cfg) as HW by (simpl; lia).
  split; [exact HW|].
  destruct (checked_count_equals_total demo_cfg demo_file demo_previous
              demo_final HW demo_reachable) as (_ & H & _).
  exact (H eq_refl).
Defined.

(** C8 on the scenario: two threads for three candidates. *)
Lemma workers_started_demo :
  0 ≤ max_threads demo_cfg ∧ Py.len (threads demo_final) = 2.
Proof.
  assert (0 ≤ max_threads demo_cfg) as HW by (simpl; lia).
  split; [exact HW|].
  destruct (workers_started demo_cfg demo_file demo_previous demo_final HW
              demo_reachable) as (_ & _ & H).
  apply H. intros i stop. vm_compute. discriminate.
Defined.

(** C2 on the scenario: candidate a answers 200 over HTTP; the entry holds
    the HTTP URL and the status, and the one request is the HTTP one. *)
Lemma http_success_short_circuits_demo :
  demo_net (http_request demo_cfg "a") = Response 200
  ∧ (check_subdomain demo_cfg demo_net demo_disk "a" (init "")).1
    = Return true
  ∧ requests (check_subdomain demo_cfg demo_net demo_disk "a" (init "")).2
    = [mkRequest "http://a.example.com" 5 true true]
  ∧ discovered_subdomains
      (check_subdomain demo_cfg demo_net demo_disk "a" (init "")).2
    = ["a.example.com - http://a.example.com (Status: 200)"]
  ∧ output (check_subdomain demo_cfg demo_net demo_disk "a" (init "")).2
    = "a.example.com - http://a.example.com (Status: 200)
".
Proof.
  assert (demo_net (http_request demo_cfg "a") = Response 200) as Hnet
    by reflexivity.
  split; [exact Hnet|].
  destruct (http_success_short_circuits demo_cfg demo_net demo_disk "a"
              (init "") 200 Hnet ltac:(lia))
    as (Hreq & _ & Hd & Hopen & _).
  destruct (Hopen eq_refl) as (Hr & Ho & _).
  split; [exact Hr|]. split; [exact Hreq|]. split; [exact Hd|exact Ho].
Defined.

(** C3 on the scenario: candidate c. *)
Lemma https_fallback_demo :
  falls_through (demo_net (http_request demo_cfg "c"))
  ∧ req_url
      <$> requests (check_subdomain demo_cfg demo_net demo_disk "c" (init "")).2
    = ["http://c.example.com"; "https://c.example.com"]
  ∧ discovered_subdomains
      (check_subdomain demo_cfg demo_net demo_disk "c" (init "")).2
    = ["c.example.com - https://c.example.com (Status: 200)"].
Proof.
  assert (falls_through (demo_net (http_request demo_cfg "c"))) as Hft
    by (left; reflexivity).
  split; [exact Hft|].
  destruct (https_fallback demo_cfg demo_net demo_disk "c" (init "") Hft)
    as (Hreq & _ & _ & Hlive).
  destruct (Hlive 200) as (Hd & _); [reflexivity|lia|].
  rewrite Hreq, Hd. split; reflexivity.
Defined.

(** C5 as claimed fails on candidate c: the HTTP attempt raises a
    [RequestException] and [check_subdomain] returns [True], the HTTPS
    attempt having answered 200. *)
Lemma request_exception_then_https_live :
  demo_net (http_request demo_cfg "c") = RaiseRequestException
  ∧ demo_net (https_request demo_cfg "c") = Response 200
  ∧ (check_subdomain demo_cfg demo_net demo_disk "c" (init "")).1
    = Return true.
Proof. vm_compute. done. Qed.

(** C5 as the code has it, on candidate b: both attempts raise. *)
Lemma request_exceptions_are_contained_demo :
  demo_net (http_request demo_cfg "b") = RaiseRequestException
  ∧ (check_subdomain demo_cfg demo_net demo_disk "b" (init "")).1
    = Return false
  ∧ req_url
      <$> requests (check_subdomain demo_cfg demo_net demo_disk "b" (init "")).2
    = ["http://b.example.com"; "https://b.example.com"].
Proof.
  assert (demo_net (http_request demo_cfg "b") = RaiseRequestException) as Hb
    by reflexivity.
  split; [exact Hb|].
  destruct (request_exceptions_are_contained demo_cfg demo_net demo_disk "b"
              (init "") (or_introl Hb)) as (_ & _ & Hreq & _ & Hfalse).
  destruct Hfalse as (Hr & _); [left; reflexivity|].
  rewrite Hreq. split; [exact Hr|reflexivity].
Defined.

(** C6 as claimed fails: for a missing file and for an unreadable one
    [load_subdomains] returns the empty list, it raises nothing. *)
Lemma load_subdomains_returns_on_failure :
  load_subdomains demo_cfg RaiseFileNotFoundError (init "")
    = (Return [], print "[ERROR] File subdomains.txt not found!" (init ""))
  ∧ load_subdomains demo_cfg (RaiseReadError "Permission denied") (init "")
    = (Return [],
       print "[ERROR] Error reading file: Permission denied" (init "")).
Proof. split; reflexivity. Qed.

(** C6 as the code has it, on a missing file. *)
Lemma load_failure_stops_the_run_demo :
  main (enumerate demo_cfg Opened RaiseFileNotFoundError (init demo_previous))
    = Returned
  ∧ threads (enumerate demo_cfg Opened RaiseFileNotFoundError
               (init demo_previous))
    = []
  ∧ stdout (self (enumerate demo_cfg Opened RaiseFileNotFoundError
                    (init demo_previous)))
    = ["[INFO] Starting subdomain enumeration for example.com";
       "[INFO] Using 2 threads with 5s timeout";
       "[ERROR] File subdomains.txt not found!"].
Proof.
  destruct (load_failure_stops_the_run demo_cfg RaiseFileNotFoundError
              (init demo_previous) (or_introl eq_refl))
    as (_ & Hm & Ht & _).
  split; [exact Hm|]. split; [exact Ht|]. reflexivity.
Defined.

(** C7 as claimed fails on candidate a: the call changes
    [checked_count], [discovered_subdomains] and the output file. *)
Lemma check_subdomain_changes_the_object :
  checked_count (init "") = 0
  ∧ checked_count
      (check_subdomain demo_cfg demo_net demo_disk "a" (init "")).2 = 1
  ∧ discovered_subdomains (init "") = []
  ∧ discovered_subdomains
      (check_subdomain demo_cfg demo_net demo_disk "a" (init "")).2
    = ["a.example.com - http://a.example.com (Status: 200)"]
  ∧ output (init "") = ""
  ∧ output (check_subdomain demo_cfg demo_net demo_disk "a" (init "")).2
    = "a.example.com - http://a.example.com (Status: 200)
".
Proof. vm_compute. done. Qed.

(** C9 on the scenario with the full disk: each of the two live candidates
    is appended to [discovered_subdomains], the [open] of the output file
    raises, the worker prints the error and goes on; when [enumerate] has
    returned, with the lock free, the list holds two entries and the file
    holds no line. *)
Theorem refused_write_splits_list_and_file :
  rtc (step full_cfg) full_start full_final
  ∧ main full_final = Returned
  ∧ lock full_final = None
  ∧ discovered_subdomains (self full_final)
    = ["a.example.com - http://a.example.com (Status: 200)";
       "c.example.com - https://c.example.com (Status: 200)"]
  ∧ output (self full_final) = ""
  ∧ output (self full_final)
    ≠ file_of (discovered_subdomains (self full_final))
  ∧ filter (λ line, String.prefix "[ERROR]" line = true)
      (stdout (self full_final))
    = ["[ERROR] Thread error: [Errno 28] No space left on device";
       "[ERROR] Thread error: [Errno 28] No space left on device"]
  ∧ save_discovered_subdomain full_disk "a.example.com"
      "http://a.example.com" 200 (init "")
    = (Raise (OtherException "[Errno 28] No space left on device"),
       set_discovered
         ["a.example.com - http://a.example.com (Status: 200)"] (init "")).
Proof.
  split.
  - destruct (run full_cfg [RunMain "0.10"; RunMain "0.10"] full_start)
      as [m1|] eqn:E1; [|by vm_compute in E1].
    destruct (solo full_cfg demo_net full_disk 0 32 m1)
      as [m2|] eqn:E2;
      [|vm_compute in E1; injection E1 as <-; by vm_compute in E2].
    assert (run full_cfg [RunMain "0.10"; RunMain "0.10"] m2
            = Some full_final) as E3.
    { unfold full_final. rewrite E1. cbn [mbind option_bind].
      rewrite E2. cbn [mbind option_bind].
      vm_compute in E1. injection E1 as <-.
      vm_compute in E2. injection E2 as <-. by vm_compute. }
    etrans; [by eapply run_rtc|]. etrans; [by eapply solo_rtc|].
    by eapply run_rtc.
  - vm_compute. split_and!; done.
Qed.

(** C10 on the scenario with the candidate file missing: the line of the
    earlier run is gone. *)
Lemma output_truncated_before_loading_demo :
  loaded RaiseFileNotFoundError = []
  ∧ output (init demo_previous) = demo_previous
  ∧ output (self (enumerate demo_cfg Opened RaiseFileNotFoundError
                    (init demo_previous))) = ""
  ∧ requests (self (enumerate demo_cfg Opened RaiseFileNotFoundError
                      (init demo_previous))) = [].
Proof.
  assert (loaded RaiseFileNotFoundError = []) as Hl by reflexivity.
  split; [exact Hl|]. split; [reflexivity|].
  destruct (output_truncated_before_loading demo_cfg Opened
              RaiseFileNotFoundError (init demo_previous) eq_refl)
    as (_ & Ho & Hnone & _).
  destruct (Hnone Hl) as (_ & _ & Hr & _).
  split; [exact Ho|exact Hr].
Defined.

(* ================================================================== *)
(** * [str.strip] *)

Section Strip.

Lemma lstrip_eq s :
  Py.lstrip s
  = match Py.after_space s with Some r => Py.lstrip r | None => s end.
Proof.
  destruct s as [|a s1]; [done|].
  unfold Py.after_space.
  destruct (Py.space1 a) eqn:E1; [simpl; by rewrite E1|].
  destruct s1 as [|b s2]; [simpl; by rewrite E1|].
  destruct (Py.space2 a b) eqn:E2; [simpl; by rewrite E1, E2|].
  destruct s2 as [|c s3]; [simpl; by rewrite E1, E2|].
  destruct (Py.space3 a b c) eqn:E3; simpl; by rewrite E1, E2, E3.
Qed.

Lemma after_space_length s r :
  Py.after_space s = Some r → (String.length r < String.length s)%nat.
Proof.
  unfold Py.after_space.
  destruct s as [|a s1]; [done|].
  destruct (Py.space1 a); [intros [= <-]; simpl; lia|].
  destruct s1 as [|b s2]; [done|].
  destruct (Py.space2 a b); [intros [= <-]; simpl; lia|].
  destruct s2 as [|c s3]; [done|].
  destruct (Py.space3 a b c); [intros [= <-]; simpl; lia|done].
Qed.

(** A property holds of every text when it holds of those that do not
    start with white space and is passed on from a text to the text with one
    more white space character in front. *)
Lemma space_ind (P : string → Prop) :
  (∀ s, Py.after_space s = None → P s) →
  (∀ s r, Py.after_space s = Some r → P r → P s) →
  ∀ s, P s.
Proof.
  intros Hnone Hsome s.
  assert (∀ n s, (String.length s ≤ n)%nat → P s) as H; [|by eapply H].
  clear s. induction n as [|n IH]; intros s Hn.
  - destruct s; [by apply Hnone|simpl in Hn; lia].
  - destruct (Py.after_space s) as [r|] eqn:E; [|by apply Hnone].
    apply (Hsome s r E), IH. apply after_space_length in E. lia.
Qed.

Lemma lstrip_length s : (String.length (Py.lstrip s) ≤ String.length s)%nat.
Proof.
  induction s as [s H|s r H IH] using space_ind; rewrite lstrip_eq, H;
    [done|]. apply after_space_length in H. lia.
Qed.

Lemma lstrip_starts_clean s : starts_clean (Py.lstrip s).
Proof.
  unfold starts_clean.
  induction s as [s H|s r H IH] using space_ind; by rewrite lstrip_eq, H.
Qed.

Lemma lstrip_id s : starts_clean s → Py.lstrip s = s.
Proof. unfold starts_clean. intros H. by rewrite lstrip_eq, H. Qed.

Lemma after_space_app x y r :
  Py.after_space x = Some r → Py.after_space (x +:+ y) = Some (r +:+ y).
Proof.
  unfold Py.after_space.
  destruct x as [|a s1]; [done|].
  change (String a s1 +:+ y) with (String a (s1 +:+ y)). cbv iota.
  destruct (Py.space1 a); [by intros [= <-]|].
  destruct s1 as [|b s2]; [done|].
  change (String b s2 +:+ y) with (String b (s2 +:+ y)). cbv iota.
  destruct (Py.space2 a b); [by intros [= <-]|].
  destruct s2 as [|c s3]; [done|].
  change (String c s3 +:+ y) with (String c (s3 +:+ y)). cbv iota.
  destruct (Py.space3 a b c); [by intros [= <-]|done].
Qed.

(** White space in front of a text does not count. *)
Lemma lstrip_app_blank x y :
  Py.lstrip x = EmptyString → Py.lstrip (x +:+ y) = Py.lstrip y.
Proof.
  induction x as [x H|x r H IH] using space_ind; intros Hx.
  - rewrite lstrip_eq, H in Hx. by subst x.
  - rewrite lstrip_eq, H in Hx.
    by rewrite (lstrip_eq (x +:+ y)), (after_space_app _ _ _ H), IH.
Qed.

Lemma rstrip_eq a s :
  Py.rstrip (String a s)
  = match Py.lstrip (String a s) with
    | EmptyString => EmptyString
    | _ => String a (Py.rstrip s)
    end.
Proof. done. Qed.

(** [rstrip] cuts off a suffix that is all white space. *)
Lemma rstrip_split t :
  ∃ w, t = Py.rstrip t +:+ w ∧ Py.lstrip w = EmptyString.
Proof.
  induction t as [|a t (w & Ht & Hw)]; [by exists EmptyString|].
  rewrite rstrip_eq. destruct (Py.lstrip (String a t)) eqn:E.
  - by exists (String a t).
  - exists w. split; [|done].
    change (String a t = String a (Py.rstrip t +:+ w)). by rewrite <- Ht.
Qed.

Lemma rstrip_length s : (String.length (Py.rstrip s) ≤ String.length s)%nat.
Proof.
  induction s as [|a s IH]; [done|]. rewrite rstrip_eq.
  destruct (Py.lstrip (String a s)); simpl; lia.
Qed.

Lemma rstrip_idemp s : Py.rstrip (Py.rstrip s) = Py.rstrip s.
Proof.
  induction s as [|a s IH]; [done|]. rewrite rstrip_eq.
  destruct (Py.lstrip (String a s)) as [|x l] eqn:E; [done|].
  rewrite rstrip_eq, IH.
  destruct (Py.lstrip (String a (Py.rstrip s))) eqn:E'; [|done].
  destruct (rstrip_split s) as (w & Hs & Hw).
  assert (Py.lstrip (String a (Py.rstrip s) +:+ w) = EmptyString) as H.
  { by rewrite lstrip_app_blank. }
  change (Py.lstrip (String a (Py.rstrip s +:+ w)) = EmptyString) in H.
  rewrite <- Hs in H. congruence.
Qed.

Lemma rstrip_starts_clean s : starts_clean s → starts_clean (Py.rstrip s).
Proof.
  unfold starts_clean. intros Hs.
  destruct (rstrip_split s) as (w & Ht & Hw).
  destruct (Py.after_space (Py.rstrip s)) as [r|] eqn:E; [|done].
  apply (after_space_app _ w) in E. rewrite <- Ht in E. congruence.
Qed.

Lemma strip_idemp s : Py.strip (Py.strip s) = Py.strip s.
Proof.
  unfold Py.strip.
  rewrite (lstrip_id (Py.rstrip _)), rstrip_idemp; [done|].
  apply rstrip_starts_clean, lstrip_starts_clean.
Qed.

Lemma strip_length s : (String.length (Py.strip s) ≤ String.length s)%nat.
Proof.
  unfold Py.strip. pose proof (rstrip_length (Py.lstrip s)).
  pose proof (lstrip_length s). lia.
Qed.

(** A string that [strip] leaves alone does not start with white space. *)
Lemma strip_fixed_starts_clean s : Py.strip s = s → starts_clean s.
Proof.
  intros H. rewrite <- H. apply rstrip_starts_clean, lstrip_starts_clean.
Qed.

(** A one-byte white space character after a text that does not start
    with white space does not make it start with white space. *)
Lemma after_space_snoc s c :
  Py.after_space s = None → s ≠ EmptyString → Py.space1 c = true →
  Py.after_space (s +:+ String c EmptyString) = None.
Proof.
  intros Hs Hne Hc.
  assert (∀ a, Py.space2 a c = false) as H2.
  { intros a. unfold Py.space1, Py.space2 in *.
    destruct (Nat.eqb_spec (nat_of_ascii c) 133) as [E|_];
      [rewrite E in Hc; done|].
    destruct (Nat.eqb_spec (nat_of_ascii c) 160) as [E|_];
      [rewrite E in Hc; done|].
    simpl. apply andb_false_r. }
  assert (∀ a b, Py.space3 a b c = false) as H3.
  { intros a b. unfold Py.space1, Py.space3 in *.
    assert (nat_of_ascii c ≤ 32)%nat as Hle.
    { apply orb_true_iff in Hc as [H|H]; apply andb_true_iff in H as [_ H];
        apply Nat.leb_le in H; lia. }
    repeat match goal with
           | |- context [(nat_of_ascii c =? ?k)%nat] =>
               destruct (Nat.eqb_spec (nat_of_ascii c) k); [lia|]
           end.
    destruct (Nat.leb_spec 128 (nat_of_ascii c)); [lia|].
    simpl. by rewrite !andb_false_r. }
  destruct s as [|a [|b [|d s]]]; try done; unfold Py.after_space in *;
    simpl in *.
  - destruct (Py.space1 a); [done|]. by rewrite H2.
  - destruct (Py.space1 a); [done|]. destruct (Py.space2 a b); [done|].
    by rewrite H3.
  - by repeat case_match.
Qed.

Lemma lstrip_snoc s c :
  Py.space1 c = true →
  Py.lstrip (s +:+ String c EmptyString)
  = match Py.lstrip s with
    | EmptyString => EmptyString
    | t => t +:+ String c EmptyString
    end.
Proof.
  intros Hc. induction s as [s H|s r H IH] using space_ind.
  - rewrite (lstrip_eq s), H. destruct s as [|a s].
    + simpl. by rewrite Hc.
    + by rewrite lstrip_eq, after_space_snoc.
  - by rewrite lstrip_eq, (after_space_app _ _ _ H), IH, (lstrip_eq s), H.
Qed.

Lemma rstrip_append_space s c :
  Py.space1 c = true →
  Py.rstrip (s +:+ String c EmptyString) = Py.rstrip s.
Proof.
  intros Hc. induction s as [|a s IH].
  - simpl. by rewrite Hc.
  - change (Py.rstrip (String a (s +:+ String c ""))
            = Py.rstrip (String a s)).
    rewrite !rstrip_eq, IH.
    change (String a (s +:+ String c "")) with (String a s +:+ String c "").
    rewrite lstrip_snoc by done.
    destruct (Py.lstrip (String a s)) as [|x l]; [done|]. done.
Qed.

Lemma strip_append_space s c :
  Py.space1 c = true →
  Py.strip (s +:+ String c EmptyString) = Py.strip s.
Proof.
  intros Hc. unfold Py.strip. rewrite lstrip_snoc by done.
  destruct (Py.lstrip s) as [|x l]; [done|].
  by apply rstrip_append_space.
Qed.

End Strip.

(* ================================================================== *)
(** * Lines of a text file and what [load_subdomains] makes of them *)

Section Lines.

Lemma among_cons d t c :
  Text.among (String d t) c = Ascii.eqb d c || Text.among t c.
Proof. simpl. by rewrite Ascii.eqb_sym. Qed.

Lemma among_cons_false d t c :
  Text.among (String d t) c = false
  ↔ Ascii.eqb d c = false ∧ Text.among t c = false.
Proof. rewrite among_cons. apply orb_false_iff. Qed.

Lemma among_append a b c :
  Text.among (a +:+ b) c = Text.among a c || Text.among b c.
Proof.
  induction a as [|d a IH]; [done|].
  change (Text.among (String d (a +:+ b)) c
          = Text.among (String d a) c || Text.among b c).
  rewrite !among_cons, IH. by rewrite orb_assoc.
Qed.

Lemma after_space_among s r c :
  Py.after_space s = Some r → Text.among r c = true → Text.among s c = true.
Proof.
  unfold Py.after_space. intros Hs Hr.
  destruct s as [|a s1]; [done|]. rewrite among_cons.
  destruct (Py.space1 a); [simplify_eq; by rewrite Hr, orb_true_r|].
  destruct s1 as [|b s2]; [done|]. rewrite among_cons.
  destruct (Py.space2 a b); [simplify_eq; by rewrite Hr, !orb_true_r|].
  destruct s2 as [|d s3]; [done|]. rewrite among_cons.
  destruct (Py.space3 a b d); [simplify_eq; by rewrite Hr, !orb_true_r|done].
Qed.

Lemma among_lstrip s c :
  Text.among (Py.lstrip s) c = true → Text.among s c = true.
Proof.
  induction s as [s H|s r H IH] using space_ind; rewrite lstrip_eq, H;
    [done|].
  intros Hr. by apply (after_space_among s r), IH.
Qed.

Lemma among_rstrip s c :
  Text.among (Py.rstrip s) c = true → Text.among s c = true.
Proof.
  destruct (rstrip_split s) as (w & Hs & _). intros H.
  by rewrite Hs, among_append, H.
Qed.

Lemma among_strip s c :
  Text.among s c = false → Text.among (Py.strip s) c = false.
Proof.
  intros H. apply not_true_is_false. intros H'.
  apply among_rstrip, among_lstrip in H'. congruence.
Qed.

Lemma universal_newlines_no_cr s :
  Text.among (Text.universal_newlines s) "013" = false.
Proof.
  assert (∀ n s, (String.length s ≤ n)%nat →
                 Text.among (Text.universal_newlines s) "013" = false) as H.
  { clear s. induction n as [|n IH]; intros [|c s] Hn; simpl in *;
      try done; try lia.
    destruct (Ascii.eqb c "013") eqn:Hc.
    - destruct s as [|c' s]; [done|].
      destruct (Ascii.eqb c' "010").
      + change (Text.among (Text.universal_newlines s) "013" = false).
        apply IH. simpl in *. lia.
      + change (Text.among (Text.universal_newlines (String c' s)) "013"
                = false).
        apply IH. simpl in *. lia.
    - change (Text.among (String c (Text.universal_newlines s)) "013"
              = false).
      rewrite among_cons, Hc. apply IH. lia. }
  by apply (H (String.length s)).
Qed.

Lemma universal_newlines_id s :
  Text.among s "013" = false → Text.universal_newlines s = s.
Proof.
  induction s as [|c s IH]; [done|].
  intros [Hc Hs]%among_cons_false. simpl. by rewrite Hc, IH.
Qed.

(** Each line holds a line feed at its end or nowhere. *)
Lemma lines_of_shape t :
  Forall (λ l, ∃ body, Text.among body "010" = false
                       ∧ (l = body ∨ l = body +:+ String "010" EmptyString))
    (Text.lines_of t).
Proof.
  induction t as [|c t IH]; simpl; [done|].
  destruct (Ascii.eqb c "010") eqn:Hc.
  - apply Ascii.eqb_eq in Hc as ->. constructor; [|done].
    exists EmptyString. split; [done|by right].
  - destruct (Text.lines_of t) as [|l more]; constructor; try done.
    + exists (String c EmptyString). split; [|by left].
      by apply among_cons_false.
    + apply Forall_cons in IH as [(body & Hb & Hl) _].
      exists (String c body). split.
      * by apply among_cons_false.
      * destruct Hl as [->| ->]; [by left|by right].
    + by apply Forall_cons in IH as [_ ?].
Qed.

(** A character of a line is a character of the text. *)
Lemma lines_of_among t c :
  Text.among t c = false →
  Forall (λ l, Text.among l c = false) (Text.lines_of t).
Proof.
  induction t as [|d t IH]; [done|].
  intros [Hd Ht]%among_cons_false. specialize (IH Ht). simpl Text.lines_of.
  destruct (Ascii.eqb d "010").
  - constructor; [|done]. by apply among_cons_false.
  - destruct (Text.lines_of t) as [|l more]; constructor.
    + by apply among_cons_false.
    + done.
    + apply Forall_cons in IH as [Hl _]. by apply among_cons_false.
    + by apply Forall_cons in IH as [_ ?].
Qed.

Lemma lines_of_line s rest :
  Text.among s "010" = false →
  Text.lines_of (s +:+ String "010" rest)
  = (s +:+ String "010" EmptyString) :: Text.lines_of rest.
Proof.
  induction s as [|c s IH]; [done|]. intros [Hc Hs]%among_cons_false.
  change (Text.lines_of (String c (s +:+ String "010" rest))
          = String c (s +:+ String "010" "") :: Text.lines_of rest).
  simpl. by rewrite Hc, (IH Hs).
Qed.

Lemma stripped_lines_cons line lines :
  stripped_lines (line :: lines)
  = match Py.strip line with
    | EmptyString => stripped_lines lines
    | s => s :: stripped_lines lines
    end.
Proof.
  unfold stripped_lines. rewrite filter_cons.
  destruct (Py.strip line) eqn:E.
  - by rewrite decide_False.
  - rewrite decide_True by done. by rewrite fmap_cons, E.
Qed.

Lemma stripped_lines_clean lines :
  Forall (λ s, s ≠ EmptyString ∧ Py.strip s = s) (stripped_lines lines)
  ∧ (length (stripped_lines lines) ≤ length lines)%nat.
Proof.
  induction lines as [|line lines [IH1 IH2]]; [done|].
  rewrite stripped_lines_cons.
  destruct (Py.strip line) as [|c r] eqn:E; simpl.
  - split; [done|lia].
  - split; [|lia]. constructor; [|done]. split; [done|].
    by rewrite <- E, strip_idemp.
Qed.

Lemma stripped_lines_among lines c :
  Forall (λ l, Text.among l c = false) lines →
  Forall (λ s, Text.among s c = false) (stripped_lines lines).
Proof.
  induction 1 as [|line lines Hl _ IH]; [done|].
  rewrite stripped_lines_cons. pose proof (among_strip _ _ Hl) as Hs.
  destruct (Py.strip line); [done|]. by constructor.
Qed.

Lemma stripped_lines_no_line_feed t :
  Forall (λ s, Text.among s "010" = false)
    (stripped_lines (Text.lines_of t)).
Proof.
  pose proof (lines_of_shape t) as H.
  induction H as [|line lines (body & Hb & Hl) _ IH]; [done|].
  rewrite stripped_lines_cons.
  assert (Text.among (Py.strip line) "010" = false) as Hs.
  { destruct Hl as [->| ->]; [by apply among_strip|].
    rewrite strip_append_space by done. by apply among_strip. }
  destruct (Py.strip line); [done|]. by constructor.
Qed.

End Lines.

(* ================================================================== *)
(** * Candidate files *)

Section CandidateFiles.

Lemma stripped_lines_label_ok content :
  Forall label_ok (stripped_lines (Text.readlines content)).
Proof.
  destruct (stripped_lines_clean (Text.readlines content)) as [Hc Hl].
  pose proof (stripped_lines_no_line_feed
                (Text.universal_newlines content)) as Hn.
  pose proof (stripped_lines_among _ "013"%char
                (lines_of_among _ _ (universal_newlines_no_cr content)))
    as Hr.
  unfold Text.readlines in *.
  rewrite Forall_forall in Hc, Hn, Hr. apply Forall_forall. intros s Hs.
  destruct (Hc s Hs). split_and!; auto.
Qed.

(** X1: whatever the files hold, [load_subdomains] returns labels that are
    not empty, that [strip] leaves alone, so that they have no white space
    of Unicode at either end, and that hold no line feed and no carriage
    return.  For a file with text they are no more than its lines, and
    [total_subdomains] is their number; for a file that is missing, or that
    cannot be read or decoded, there is no label and [total_subdomains] is
    left as it was. *)
Theorem load_subdomains_cleans cfg fs st :
  ∃ subdomains,
    (load_subdomains cfg (read_file fs (subdomain_file cfg)) st).1
      = Return subdomains
    ∧ Forall label_ok subdomains
    ∧ match fs !! subdomain_file cfg with
      | Some (Readable content) =>
          (length subdomains ≤ length (Text.readlines content))%nat
          ∧ total_subdomains
              (load_subdomains cfg (read_file fs (subdomain_file cfg)) st).2
            = Py.len subdomains
      | _ =>
          subdomains = []
          ∧ total_subdomains
              (load_subdomains cfg (read_file fs (subdomain_file cfg)) st).2
            = total_subdomains st
      end.
Proof.
  unfold read_file.
  destruct (fs !! subdomain_file cfg) as [[content|e]|].
  - exists (stripped_lines (Text.readlines content)).
    split_and!; try done; [apply stripped_lines_label_ok|].
    apply stripped_lines_clean.
  - by exists [].
  - by exists [].
Qed.

Lemma strip_label_line s :
  label_ok s → Py.strip (s +:+ String "010" EmptyString) = s.
Proof. intros (_ & Hs & _). by rewrite strip_append_space. Qed.

(** X2: labels written one per line, as [create_sample_subdomain_file]
    writes them, are read back by [load_subdomains] as they were: the same
    labels in the same order, duplicates included. *)
Theorem written_labels_load_back cfg labels st :
  Forall label_ok labels →
  (load_subdomains cfg (FileLines (Text.readlines (written labels))) st).1
    = Return labels
  ∧ total_subdomains
      (load_subdomains cfg (FileLines (Text.readlines (written labels))) st).2
    = Py.len labels.
Proof.
  intros Hok.
  assert (stripped_lines (Text.readlines (written labels)) = labels) as Heq.
  { unfold Text.readlines.
    assert (Text.among (written labels) "013" = false) as Hcr.
    { induction Hok as [|s l (_ & _ & _ & Hs) _ IH]; [done|].
      simpl. by rewrite !among_append, Hs, IH. }
    rewrite universal_newlines_id by done. clear Hcr.
    induction Hok as [|s l Hs _ IH]; [done|].
    simpl. change (s +:+ "
" +:+ written l) with (s +:+ String "010" (written l)).
    rewrite lines_of_line by apply Hs.
    rewrite stripped_lines_cons, strip_label_line, IH by done.
    destruct Hs as (Hne & _). by destruct s. }
  simpl. by rewrite Heq.
Qed.

(** X3: [create_sample_subdomain_file] writes, at the path that is the
    default of [--file], a file that a scan with the default options loads
    back as the 56 built-in labels, in order, with the label secure twice;
    no other file is touched. *)
Theorem sample_file_loads_back fs domain :
  domain ≠ EmptyString →
  (create_sample_subdomain_file Opened fs).1 !! arg_file default_args
    = Some (Readable (written common_subdomains))
  ∧ (∀ path, path ≠ "subdomains.txt" →
       (create_sample_subdomain_file Opened fs).1 !! path = fs !! path)
  ∧ (create_sample_subdomain_file Opened fs).2
    = ["[INFO] Created sample subdomain list with 56 entries"]
  ∧ ∃ cfg m,
      run_main (mkArgs (Some domain) "subdomains.txt"
                  "discovered_subdomains.txt" 50 5 false) Opened
        (create_sample_subdomain_file Opened fs).1
      = Scanning cfg m
      ∧ subdomain_queue m = common_subdomains
      ∧ total_subdomains (self m) = 56
      ∧ main m = Starting 0 50
      ∧ occurrences "secure" (subdomain_queue m) = 2%nat.
Proof.
  intros Hd. simpl. split_and!.
  - apply lookup_insert_eq.
  - intros path Hp. by apply lookup_insert_ne.
  - done.
  - unfold run_main. simpl. destruct domain as [|c d]; [done|].
    eexists _, _. split; [done|].
    unfold scan, read_file. simpl.
    rewrite lookup_insert_ne by done. rewrite lookup_insert_eq.
    by vm_compute.
Qed.

End CandidateFiles.

(* ================================================================== *)
(** * One worker alone *)

Section WorkerAlone.

Context (cfg : Config).

Lemma file_of_app a b : file_of (a ++ b) = file_of a +:+ file_of b.
Proof.
  induction a as [|x a IH]; [done|].
  simpl. by rewrite IH, !append_assoc.
Qed.

Lemma let_in_app disk a b :
  let_in disk (a ++ b) = let_in disk a ++ let_in disk b.
Proof. apply filter_app. Qed.

(** One call of [check_subdomain] in terms of [probes] and [hit]. *)
Lemma check_subdomain_probes net disk s st :
  let r := check_subdomain cfg net disk s st in
  r.1 ≠ Raise IndexError
  ∧ r.1 ≠ Raise RequestException
  ∧ requests r.2 = requests st ++ probes cfg net s
  ∧ discovered_subdomains r.2 = discovered_subdomains st ++ hit cfg net s
  ∧ output r.2 = output st +:+ file_of (let_in disk (hit cfg net s))
  ∧ checked_count r.2 = checked_count st + 1
  ∧ total_subdomains r.2 = total_subdomains st.
Proof.
  simpl. rewrite check_subdomain_unfold.
  unfold https_part, save_part, probes, hit, let_in.
  destruct (counted_frame st) as (Hd & Ht & Hc & Ho & Hr).
  destruct (net (http_request cfg s)) as [c| |e]; simpl.
  1: destruct (c <? 400); simpl.
  2,3: destruct (net (https_request cfg s)) as [c'| |e']; simpl.
  2,5: destruct (c' <? 400); simpl.
  all: try destruct (disk _) as [|e0] eqn:E; simpl.
  all: rewrite ?filter_cons_True, ?filter_cons_False, ?filter_nil
         by (rewrite E; done).
  all: simpl.
  all: rewrite Hd, Ht, Hc, Ho, Hr, <- ?app_assoc, ?app_nil_r, ?append_nil_r.
  all: split_and!; done.
Qed.

(** X8: one worker alone empties the queue and handles the candidates in
    queue order: it counts each one, issues for each its HTTP request and,
    when that falls through, its HTTPS request, and appends the successes to
    the list in that same order; the file gets, in the same order, the lines
    of those the file system lets in.  An exception ends the handling of the
    one candidate only. *)
Theorem worker_in_queue_order net disk q st :
  (worker cfg net disk q st).2 = []
  ∧ checked_count (worker cfg net disk q st).1 = checked_count st + Py.len q
  ∧ requests (worker cfg net disk q st).1
    = requests st ++ flat_map (probes cfg net) q
  ∧ discovered_subdomains (worker cfg net disk q st).1
    = discovered_subdomains st ++ flat_map (hit cfg net) q
  ∧ output (worker cfg net disk q st).1
    = output st +:+ file_of (let_in disk (flat_map (hit cfg net) q))
  ∧ total_subdomains (worker cfg net disk q st).1 = total_subdomains st.
Proof.
  revert st. induction q as [|s q IH]; intros st.
  { simpl. rewrite !app_nil_r, append_nil_r. unfold Py.len. simpl.
    split_and!; try done; lia. }
  destruct (check_subdomain_probes net disk s st)
    as (Hi & Hx & Hr & Hd & Ho & Hc & Ht).
  simpl worker. simpl flat_map.
  destruct (check_subdomain cfg net disk s st) as [[b|x] st'] eqn:E;
    simpl in *.
  - destruct (IH st') as (-> & -> & -> & -> & -> & ->).
    rewrite Hr, Hd, Ho, Hc, Ht, <- !app_assoc, let_in_app, file_of_app,
      append_assoc.
    unfold Py.len. simpl length. split_and!; try done; lia.
  - destruct x as [| |e]; try done. unfold exn_text.
    destruct (IH (print ("[ERROR] Thread error: " +:+ e) st'))
      as (-> & -> & -> & -> & -> & ->). simpl.
    rewrite Hr, Hd, Ho, Hc, Ht, <- !app_assoc, let_in_app, file_of_app,
      append_assoc.
    unfold Py.len. simpl length. split_and!; try done; lia.
Qed.

(** X7: in the pool, a thread that stands at the pop while the lock is
    free and that runs without any other thread taking a step does what
    [worker] does, whatever the network and the file system do: it leaves
    the object as [worker] leaves it, the queue empty, the lock free, and
    has finished. *)
Theorem worker_alone_in_pool net disk tid m :
  threads m !! tid = Some AtPop →
  lock m = None →
  ∃ n, solo cfg net disk tid n m
       = Some (mkMachine
                 (worker cfg net disk (subdomain_queue m) (self m)).1 []
                 None (<[tid := Finished]> (threads m)) (main m)).
Proof.
  destruct m as [st q l ths mn]. simpl. intros Hpc ->.
  revert st ths Hpc. induction q as [|s q IH]; intros st ths Hpc.
  { exists 1%nat. apply solo_one. unfold answer_at, worker_step. simpl.
    by rewrite Hpc. }
  assert (tid < length ths)%nat as Hlt by (by eapply lookup_lt_Some).
  assert (solo cfg net disk tid 1 (mkMachine st (s :: q) None ths mn)
          = Some (mkMachine st q None (<[tid := AtCountAcquire s]> ths) mn))
    as Hpop.
  { apply solo_one. unfold answer_at, worker_step. simpl. by rewrite Hpc. }
  destruct (solo_check_subdomain cfg net disk tid s
              (mkMachine st q None (<[tid := AtCountAcquire s]> ths) mn))
    as [n1 Hn1]; [by apply list_lookup_insert_eq|done|].
  simpl in Hn1. rewrite list_insert_insert_eq in Hn1.
  destruct (check_subdomain_probes net disk s st) as (Hi & Hx & _).
  simpl worker.
  destruct (check_subdomain cfg net disk s st) as [[b|x] st'] eqn:E;
    simpl in Hi, Hx, Hn1; simpl fst.
  - destruct (IH st' (<[tid := AtPop]> ths)) as [n2 Hn2];
      [by apply list_lookup_insert_eq|].
    rewrite list_insert_insert_eq in Hn2.
    exists (1 + (n1 + n2))%nat.
    eapply solo_seq; [exact Hpop|]. eapply solo_seq; [exact Hn1|exact Hn2].
  - destruct x as [| |e]; try done. unfold exn_text.
    destruct (IH (print ("[ERROR] Thread error: " +:+ e) st')
                (<[tid := AtPop]> ths)) as [n2 Hn2];
      [by apply list_lookup_insert_eq|].
    rewrite list_insert_insert_eq in Hn2.
    exists (1 + (n1 + (1 + n2)))%nat.
    eapply solo_seq; [exact Hpop|]. eapply solo_seq; [exact Hn1|].
    eapply solo_seq; [|exact Hn2].
    apply solo_one. unfold answer_at, worker_step. simpl.
    rewrite list_lookup_insert_eq by done. simpl.
    unfold goto, on_self. simpl. by rewrite list_insert_insert_eq.
Qed.

End WorkerAlone.

(* ================================================================== *)
(** * What the pool requests *)

Section Requests.

Context (cfg : Config).

Lemma label_of_after_get answer s url next s' :
  label_of (after_get cfg answer s url next) = Some s' →
  s' = s ∨ label_of next = Some s'.
Proof.
  unfold after_get. repeat case_match; simpl; intros; simplify_eq; auto.
Qed.

Lemma req_inv_worker_step candidates tid answer disk m m' :
  req_inv cfg candidates m →
  worker_step cfg tid answer disk m = Some m' → req_inv cfg candidates m'.
Proof.
  intros [Hlog Hq Hth] H.
  worker_cases H; split; simpl.
  all: rewrite ?(proj2 (proj2 (proj2 (proj2 (report_progress_same _ _))))).
  all: try done.
  all: try (apply Forall_app; split; [done|];
            apply Forall_singleton; eexists; split;
            [by eapply (Hth _ _ _ Hpc)|auto]).
  all: try (match goal with
            | H : subdomain_queue _ = _ |- _ => by rewrite H
            end).
  all: try by apply Forall_cons in Hq as [_ ?].
  all: intros t p s' Hl Hs';
    apply list_lookup_insert_Some in Hl as [(<- & <- & _) | (Hne & Hl)];
    [|by eapply Hth].
  all: try (apply label_of_after_get in Hs' as [->|Hs']).
  all: simpl in *; simplify_eq; try by eapply (Hth _ _ _ Hpc).
  by apply Forall_cons in Hq as [? _].
Qed.

Lemma req_inv_main_step candidates elapsed m m' :
  req_inv cfg candidates m →
  main_step cfg elapsed m = Some m' → req_inv cfg candidates m'.
Proof.
  intros [Hlog Hq Hth] H. main_cases H; split; simpl; try done.
  - intros t p s Hl Hs. apply lookup_snoc_Some in Hl as [(_ & Hl) | (_ & <-)];
      [by eapply Hth | done].
  - by rewrite (proj2 (proj2 (proj2 (proj2 (report_same cfg _ _))))).
Qed.

Lemma req_inv_enumerate file st :
  requests st = [] → req_inv cfg (loaded file) (enumerate cfg Opened file st).
Proof.
  intros Hr. unfold enumerate.
  destruct (load_subdomains_returns cfg file
              (set_output ""
                 (print ("[INFO] Using " +:+ Py.str_int (max_threads cfg)
                          +:+ " threads with " +:+ Py.str_int (timeout cfg)
                          +:+ "s timeout")
                    (print ("[INFO] Starting subdomain enumeration for "
                             +:+ domain cfg) st))))
    as (st' & -> & _ & _ & _ & _ & Hr').
  assert (requests st' = []) as Hr''.
  { rewrite Hr'. by destruct file. }
  destruct (loaded file) as [|s l] eqn:Hl; split; simpl;
    rewrite ?Hr''; try done.
  apply Forall_forall. auto.
Qed.

Lemma req_inv_run file previous m :
  rtc (step cfg) (enumerate cfg Opened file (init previous)) m →
  req_inv cfg (loaded file) m.
Proof.
  intros Hrun.
  assert (req_inv cfg (loaded file) (enumerate cfg Opened file (init previous)))
    as H0 by (by apply req_inv_enumerate).
  induction Hrun as [|m1 m2 m3 [[elapsed|tid answer disk] Hs] _ IH]; [done|..];
    apply IH; simpl in Hs;
    eauto using req_inv_main_step, req_inv_worker_step.
Qed.

(** X4: along every run of a new object, under every schedule and whatever
    the network answers, every request issued is the HTTP or the HTTPS
    request of a candidate of the loaded list: its URL is
    [http://<candidate>.<domain>] or [https://<candidate>.<domain>], its
    timeout is the configured one, redirects are followed, and the
    certificate is verified exactly for the HTTP URL. *)
Theorem requests_only_for_candidates file previous m :
  rtc (step cfg) (enumerate cfg Opened file (init previous)) m →
  Forall (λ r, ∃ s, s ∈ loaded file
                    ∧ (req_url r = "http://" +:+ s +:+ "." +:+ domain cfg
                         ∧ req_verify r = true
                       ∨ req_url r = "https://" +:+ s +:+ "." +:+ domain cfg
                         ∧ req_verify r = false)
                    ∧ req_timeout r = timeout cfg
                    ∧ req_allow_redirects r = true)
    (requests (self m)).
Proof.
  intros Hrun. destruct (req_inv_run file previous m Hrun) as [Hlog _ _].
  eapply Forall_impl; [exact Hlog|].
  intros r (s & Hs & [->| ->]); exists s; split_and!; auto.
Qed.

(** ** How many requests *)

Lemma times_app x l k : times x (l ++ k) = (times x l + times x k)%nat.
Proof. apply count_occ_app. Qed.

Lemma times_cons x r l : times x (r :: l) = (times x [r] + times x l)%nat.
Proof. apply (times_app x [r] l). Qed.

Lemma times_nil x : times x [] = 0%nat.
Proof. done. Qed.

Lemma http_pending_after_get answer s url next :
  http_pending next = [] →
  http_pending (after_get cfg answer s url next) = [].
Proof. intros ?. unfold after_get. by repeat case_match. Qed.

Lemma https_pending_after_get x answer s url next :
  (times x (https_request cfg <$> https_pending (after_get cfg answer s url next))
   ≤ times x (https_request cfg <$> https_pending next))%nat.
Proof. unfold after_get. repeat case_match; simpl; rewrite ?times_nil; lia. Qed.

Lemma get_inv_worker_step candidates tid answer disk m m' :
  get_inv cfg candidates m →
  worker_step cfg tid answer disk m = Some m' → get_inv cfg candidates m'.
Proof.
  intros [Hh Hs] H. worker_cases H; split; intros x; simpl.
  all: specialize (Hh x); specialize (Hs x).
  all: rewrite ?(proj2 (proj2 (proj2 (proj2 (report_progress_same _ _))))).
  all: unfold verified, unverified in *;
    rewrite ?filter_app, ?times_app.
  all: try change (filter (λ r, req_verify r = true) [http_request cfg ?s])
         with [http_request cfg s].
  all: try change (filter (λ r, req_verify r = true) [https_request cfg ?s])
         with (@nil Request).
  all: try change (filter (λ r, req_verify r = false) [http_request cfg ?s])
         with (@nil Request).
  all: try change (filter (λ r, req_verify r = false) [https_request cfg ?s])
         with [https_request cfg s].
  all: match goal with
       | |- context [sum_list_with ?f (<[_:=?pc']> _)] =>
           pose proof (sum_list_with_insert f _ _ _ pc' Hpc) as Hsum
       end.
  all: simpl in Hsum;
    rewrite ?http_pending_after_get in Hsum by done.
  all: try match type of Hsum with
       | context [https_pending (after_get ?c ?a ?s ?u ?nx)] =>
           pose proof (https_pending_after_get x a s u nx)
       end.
  all: repeat match goal with H : subdomain_queue _ = _ |- _ => rewrite H in * end.
  all: simpl in *.
  all: repeat match goal with
         | H : context [list_fmap string Request ?f ?l] |- _ =>
             change (list_fmap string Request f l) with (f <$> l) in H
         | |- context [list_fmap string Request ?f ?l] =>
             change (list_fmap string Request f l) with (f <$> l)
         end.
  all: repeat match goal with
         | H : context [times _ (_ :: ?l)] |- _ =>
             lazymatch l with [] => fail | _ => rewrite (times_cons _ _ l) in H end
         | |- context [times _ (_ :: ?l)] =>
             lazymatch l with [] => fail | _ => rewrite (times_cons _ _ l) end
         end.
  all: rewrite ?times_nil in *; try lia.
Qed.

Lemma get_inv_main_step candidates elapsed m m' :
  get_inv cfg candidates m →
  main_step cfg elapsed m = Some m' → get_inv cfg candidates m'.
Proof.
  intros [Hh Hs] H. main_cases H; split; intros x; simpl; try done.
  all: specialize (Hh x); specialize (Hs x).
  all: rewrite ?sum_list_with_snoc; simpl; rewrite ?times_nil; try lia.
  all: by rewrite (proj2 (proj2 (proj2 (proj2 (report_same cfg _ _))))).
Qed.

Lemma get_inv_enumerate file st :
  requests st = [] → get_inv cfg (loaded file) (enumerate cfg Opened file st).
Proof.
  intros Hr. unfold enumerate.
  destruct (load_subdomains_returns cfg file
              (set_output ""
                 (print ("[INFO] Using " +:+ Py.str_int (max_threads cfg)
                          +:+ " threads with " +:+ Py.str_int (timeout cfg)
                          +:+ "s timeout")
                    (print ("[INFO] Starting subdomain enumeration for "
                             +:+ domain cfg) st))))
    as (st' & -> & _ & _ & _ & _ & Hr').
  assert (requests st' = []) as Hr''.
  { rewrite Hr'. by destruct file. }
  destruct (loaded file) as [|s l] eqn:Hl; split; intros x; simpl;
    rewrite ?Hr''; simpl; rewrite ?times_nil; lia.
Qed.

Lemma get_inv_run file previous m :
  rtc (step cfg) (enumerate cfg Opened file (init previous)) m →
  get_inv cfg (loaded file) m.
Proof.
  intros Hrun.
  assert (get_inv cfg (loaded file) (enumerate cfg Opened file (init previous)))
    as H0 by (by apply get_inv_enumerate).
  induction Hrun as [|m1 m2 m3 [[elapsed|tid answer disk] Hs] _ IH]; [done|..];
    apply IH; simpl in Hs;
    eauto using get_inv_main_step, get_inv_worker_step.
Qed.

(** When [enumerate] has returned with at least one thread allowed, nothing
    is left to do. *)
Lemma returned_drained file previous m :
  1 ≤ max_threads cfg →
  rtc (step cfg) (enumerate cfg Opened file (init previous)) m →
  main m = Returned →
  subdomain_queue m = []
  ∧ (∀ j pc, threads m !! j = Some pc → pc = Finished)
  ∧ lock m = None.
Proof.
  intros HW Hrun Hret.
  destruct (pool_inv_run cfg file previous m Hrun)
    as [_ Hlock [_ Hcount _] Hdrain Hmain _ _].
  unfold main_inv in Hmain. rewrite Hret in Hmain.
  destruct Hmain as [Hlen Hfin].
  assert (sum_list_with uncounted (threads m) = 0%nat) as Hz.
  { apply sum_list_with_zero. intros i pc Hi. by rewrite (Hfin _ _ Hi). }
  split_and!; [|done|by apply all_finished_unlocked].
  destruct (decide (Py.len (loaded file) = 0)) as [H0|Hpos].
  - rewrite Hz, H0 in Hcount. unfold Py.len in Hcount.
    pose proof (count_nonneg _ _ (inv_count _ _ _ _
                  (pool_inv_run cfg file previous m Hrun))).
    destruct (subdomain_queue m); [done|]. simpl in Hcount. lia.
  - destruct (lookup_lt_is_Some_2 (threads m) 0%nat) as [pc Hpc].
    { unfold Py.len in *. lia. }
    apply (Hdrain 0%nat). by rewrite Hpc, (Hfin _ _ Hpc).
Qed.

Lemma times_le_submseteq (l k : list Request) :
  (∀ x, times x l ≤ times x k)%nat → l ⊆+ k.
Proof.
  revert k. induction l as [|a l IH]; intros k Hle.
  - apply submseteq_nil_l.
  - assert (a ∈ k) as Ha.
    { specialize (Hle a). unfold times in Hle.
      rewrite count_occ_cons_eq in Hle by done.
      apply list_elem_of_In, (count_occ_In Request_eq_dec). lia. }
    apply elem_of_Permutation in Ha as [k' Hk]. rewrite Hk.
    apply submseteq_skip, IH. intros x. specialize (Hle x).
    assert (times x k = times x (a :: k')) as Hx.
    { unfold times. by apply Permutation_count_occ. }
    rewrite Hx in Hle. unfold times in *.
    destruct (decide (a = x)) as [->|Hne].
    + rewrite !count_occ_cons_eq in Hle by done. lia.
    + rewrite !count_occ_cons_neq in Hle by done. lia.
Qed.

Lemma verified_unverified rs :
  length rs = (length (verified rs) + length (unverified rs))%nat.
Proof.
  induction rs as [|[u t a []] rs IH]; [done|..]; unfold verified, unverified in *.
  - rewrite filter_cons_True, filter_cons_False by done. simpl. lia.
  - rewrite filter_cons_False, filter_cons_True by done. simpl. lia.
Qed.

(** X5: along every run of a new object, under every schedule, the HTTP
    requests issued (those that verify the certificate) are, each as often
    as it is there, among the HTTP requests of the candidates, and the HTTPS
    requests among the HTTPS requests of the candidates: no candidate is
    requested more often than it is listed.  When [enumerate] has returned
    with a thread count of at least one, the HTTP requests issued are
    exactly those of the candidates, one for each line of the list, so that
    between N and 2N requests were made for N candidates. *)
Theorem each_candidate_requested_once file previous m :
  1 ≤ max_threads cfg →
  rtc (step cfg) (enumerate cfg Opened file (init previous)) m →
  verified (requests (self m)) ⊆+ http_request cfg <$> loaded file
  ∧ unverified (requests (self m)) ⊆+ https_request cfg <$> loaded file
  ∧ (main m = Returned →
       verified (requests (self m)) ≡ₚ http_request cfg <$> loaded file
       ∧ (length (loaded file) ≤ length (requests (self m))
          ≤ 2 * length (loaded file))%nat).
Proof.
  intros HW Hrun. destruct (get_inv_run file previous m Hrun) as [Hh Hs].
  assert (unverified (requests (self m)) ⊆+ https_request cfg <$> loaded file)
    as Hsub.
  { apply times_le_submseteq. intros x. specialize (Hs x). lia. }
  split_and!; [|done|].
  - apply times_le_submseteq. intros x. specialize (Hh x). lia.
  - intros Hret.
    destruct (returned_drained file previous m HW Hrun Hret)
      as (Hq & Hfin & _).
    assert (verified (requests (self m)) ≡ₚ http_request cfg <$> loaded file)
      as Hperm.
    { apply (Permutation_count_occ Request_eq_dec). intros x.
      specialize (Hh x). rewrite Hq in Hh.
      rewrite sum_list_with_zero in Hh.
      - simpl in Hh. rewrite times_nil in Hh. unfold times in Hh. lia.
      - intros i pc Hi. by rewrite (Hfin _ _ Hi). }
    split; [done|].
    rewrite (verified_unverified (requests (self m))).
    apply Permutation_length in Hperm. apply submseteq_length in Hsub.
    rewrite length_fmap in *. lia.
Qed.

End Requests.

(* ================================================================== *)
(** * A thread count that is not positive *)

Section NoThreads.

Context (cfg : Config).

Lemma idle_inv_step file m m' :
  idle_inv file m → step cfg m m' → idle_inv file m'.
Proof.
  intros (Ht & Hr & Hc & Hd & Ho & Hq & Hm & Hret) [[elapsed|tid answer disk] H];
    simpl in H.
  - main_cases H; unfold idle_inv; simpl.
    all: rewrite ?Ht in *; simpl in *; simplify_eq.
    all: try (destruct Hm as [(i' & stop' & ? & ? & ?)|[?|?]]; simplify_eq; lia).
    + split_and!; try done. right; by left.
    + destruct (report_same cfg elapsed (self m)) as (Hd' & Ht' & Hc' & Ho' & Hr').
      rewrite Hd', Hc', Ho', Hr'. split_and!; try done; [right; by right|].
      intros _ _. rewrite Ht'. unfold report. simpl. rewrite Hd. simpl.
      change ("[STATS] Active subdomains found: " +:+ Py.str_int (Py.len []))
        with "[STATS] Active subdomains found: 0".
      rewrite !elem_of_app, !list_elem_of_singleton. split; auto 10.
  - unfold worker_step in H. by rewrite Ht in H.
Qed.

Lemma idle_inv_enumerate file previous :
  max_threads cfg ≤ 0 →
  idle_inv file (enumerate cfg Opened file (init previous)).
Proof.
  intros HW. unfold enumerate.
  destruct (load_subdomains_returns cfg file
              (set_output ""
                 (print ("[INFO] Using " +:+ Py.str_int (max_threads cfg)
                          +:+ " threads with " +:+ Py.str_int (timeout cfg)
                          +:+ "s timeout")
                    (print ("[INFO] Starting subdomain enumeration for "
                             +:+ domain cfg) (init previous)))))
    as (st' & -> & Hd & _ & Hc & Ho & Hr).
  assert (discovered_subdomains st' = [] ∧ checked_count st' = 0
          ∧ output st' = "" ∧ requests st' = []) as (Hd' & Hc' & Ho' & Hr').
  { rewrite Hd, Hc, Ho, Hr. by destruct file. }
  unfold idle_inv.
  destruct (loaded file) as [|s l] eqn:Hl; simpl; split_and!; try done.
  - right; by right.
  - left. exists 0, (Z.min (max_threads cfg) (Py.len (s :: l))). split; [done|lia].
Qed.

(** X6: with a thread count of zero or less, [enumerate] starts no worker:
    under every schedule no request is ever issued, nothing is counted,
    recorded or written and the queue keeps every candidate; the only steps
    are those of the main thread, and when the list is not empty it still
    prints the report, whose lines give the number of candidates as the
    total checked and 0 as the number found. *)
Theorem no_threads_no_requests file previous m :
  max_threads cfg ≤ 0 →
  rtc (step cfg) (enumerate cfg Opened file (init previous)) m →
  threads m = [] ∧ requests (self m) = []
  ∧ checked_count (self m) = 0
  ∧ discovered_subdomains (self m) = [] ∧ output (self m) = ""
  ∧ subdomain_queue m = loaded file
  ∧ (main m ≠ Returned → ∃ m', step cfg m m')
  ∧ (main m = Returned → loaded file ≠ [] →
       "[STATS] Total subdomains checked: "
         +:+ Py.str_int (Py.len (loaded file)) ∈ stdout (self m)
       ∧ "[STATS] Active subdomains found: 0" ∈ stdout (self m)).
Proof.
  intros HW Hrun.
  assert (idle_inv file m) as (Ht & Hr & Hc & Hd & Ho & Hq & Hm & Hret).
  { assert (idle_inv file (enumerate cfg Opened file (init previous))) as H0
      by (by apply idle_inv_enumerate).
    induction Hrun as [|m1 m2 m3 Hs _ IH]; [done|].
    apply IH. by eapply idle_inv_step. }
  split_and!; try done.
  - intros Hne. destruct Hm as [(i & stop & Hm & ? & ?)|[Hm|Hm]]; [..|done].
    + exists (set_main (Joining 0) m), (RunMain ""). simpl.
      unfold main_step. rewrite Hm.
      by destruct (Z.ltb_spec i stop); [lia|].
    + exists (set_main Returned (on_self (report cfg "") m)), (RunMain "").
      simpl. unfold main_step. by rewrite Hm, Ht.
  - intros Hm' Hne. destruct (Hret Hm' Hne) as [H1 H2]. split; [|done].
    destruct (pool_inv_run cfg file previous m Hrun) as [Htotal _ _ _ _ _ _].
    rewrite Htotal in H1. destruct file; try done.
Qed.

End NoThreads.

(* ================================================================== *)
(** * The output file, read back *)

Section OutputFile.

Context (cfg : Config).

Lemma newlines_among s :
  Text.among s "010" = false ↔ newlines s = 0%nat.
Proof.
  induction s as [|c s IH]; [done|].
  rewrite among_cons_false, IH. simpl newlines.
  destruct (Ascii.eqb c "010"); simpl; split; try done; try lia.
Qed.

Lemma occurrences_elem_of s (l : list string) :
  (1 ≤ occurrences s l)%nat ↔ s ∈ l.
Proof.
  unfold occurrences. split.
  - intros H. destruct (filter (λ x, x = s) l) as [|x k] eqn:E;
      [simpl in H; lia|].
    assert (x ∈ filter (λ x, x = s) l) as Hx by (rewrite E; left).
    by apply list_elem_of_filter in Hx as [-> ?].
  - intros H. assert (s ∈ filter (λ x, x = s) l) as Hs
      by (by apply list_elem_of_filter).
    destruct (filter (λ x, x = s) l); [by apply elem_of_nil in Hs|simpl; lia].
Qed.

Lemma lines_of_file_of entries :
  Forall (λ info, newlines info = 0%nat) entries →
  Text.lines_of (file_of entries)
    = (λ info, info +:+ String "010" EmptyString) <$> entries
  ∧ newlines (file_of entries) = length entries.
Proof.
  induction 1 as [|info entries Hi _ [IH1 IH2]]; [done|].
  change (file_of (info :: entries))
    with (info +:+ String "010" (file_of entries)).
  split.
  - rewrite lines_of_line by (by apply newlines_among). by rewrite IH1.
  - rewrite newlines_append, Hi. simpl. by rewrite IH2.
Qed.

(** X9: for every content of the candidate file and a domain without line
    feed, along every schedule in which no opening of the output file
    raises, whenever the lock is free (so also when [enumerate] has
    returned) the output file holds exactly one line per entry of
    [discovered_subdomains], in the order of the list: split at its line
    feeds it gives back the entries. *)
Theorem output_file_lists_the_entries content previous schedule m :
  newlines (domain cfg) = 0%nat →
  run cfg schedule
    (enumerate cfg Opened (FileLines (Text.readlines content))
       (init previous)) = Some m →
  Forall accepts schedule →
  lock m = None →
  Text.lines_of (output (self m))
    = (λ info, info +:+ String "010" EmptyString)
        <$> discovered_subdomains (self m)
  ∧ newlines (output (self m)) = length (discovered_subdomains (self m)).
Proof.
  intros Hdom Hsched Hacc Hfree.
  pose proof (run_rtc cfg _ _ _ Hsched) as Hrun.
  destruct (pool_inv_run cfg _ previous m Hrun)
    as [_ _ _ _ _ [_ (recorded & Hrec & Hok & Hocc)] _].
  assert (log_inv m) as Hlog.
  { eapply (log_inv_schedule cfg); [|apply log_inv_enumerate|done..];
      [by apply pool_inv_enumerate|done]. }
  unfold log_inv, pending_write in Hlog.
  rewrite Hfree, append_nil_r in Hlog. rewrite Hlog.
  apply lines_of_file_of. rewrite Hrec. apply Forall_fmap, Forall_forall.
  intros [[s url] c] Hr. simpl.
  assert (newlines s = 0%nat) as Hs.
  { specialize (Hocc s).
    assert (s ∈ recorded.*1.*1) as Hin.
    { apply list_elem_of_fmap. exists (s, url). split; [done|].
      apply list_elem_of_fmap. by exists (s, url, c). }
    apply occurrences_elem_of in Hin.
    assert (s ∈ loaded (FileLines (Text.readlines content))) as Hc
      by (apply occurrences_elem_of; lia).
    apply newlines_among.
    pose proof (stripped_lines_no_line_feed (Text.universal_newlines content))
      as Hall.
    rewrite Forall_forall in Hall. by apply Hall. }
  assert (newlines (fqdn cfg s) = 0%nat) as Hname.
  { unfold fqdn. by rewrite !newlines_append, Hs, Hdom. }
  rewrite Forall_forall in Hok. destruct (Hok _ Hr) as [[Hu|Hu] _];
    simpl in Hu; subst url; unfold entry; simpl.
  - pose proof (newlines_discovery_info (fqdn cfg s) (http_url cfg s) c Hname)
      as H. rewrite newlines_append in H. simpl in H.
    unfold http_url in *. rewrite newlines_append in H. simpl in H.
    specialize (H Hname). lia.
  - pose proof (newlines_discovery_info (fqdn cfg s) (https_url cfg s) c Hname)
      as H. rewrite newlines_append in H. simpl in H.
    unfold https_url in *. rewrite newlines_append in H. simpl in H.
    specialize (H Hname). lia.
Qed.

End OutputFile.

(* ================================================================== *)
(** * The progress lines *)

Section Progress.

Context (cfg : Config).

Lemma sum_list_with_at_most_one {A} (f : A → nat) (l : list A) :
  (∀ x, f x ≤ 1)%nat →
  (∀ i j x y, l !! i = Some x → l !! j = Some y →
              f x ≠ 0%nat → f y ≠ 0%nat → i = j) →
  (sum_list_with f l ≤ 1)%nat.
Proof.
  intros Hle. induction l as [|a l IH]; intros Huniq; simpl; [lia|].
  destruct (decide (f a = 0%nat)) as [Ha|Ha].
  - rewrite Ha. apply IH. intros i j x y Hi Hj Hx Hy.
    by specialize (Huniq (S i) (S j) x y Hi Hj Hx Hy) as [= ->].
  - rewrite (sum_list_with_zero f l); [specialize (Hle a); lia|].
    intros i x Hi. destruct (decide (f x = 0%nat)) as [|Hx]; [done|].
    by specialize (Huniq 0%nat (S i) a x eq_refl Hi Ha Hx).
Qed.

Lemma at_progress_at_most_one m :
  lock_inv m → (sum_list_with at_progress (threads m) ≤ 1)%nat.
Proof.
  intros [Hex _]. apply sum_list_with_at_most_one.
  - intros []; simpl; lia.
  - intros i j x y Hi Hj Hx Hy.
    assert (lock m = Some i) as Hli by (apply (Hex _ _ Hi); by destruct x).
    assert (lock m = Some j) as Hlj by (apply (Hex _ _ Hj); by destruct y).
    congruence.
Qed.

Lemma at_progress_after_get answer s url next :
  at_progress next = 0%nat →
  at_progress (after_get cfg answer s url next) = 0%nat.
Proof. intros ?. unfold after_get. by repeat case_match. Qed.

Lemma progress_lines_snoc out line :
  progress_lines (out ++ [line])
  = progress_lines out ++ (if is_progress line then [line] else []).
Proof.
  unfold progress_lines. rewrite filter_app. f_equal.
  destruct (is_progress line) eqn:E.
  - by rewrite filter_cons_True.
  - rewrite filter_cons_False; [done|]. by rewrite E.
Qed.

Lemma progress_lines_other out line :
  is_progress line = false → progress_lines (out ++ [line]) = progress_lines out.
Proof. intros H. by rewrite progress_lines_snoc, H, app_nil_r. Qed.

Lemma is_progress_progress_line c total :
  is_progress (progress_line c total) = true.
Proof. done. Qed.

Lemma progress_lines_report_progress c st :
  progress_lines (stdout (report_progress c st))
  = progress_lines (stdout st)
      ++ (if (c mod 10 =? 0) || (c =? 1)
          then [progress_line c (total_subdomains st)] else []).
Proof.
  unfold report_progress. case_match; simpl; [|by rewrite app_nil_r].
  by rewrite progress_lines_snoc, is_progress_progress_line.
Qed.

Lemma progress_lines_summary l st :
  progress_lines
    (stdout (foldl (λ st subdomain, print ("  â†’ " +:+ subdomain) st) st l))
  = progress_lines (stdout st).
Proof.
  revert st. induction l as [|x l IH]; intros st; [done|].
  simpl. rewrite IH. simpl. by rewrite progress_lines_other.
Qed.

Lemma progress_lines_report elapsed st :
  progress_lines (stdout (report cfg elapsed st)) = progress_lines (stdout st).
Proof.
  unfold report. simpl.
  destruct (discovered_subdomains st);
    rewrite ?progress_lines_summary; simpl;
    by rewrite !progress_lines_other.
Qed.

Lemma progress_inv_worker_step total tid answer disk m m' :
  total_subdomains (self m) = total → lock_inv m → count_inv total m →
  progress_inv total m →
  worker_step cfg tid answer disk m = Some m' → progress_inv total m'.
Proof.
  intros Htot Hlock [Hstore _ _] (k & Hk & Hlines) H.
  pose proof (at_progress_at_most_one m Hlock) as Hone.
  worker_cases H; unfold progress_inv; simpl.
  all: match goal with
       | |- context [sum_list_with ?f (<[_:=?pc']> _)] =>
           pose proof (sum_list_with_insert f _ _ _ pc' Hpc) as Hsum
       end.
  all: simpl in Hsum; rewrite ?at_progress_after_get in Hsum by done.
  all: rewrite ?progress_lines_other by done.
  all: try (exists k; split; [lia|done]).
  - exists k. rewrite (Hstore _ _ _ Hpc). split; [lia|done].
  - exists (S k). rewrite checked_count_report_progress.
    rewrite progress_lines_report_progress, Hlines.
    assert (checked_count (self m) = Z.of_nat (S k)) as -> by lia.
    split; [lia|]. done.
Qed.

Lemma progress_inv_main_step total elapsed m m' :
  progress_inv total m →
  main_step cfg elapsed m = Some m' → progress_inv total m'.
Proof.
  intros (k & Hk & Hlines) H. main_cases H; unfold progress_inv; simpl.
  all: rewrite ?sum_list_with_snoc; simpl.
  all: rewrite ?progress_lines_report, ?(report_only_prints cfg).
  all: exists k; split; [lia|done].
Qed.

Lemma progress_inv_enumerate file previous :
  progress_inv (Py.len (loaded file)) (enumerate cfg Opened file (init previous)).
Proof.
  exists 0%nat. unfold enumerate.
  destruct file as [lines| |e]; simpl; [destruct (stripped_lines lines)|..];
    simpl; done.
Qed.

Lemma total_is_len_loaded file :
  match file with FileLines _ => Py.len (loaded file) | _ => 0 end
  = Py.len (loaded file).
Proof. by destruct file. Qed.

Lemma progress_inv_run file previous m :
  rtc (step cfg) (enumerate cfg Opened file (init previous)) m →
  progress_inv (Py.len (loaded file)) m.
Proof.
  intros Hrun.
  revert m Hrun. apply rtc_ind_r; [apply progress_inv_enumerate|].
  intros m1 m2 Hr1 Hs IH.
  destruct (pool_inv_run cfg file previous m1 Hr1)
    as [Htot Hlock Hcount _ _ _ _].
  rewrite total_is_len_loaded in Htot.
  destruct Hs as [[elapsed|tid answer disk] Hs]; simpl in Hs.
  - by eapply progress_inv_main_step.
  - by eapply progress_inv_worker_step.
Qed.

(** X10: along every run of a new object, under every schedule, the
    progress lines printed so far are those of the counts 1, 10, 20, ... up
    to some [k], each once and in increasing order, with [N] the number of
    candidates as the total; [k] is [checked_count], or one less while the
    thread that has just stored the count has not yet reported it, in which
    case the lock is held.  When [enumerate] has returned with a thread
    count of at least one, the lines are those of all the counts up to
    [N]. *)
Theorem progress_lines_in_order file previous m :
  rtc (step cfg) (enumerate cfg Opened file (init previous)) m →
  (∃ k : nat,
     progress_lines (stdout (self m))
       = progress_upto (Py.len (loaded file)) k
     ∧ (checked_count (self m) = Z.of_nat k
        ∨ checked_count (self m) = Z.of_nat k + 1 ∧ lock m ≠ None))
  ∧ (1 ≤ max_threads cfg → main m = Returned →
       progress_lines (stdout (self m))
         = progress_upto (Py.len (loaded file)) (length (loaded file))).
Proof.
  intros Hrun.
  destruct (progress_inv_run file previous m Hrun) as (k & Hk & Hlines).
  destruct (pool_inv_run cfg file previous m Hrun)
    as [_ Hlock [_ Hcount _] Hdrain Hmain _ _].
  pose proof (at_progress_at_most_one m Hlock) as Hone.
  split.
  - exists k. split; [done|].
    destruct (decide (sum_list_with at_progress (threads m) = 0%nat))
      as [Hz|Hnz]; [left; lia|right]. split; [lia|].
    intros Hfree. apply Hnz, sum_list_with_zero. intros i pc Hi.
    destruct pc; try done.
    pose proof (lock_excl _ Hlock _ _ Hi eq_refl). congruence.
  - intros HW Hret.
    destruct (returned_drained cfg file previous m HW Hrun Hret)
      as (Hq & Hfin & _).
    rewrite Hq in Hcount.
    rewrite (sum_list_with_zero uncounted) in Hcount
      by (intros i pc Hi; by rewrite (Hfin _ _ Hi)).
    rewrite (sum_list_with_zero at_progress) in Hk
      by (intros i pc Hi; by rewrite (Hfin _ _ Hi)).
    unfold Py.len in Hcount. simpl in Hcount.
    assert (k = length (loaded file)) as <- by lia. done.
Qed.

End Progress.

(* ================================================================== *)
(** * [main]: the domain and the files *)

Section Main.

Lemma count_append c a b :
  Text.count c (a +:+ b) = (Text.count c a + Text.count c b)%nat.
Proof.
  induction a as [|d a IH]; [done|].
  change (Text.count c (String d (a +:+ b))
          = (Text.count c (String d a) + Text.count c b)%nat).
  simpl. rewrite IH. lia.
Qed.

Lemma count_among c s : Text.among s c = false ↔ Text.count c s = 0%nat.
Proof.
  induction s as [|d s IH]; [done|].
  rewrite among_cons_false, IH. simpl Text.count.
  destruct (Ascii.eqb d c); simpl; split; try done; try lia.
Qed.

Lemma prefix_count c old s :
  String.prefix old s = true → (Text.count c old ≤ Text.count c s)%nat.
Proof.
  revert s. induction old as [|a old IH]; intros [|b s]; simpl; try done;
    try lia.
  destruct (ascii_dec a b) as [->|]; [|done]. intros H%IH. lia.
Qed.

Lemma remove_from_cons old d s :
  Text.remove_from old 0 (String d s)
  = if String.prefix old (String d s)
    then Text.remove_from old (String.length old - 1) s
    else String d (Text.remove_from old 0 s).
Proof. done. Qed.

Lemma prefix_append old t : String.prefix old (old +:+ t) = true.
Proof.
  induction old as [|a old IH]; [by destruct t|].
  change (String.prefix (String a old) (String a (old +:+ t)) = true).
  simpl. by destruct (ascii_dec a a).
Qed.

(** An occurrence at the front is dropped. *)
Lemma remove_all_front a old t :
  Text.remove_all (String a old) (String a old +:+ t)
  = Text.remove_all (String a old) t.
Proof.
  unfold Text.remove_all.
  change (String a old +:+ t) with (String a (old +:+ t)).
  rewrite remove_from_cons.
  change (String a (old +:+ t)) with (String a old +:+ t).
  rewrite prefix_append.
  change (String.length (String a old) - 1)%nat with (String.length old - 0)%nat.
  rewrite Nat.sub_0_r. generalize (String a old) as whole. intros whole.
  induction old as [|b old IH]; [done|].
  change (Text.remove_from whole (S (String.length old)) (String b (old +:+ t))
          = Text.remove_from whole 0 t).
  simpl. apply IH.
Qed.

Lemma remove_from_no_occurrence c old s :
  (Text.count c s < Text.count c old)%nat → Text.remove_from old 0 s = s.
Proof.
  induction s as [|d s IH]; [done|]. intros Hlt.
  rewrite remove_from_cons.
  destruct (String.prefix old (String d s)) eqn:E.
  - apply (prefix_count c) in E. lia.
  - rewrite IH; [done|]. simpl in Hlt. lia.
Qed.

Lemma remove_all_no_occurrence c old s :
  (Text.count c s < Text.count c old)%nat → Text.remove_all old s = s.
Proof.
  intros H. destruct old; [done|]. by apply (remove_from_no_occurrence c).
Qed.

Lemma lstrip_chars_clean s :
  Text.among s "/" = false → Text.lstrip_chars "/" s = s.
Proof.
  destruct s as [|c s]; [done|]. intros [Hc _]%among_cons_false.
  simpl. by rewrite Hc.
Qed.

Lemma rstrip_chars_clean s :
  Text.among s "/" = false → Text.rstrip_chars "/" s = s.
Proof.
  induction s as [|c s IH]; [done|]. intros [Hc Hs]%among_cons_false.
  simpl. rewrite (IH Hs), Hc. by destruct s.
Qed.

Lemma rstrip_chars_append chars s c :
  Text.among chars c = true →
  Text.rstrip_chars chars (s +:+ String c EmptyString)
  = Text.rstrip_chars chars s.
Proof.
  intros Hc. induction s as [|d s IH].
  - simpl. by rewrite Hc.
  - change (Text.rstrip_chars chars (String d (s +:+ String c ""))
            = Text.rstrip_chars chars (String d s)).
    simpl. by rewrite IH.
Qed.

Lemma strip_chars_clean s :
  Text.among s "/" = false →
  Text.strip_chars "/" s = s
  ∧ Text.strip_chars "/" (s +:+ "/") = s.
Proof.
  intros Hs. unfold Text.strip_chars. split.
  - by rewrite lstrip_chars_clean, rstrip_chars_clean.
  - destruct s as [|c s]; [done|].
    pose proof Hs as [Hc _]%among_cons_false.
    change (Text.rstrip_chars "/"
              (Text.lstrip_chars "/" (String c (s +:+ "/"))) = String c s).
    simpl Text.lstrip_chars. rewrite Hc. simpl orb. cbv iota.
    change (String c (s +:+ "/")) with (String c s +:+ "/").
    rewrite (rstrip_chars_append "/" (String c s) "/") by done.
    by apply rstrip_chars_clean.
Qed.

(** X12: for a host name without slash, [main] turns the host itself, the
    host after [http://] or [https://], and each of these followed by one
    slash, into the host. *)
Theorem normalise_strips_scheme host :
  Text.among host "/" = false →
  normalise host = host
  ∧ normalise ("http://" +:+ host) = host
  ∧ normalise ("https://" +:+ host) = host
  ∧ normalise (host +:+ "/") = host
  ∧ normalise ("http://" +:+ host +:+ "/") = host
  ∧ normalise ("https://" +:+ host +:+ "/") = host.
Proof.
  intros Hs. pose proof (proj1 (count_among "/" host) Hs) as Hc.
  assert (Text.count "/" (host +:+ "/") = 1%nat) as Hc1
    by (by rewrite count_append, Hc).
  destruct (strip_chars_clean host Hs) as [H1 H2].
  assert (∀ t, (Text.count "/" t < 2)%nat →
               Text.remove_all "https://" (Text.remove_all "http://" t) = t)
    as Hplain.
  { intros t Ht.
    rewrite (remove_all_no_occurrence "/" "http://" t) by exact Ht.
    apply (remove_all_no_occurrence "/"). exact Ht. }
  assert (∀ t, (Text.count "/" t < 2)%nat →
               Text.remove_all "https://"
                 (Text.remove_all "http://" ("http://" +:+ t)) = t)
    as Hhttp.
  { intros t Ht.
    rewrite (remove_all_front "h" "ttp://" t).
    rewrite (remove_all_no_occurrence "/" "http://" t) by exact Ht.
    apply (remove_all_no_occurrence "/"). exact Ht. }
  assert (∀ t, (Text.count "/" t < 2)%nat →
               Text.remove_all "https://"
                 (Text.remove_all "http://" ("https://" +:+ t)) = t)
    as Hhttps.
  { intros t Ht.
    change (Text.remove_all "http://" ("https://" +:+ t))
      with ("https://" +:+ Text.remove_from "http://" 0 t).
    rewrite (remove_from_no_occurrence "/") by exact Ht.
    rewrite (remove_all_front "h" "ttps://" t).
    apply (remove_all_no_occurrence "/"). exact Ht. }
  unfold normalise. split_and!.
  - by rewrite (Hplain host) by lia.
  - by rewrite (Hhttp host) by lia.
  - by rewrite (Hhttps host) by lia.
  - by rewrite (Hplain (host +:+ "/")) by lia.
  - by rewrite (Hhttp (host +:+ "/")) by lia.
  - by rewrite (Hhttps (host +:+ "/")) by lia.
Qed.

Lemma lstrip_chars_head chars s c r :
  Text.lstrip_chars chars s = String c r → Text.among chars c = false.
Proof.
  induction s as [|d s IH]; [done|]. simpl.
  destruct (Text.among chars d) eqn:E; [done|]. by intros [= <- _].
Qed.

Lemma rstrip_chars_head chars c s c' r :
  Text.rstrip_chars chars (String c s) = String c' r → c' = c.
Proof.
  simpl. destruct (Text.rstrip_chars chars s); [|by intros [= -> _]].
  destruct (Text.among chars c); [done|by intros [= -> _]].
Qed.

Lemma rstrip_chars_last chars s front c :
  Text.rstrip_chars chars s = front +:+ String c EmptyString →
  Text.among chars c = false.
Proof.
  revert front. induction s as [|d s IH]; intros front.
  - by destruct front.
  - simpl. destruct (Text.rstrip_chars chars s) as [|x r] eqn:E.
    + destruct (Text.among chars d) eqn:Hd; [by destruct front|].
      destruct front as [|e [|? ?]]; [by intros [= <-]|done|done].
    + destruct front as [|e f]; [done|].
      change (String e f +:+ String c "") with (String e (f +:+ String c "")).
      intros [= _ H]. by apply (IH f).
Qed.

(** X13: whatever the argument, the domain [main] passes to the enumerator
    neither begins nor ends with a slash. *)
Theorem normalise_no_outer_slash domain :
  (∀ rest, normalise domain ≠ String "/" rest)
  ∧ (∀ front, normalise domain ≠ front +:+ "/").
Proof.
  unfold normalise, Text.strip_chars.
  set (t := Text.remove_all "https://" (Text.remove_all "http://" domain)).
  split.
  - intros rest H.
    destruct (Text.lstrip_chars "/" t) as [|c r] eqn:E; [done|].
    pose proof (rstrip_chars_head _ _ _ _ _ H) as <-.
    by apply lstrip_chars_head in E.
  - intros front H. by apply rstrip_chars_last in H.
Qed.

(** X11: when the candidate file and the output file are the same path
    and the output file can be opened, [enumerate] has emptied the file
    before it reads the candidates: it loads no candidate, reports 0 loaded,
    starts no thread, issues no request and returns, with nothing left to
    run. *)
Theorem same_file_loses_the_candidates cfg fs :
  subdomain_file cfg = output_file cfg →
  read_file (<[output_file cfg := Readable ""]> fs) (subdomain_file cfg)
  = FileLines []
  ∧ main (scan cfg Opened fs) = Returned
  ∧ threads (scan cfg Opened fs) = []
  ∧ subdomain_queue (scan cfg Opened fs) = []
  ∧ requests (self (scan cfg Opened fs)) = []
  ∧ output (self (scan cfg Opened fs)) = ""
  ∧ total_subdomains (self (scan cfg Opened fs)) = 0
  ∧ last (stdout (self (scan cfg Opened fs)))
    = Some ("[INFO] Loaded 0 subdomains from " +:+ subdomain_file cfg)
  ∧ ∀ m', ¬ step cfg (scan cfg Opened fs) m'.
Proof.
  intros Hsame.
  assert (read_file (<[output_file cfg := Readable ""]> fs)
            (subdomain_file cfg) = FileLines []) as Hread.
  { unfold read_file. by rewrite Hsame, lookup_insert_eq. }
  unfold scan, truncated. rewrite Hread. split_and!; try done.
  by apply no_step_when_returned.
Qed.


End Main.

(* ================================================================== *)
(** * The report and the announcements *)

Section PrintedLines.

Context (cfg : Config).

Lemma stdout_summary (f : string → string) l st :
  stdout (foldl (λ st subdomain, print (f subdomain) st) st l)
  = stdout st ++ (f <$> l).
Proof.
  revert st. induction l as [|x l IH]; intros st; simpl.
  - by rewrite app_nil_r.
  - rewrite IH. simpl. by rewrite <- app_assoc.
Qed.

Lemma stdout_report elapsed st :
  stdout (report cfg elapsed st)
  = stdout st
    ++ report_lines cfg elapsed (total_subdomains st)
         (discovered_subdomains st).
Proof.
  unfold report, report_lines. simpl.
  destruct (discovered_subdomains st) as [|x l] eqn:E.
  - simpl. by rewrite <- !app_assoc.
  - rewrite (stdout_summary (λ info, "  â†’ " +:+ info)). simpl.
    by rewrite <- !app_assoc.
Qed.

Lemma report_inv_run file previous m :
  rtc (step cfg) (enumerate cfg Opened file (init previous)) m →
  report_inv cfg (loaded file) m.
Proof.
  intros Hrun. revert m Hrun. apply rtc_ind_r.
  - intros Hret Hne. unfold enumerate in Hret.
    destruct file as [lines| |e]; simpl in *; try done.
    by destruct (stripped_lines lines) eqn:E.
  - intros m1 m2 Hr1 Hs _ Hret Hne.
    destruct (pool_inv_run cfg file previous m1 Hr1)
      as [Htot _ _ _ Hmain _ _].
    rewrite total_is_len_loaded in Htot.
    destruct Hs as [[elapsed|tid answer disk] Hs]; simpl in Hs.
    + main_cases Hs; simpl in Hret; try done.
      exists elapsed, (stdout (self m1)). simpl.
      rewrite stdout_report, Htot.
      by rewrite (proj1 (report_same cfg elapsed (self m1))).
    + unfold main_inv in Hmain.
      assert (main m2 = main m1) as Hm1.
      { clear Hret. worker_cases Hs; done. }
      rewrite Hret in Hm1. symmetry in Hm1.
      rewrite Hm1 in Hmain. destruct Hmain as [_ Hfin].
      unfold worker_step in Hs.
      destruct (threads m1 !! tid) as [pc|] eqn:Hpc; [|done].
      by rewrite (Hfin _ _ Hpc) in Hs.
Qed.

(** X14: when [enumerate] has returned and there were candidates, the
    report is the last thing printed, and it agrees with the object: the
    total it gives is the number of candidates loaded, the number found is
    the length of [discovered_subdomains], and the summary, printed when
    the list is not empty, has one line per entry, in the order of the
    list. *)
Theorem report_agrees_with_the_list file previous m :
  rtc (step cfg) (enumerate cfg Opened file (init previous)) m →
  main m = Returned → loaded file ≠ [] →
  ∃ elapsed before,
    stdout (self m)
    = before
      ++ [ "
[COMPLETE] Subdomain enumeration finished!";
           "[STATS] Time taken: " +:+ elapsed +:+ " seconds";
           "[STATS] Total subdomains checked: "
             +:+ Py.str_int (Py.len (loaded file));
           "[STATS] Active subdomains found: "
             +:+ Py.str_int (Py.len (discovered_subdomains (self m)));
           "[INFO] Results saved to " +:+ output_file cfg ]
      ++ match discovered_subdomains (self m) with
         | [] => []
         | found =>
             "
[SUMMARY] Discovered subdomains:"
               :: ((λ info, "  â†’ " +:+ info) <$> found)
         end.
Proof.
  intros Hrun Hret Hne.
  destruct (report_inv_run file previous m Hrun Hret Hne)
    as (elapsed & before & H).
  exists elapsed, before. rewrite H. unfold report_lines.
  by destruct (discovered_subdomains (self m)).
Qed.

Lemma found_lines_snoc out line :
  found_lines (out ++ [line])
  = found_lines out ++ (if is_found line then [line] else []).
Proof.
  unfold found_lines. rewrite filter_app. f_equal.
  destruct (is_found line) eqn:E.
  - by rewrite filter_cons_True.
  - rewrite filter_cons_False; [done|]. by rewrite E.
Qed.

Lemma found_lines_other out line :
  is_found line = false → found_lines (out ++ [line]) = found_lines out.
Proof. intros H. by rewrite found_lines_snoc, H, app_nil_r. Qed.

Lemma found_lines_found out info :
  found_lines (out ++ ["[FOUND] " +:+ info])
  = found_lines out ++ ["[FOUND] " +:+ info].
Proof.
  rewrite found_lines_snoc.
  assert (is_found ("[FOUND] " +:+ info) = true) as ->; [|done].
  unfold is_found. by destruct info.
Qed.

Lemma found_lines_report_progress c st :
  found_lines (stdout (report_progress c st)) = found_lines (stdout st).
Proof.
  unfold report_progress. case_match; [|done]. simpl.
  by rewrite found_lines_other.
Qed.

Lemma found_lines_report elapsed st :
  found_lines (stdout (report cfg elapsed st)) = found_lines (stdout st).
Proof.
  rewrite stdout_report. unfold found_lines. rewrite filter_app.
  assert (∀ l, filter (λ line, is_found line = true)
                 ((λ info, "  â†’ " +:+ info) <$> l) = []) as Hsum.
  { induction l as [|x l IH]; [done|]. simpl.
    by rewrite filter_cons_False. }
  unfold report_lines. rewrite filter_app, !filter_cons_False by done.
  rewrite filter_nil.
  destruct (discovered_subdomains st) as [|x l].
  - by rewrite filter_nil, !app_nil_r.
  - rewrite filter_cons_False by done. by rewrite Hsum, !app_nil_r.
Qed.

Lemma kept_inv_worker_step strict tid answer disk m m' :
  lock_inv m → kept_inv strict m →
  worker_step cfg tid answer disk m = Some m' →
  kept_inv (strict ∧ accepts (RunWorker tid answer disk)) m'.
Proof.
  intros [Hex How] (kept & settled & Hd & Hsub & Ho & Hf & Hs) H.
  assert (tid < length (threads m))%nat as Hlt.
  { unfold worker_step in H. destruct (threads m !! tid) eqn:E; [|done].
    by eapply lookup_lt_Some. }
  unfold kept_inv.
  worker_cases H; unfold unsettled, pending_print in *; simpl.
  all: rewrite ?found_lines_report_progress, ?found_lines_found.
  all: try (destruct (report_progress_same (checked_count (self m)) (self m))
              as (-> & _ & _ & -> & _)).
  all: rewrite ?found_lines_other by done.
  all: try (pose proof (Hex _ _ Hpc eq_refl) as Hown; rewrite Hown in *;
            rewrite Hpc in Hd, Hf).
  all: rewrite ?list_lookup_insert_eq by done.
  all: rewrite ?app_nil_r in *.
  all: try (exists kept, settled; rewrite ?app_nil_r;
            split_and!; [done..|tauto]).
  all: try (exists kept, settled; split_and!; [..|tauto]; try done;
            (destruct (lock m) as [o|] eqn:Hlock; [|done];
             destruct (decide (o = tid)) as [->|Hne];
             [ rewrite list_lookup_insert_eq by done; rewrite Hpc in Hd, Hf;
               rewrite ?app_nil_r in Hd, Hf;
               unfold after_get; repeat case_match; simplify_eq;
               by rewrite ?app_nil_r
             | by rewrite list_lookup_insert_ne by done ])).
  - rewrite H0, app_nil_r in Hd, Hf. exists kept, settled.
    rewrite app_nil_r. split_and!; [done..|tauto].
  - rewrite H0, app_nil_r in Hd, Hf. exists kept, settled.
    rewrite app_nil_r. split_and!; [done..|tauto].
  - exists kept, settled. rewrite Hd. split_and!; [done..|tauto].
  - exists (kept ++ [discovery_info name url status_code]),
      (settled ++ [discovery_info name url status_code]).
    rewrite app_nil_r, fmap_app, file_of_snoc, <- Ho, <- Hf.
    split_and!; try done.
    + by apply sublist_app.
    + intros [Hstrict _]. by rewrite (Hs Hstrict).
  - exists kept, (settled ++ [discovery_info name url status_code]).
    rewrite app_nil_r. split_and!; try done.
    + by apply sublist_inserts_r.
    + tauto.
Qed.

Lemma kept_inv_main_step strict elapsed m m' :
  lock_inv m → kept_inv strict m → main_step cfg elapsed m = Some m' →
  kept_inv strict m'.
Proof.
  intros [Hex How] (kept & settled & Hd & Hsub & Ho & Hf & Hs) H.
  main_cases H; exists kept, settled; unfold unsettled, pending_print in *;
    simpl; try done.
  - destruct (lock m) as [o|] eqn:Hlock; [|done].
    destruct (How _ eq_refl) as (pc & Hpc & _).
    rewrite (lookup_app_l_Some _ _ _ _ Hpc). by rewrite Hpc in Hd, Hf.
  - rewrite found_lines_report.
    by destruct (report_same cfg elapsed (self m)) as (-> & _ & _ & -> & _).
Qed.

Lemma kept_inv_enumerate file previous :
  kept_inv True (enumerate cfg Opened file (init previous)).
Proof.
  exists [], []. unfold enumerate.
  destruct file as [lines| |e]; simpl; [destruct (stripped_lines lines)|..];
    done.
Qed.

Lemma kept_inv_weaken (P Q : Prop) m : (Q → P) → kept_inv P m → kept_inv Q m.
Proof.
  intros HQ (kept & settled & Hd & Hsub & Ho & Hf & Hs).
  exists kept, settled. split_and!; try done. intros HQ'. by apply Hs, HQ.
Qed.

Lemma kept_inv_schedule candidates total strict schedule m m' :
  pool_inv cfg candidates total m → kept_inv strict m →
  run cfg schedule m = Some m' →
  kept_inv (strict ∧ Forall accepts schedule) m'.
Proof.
  revert strict m. induction schedule as [|e l IH]; intros strict m Hinv Hk H;
    simplify_eq/=.
  { eapply kept_inv_weaken; [|done]. tauto. }
  destruct (exec cfg e m) as [m1|] eqn:He; simplify_eq/=.
  assert (kept_inv (strict ∧ accepts e) m1) as Hk1.
  { destruct e as [elapsed|tid answer disk]; simpl in He.
    - eapply kept_inv_weaken; [|eapply kept_inv_main_step; [apply Hinv|done..]].
      tauto.
    - eapply kept_inv_worker_step; [apply Hinv|done..]. }
  eapply kept_inv_weaken; [|apply (IH (strict ∧ accepts e) m1); [|done..]].
  - intros [Hs [He' Hl]%Forall_cons]. done.
  - eapply pool_inv_step; [done|by exists e].
Qed.

(** X15: along every schedule, whatever the file system does, the lines of
    the output file and the [FOUND] lines printed are those of the same
    entries of [discovered_subdomains], in the order of the list: the
    entries whose line the file system let in.  The [FOUND] lines are short
    of at most the one the lock holder is about to print, and of none when
    the lock is free or [enumerate] has returned.  When no opening of the
    output file raised and the lock is free, these entries are the whole
    list. *)
Theorem found_lines_follow_the_file file previous schedule m :
  run cfg schedule (enumerate cfg Opened file (init previous)) = Some m →
  ∃ kept pending,
    kept `sublist_of` discovered_subdomains (self m)
    ∧ output (self m) = file_of kept
    ∧ found_lines (stdout (self m)) ++ pending
      = (λ info, "[FOUND] " +:+ info) <$> kept
    ∧ (length pending ≤ 1)%nat
    ∧ (lock m = None → pending = [])
    ∧ (main m = Returned → pending = [])
    ∧ (Forall accepts schedule → lock m = None →
         kept = discovered_subdomains (self m)).
Proof.
  intros Hsched. pose proof (run_rtc cfg _ _ _ Hsched) as Hrun.
  destruct (pool_inv_run cfg file previous m Hrun)
    as [_ Hlock _ _ Hmain _ _].
  destruct (kept_inv_schedule _ _ True schedule _ m
              (pool_inv_enumerate cfg file (init previous) eq_refl eq_refl)
              (kept_inv_enumerate file previous) Hsched)
    as (kept & settled & Hd & Hsub & Ho & Hf & Hs).
  exists kept, (pending_print m). split_and!; try done.
  - rewrite Hd. by apply sublist_inserts_r.
  - unfold pending_print. repeat case_match; simpl; lia.
  - unfold pending_print. by intros ->.
  - intros Hret. unfold main_inv in Hmain. rewrite Hret in Hmain.
    assert (lock m = None) as Hfree
      by (apply all_finished_unlocked; [done|apply Hmain]).
    unfold pending_print. by rewrite Hfree.
  - intros Hacc Hfree. unfold unsettled in Hd.
    rewrite Hfree, app_nil_r in Hd. rewrite Hd. by apply Hs.
Qed.


End PrintedLines.

(* ================================================================== *)
(** * More of the scenario, checked *)

(** X2 on two labels. *)
Lemma written_labels_load_back_demo :
  Forall label_ok ["www"; "mail"]
  ∧ (load_subdomains demo_cfg
       (FileLines (Text.readlines (written ["www"; "mail"]))) (init "")).1
    = Return ["www"; "mail"].
Proof.
  assert (Forall label_ok ["www"; "mail"]) as Hok.
  { repeat constructor; done. }
  split; [exact Hok|].
  exact (proj1 (written_labels_load_back demo_cfg ["www"; "mail"] (init "")
                  Hok)).
Defined.

(** X3 for example.com on an empty directory. *)
Lemma sample_file_loads_back_demo :
  "example.com" ≠ EmptyString
  ∧ (create_sample_subdomain_file Opened ∅).2
    = ["[INFO] Created sample subdomain list with 56 entries"].
Proof.
  assert ("example.com" ≠ EmptyString) as Hd by done.
  split; [exact Hd|].
  exact (proj1 (proj2 (proj2 (sample_file_loads_back ∅ "example.com" Hd)))).
Defined.

(** X4 on the scenario. *)
Lemma requests_only_for_candidates_demo :
  Forall (λ r, ∃ s, s ∈ ["a"; "b"; "c"]
                    ∧ (req_url r = "http://" +:+ s +:+ ".example.com"
                         ∧ req_verify r = true
                       ∨ req_url r = "https://" +:+ s +:+ ".example.com"
                         ∧ req_verify r = false)
                    ∧ req_timeout r = 5
                    ∧ req_allow_redirects r = true)
    (requests (self demo_final)).
Proof.
  exact (requests_only_for_candidates demo_cfg demo_file demo_previous
           demo_final demo_reachable).
Defined.

(** X5 on the scenario: three HTTP requests, five requests in all. *)
Lemma each_candidate_requested_once_demo :
  1 ≤ max_threads demo_cfg
  ∧ verified (requests (self demo_final))
    ≡ₚ http_request demo_cfg <$> ["a"; "b"; "c"]
  ∧ (3 ≤ length (requests (self demo_final)) ≤ 6)%nat.
Proof.
  assert (1 ≤ max_threads demo_cfg) as HW by (simpl; lia).
  split; [exact HW|].
  destruct (each_candidate_requested_once demo_cfg demo_file demo_previous
              demo_final HW demo_reachable) as (_ & _ & H).
  exact (H eq_refl).
Defined.

Lemma idle_reachable :
  rtc (step idle_cfg)
    (enumerate idle_cfg Opened demo_file (init demo_previous)) idle_final.
Proof.
  apply (run_rtc idle_cfg [RunMain "0.00"; RunMain "0.00"]).
  vm_compute. reflexivity.
Qed.

(** X6 on the scenario with no thread. *)
Lemma no_threads_no_requests_demo :
  max_threads idle_cfg ≤ 0
  ∧ requests (self idle_final) = []
  ∧ checked_count (self idle_final) = 0
  ∧ "[STATS] Total subdomains checked: 3" ∈ stdout (self idle_final).
Proof.
  assert (max_threads idle_cfg ≤ 0) as HW by (simpl; lia).
  split; [exact HW|].
  destruct (no_threads_no_requests idle_cfg demo_file demo_previous
              idle_final HW idle_reachable)
    as (_ & Hr & Hc & _ & _ & _ & _ & Hrep).
  split; [exact Hr|]. split; [exact Hc|].
  exact (proj1 (Hrep eq_refl ltac:(discriminate))).
Defined.

(** X7 on one thread and the three candidates. *)
Lemma worker_alone_in_pool_demo :
  ∃ n, solo demo_cfg demo_net demo_disk 0 n lone_worker
       = Some (mkMachine
                 (worker demo_cfg demo_net demo_disk ["a"; "b"; "c"]
                    (init "")).1 []
                 None [Finished] (Joining 0)).
Proof.
  exact (worker_alone_in_pool demo_cfg demo_net demo_disk 0 lone_worker
           eq_refl eq_refl).
Defined.

Lemma demo_accepted : Forall accepts demo_schedule.
Proof. repeat constructor. Qed.

(** X9 on the scenario: two lines for two entries. *)
Lemma output_file_lists_the_entries_demo :
  newlines (domain demo_cfg) = 0%nat
  ∧ run demo_cfg demo_schedule
      (enumerate demo_cfg Opened (FileLines (Text.readlines demo_content))
         (init demo_previous)) = Some demo_final
  ∧ Forall accepts demo_schedule
  ∧ lock demo_final = None
  ∧ newlines (output (self demo_final)) = 2%nat.
Proof.
  assert (newlines (domain demo_cfg) = 0%nat) as Hd by reflexivity.
  split; [exact Hd|]. split; [exact demo_run|].
  split; [exact demo_accepted|]. split; [reflexivity|].
  exact (proj2 (output_file_lists_the_entries demo_cfg demo_content
                  demo_previous demo_schedule demo_final Hd demo_run
                  demo_accepted eq_refl)).
Defined.

(** X10 on the scenario: of the counts 1, 2 and 3 only the first is
    reported. *)
Lemma progress_lines_in_order_demo :
  progress_lines (stdout (self demo_final))
  = ["[PROGRESS] Checking 1/3 subdomains..."].
Proof.
  exact (proj2 (progress_lines_in_order demo_cfg demo_file demo_previous
                  demo_final demo_reachable)
           ltac:(simpl; lia) eq_refl).
Defined.

(** X11 on a list that is also the output file. *)
Lemma same_file_loses_the_candidates_demo :
  subdomain_file same_cfg = output_file same_cfg
  ∧ main (scan same_cfg Opened same_fs) = Returned
  ∧ requests (self (scan same_cfg Opened same_fs)) = [].
Proof.
  assert (subdomain_file same_cfg = output_file same_cfg) as Hs
    by reflexivity.
  split; [exact Hs|].
  destruct (same_file_loses_the_candidates same_cfg same_fs Hs)
    as (_ & Hm & _ & _ & Hr & _).
  split; [exact Hm|exact Hr].
Defined.

(** X12 for example.com. *)
Lemma normalise_strips_scheme_demo :
  Text.among "example.com" "/" = false
  ∧ normalise "https://example.com/" = "example.com".
Proof.
  assert (Text.among "example.com" "/" = false) as Hs by reflexivity.
  split; [exact Hs|].
  exact (proj2 (proj2 (proj2 (proj2 (proj2
           (normalise_strips_scheme "example.com" Hs)))))).
Defined.

(** X14 on the scenario: the report gives 3 checked and 2 found. *)
Lemma report_agrees_with_the_list_demo :
  loaded demo_file ≠ []
  ∧ ∃ elapsed before,
      stdout (self demo_final)
      = before
        ++ report_lines demo_cfg elapsed 3
             ["a.example.com - http://a.example.com (Status: 200)";
              "c.example.com - https://c.example.com (Status: 200)"].
Proof.
  assert (loaded demo_file ≠ []) as Hne by discriminate.
  split; [exact Hne|].
  exact (report_agrees_with_the_list demo_cfg demo_file demo_previous
           demo_final demo_reachable eq_refl Hne).
Defined.

(** X15 on the scenario: two announcements for two entries. *)
Lemma found_lines_follow_the_file_demo :
  run demo_cfg demo_schedule demo_start = Some demo_final
  ∧ found_lines (stdout (self demo_final))
    = ["[FOUND] a.example.com - http://a.example.com (Status: 200)";
       "[FOUND] c.example.com - https://c.example.com (Status: 200)"].
Proof.
  split; [exact demo_run|].
  destruct (found_lines_follow_the_file demo_cfg demo_file demo_previous
              demo_schedule demo_final demo_run)
    as (kept & pending & _ & _ & Hf & _ & Hfree & _ & Hall).
  rewrite (Hfree eq_refl), app_nil_r in Hf.
  rewrite (Hall demo_accepted eq_refl) in Hf. exact Hf.
Defined.

(** [strip] on a line that starts with a no-break space and ends with an
    em space, a line separator and the line feed. *)
Lemma strip_unicode_demo :
  Py.strip (String "194" (String "160" "www")
            +:+ String "226" (String "128" (String "131" ""))
            +:+ String "226" (String "128" (String "168" ""))
            +:+ String "010" "")
  = "www".
Proof. reflexivity. Qed.
